(** * The virtual-node model, the block tree, the DOM host operations and
      the application mount gate of the Vue runtime, embedded in Rocq.

    Sources embedded here:
    - [packages/runtime-core/src/vnode.ts]: block tracking ([openBlock],
      [closeBlock], [setBlockTracking], [setupBlock]), vnode creation
      ([createBaseVNode], [_createVNode], [cloneVNode], [normalizeChildren],
      [normalizeVNode], [cloneIfMounted], [mergeProps]) and the identity
      test [isSameVNodeType];
    - runtime-dom's [patchProp] and [shouldSetAsProp];
    - runtime-dom's [nodeOps.insert] and [nodeOps.remove];
    - [packages/runtime-core/src/apiCreateApp.ts]: [mount], [unmount] and
      [onUnmount], and the registries of the app ([use], [mixin],
      [component], [directive]);
    - runtime-dom's [createApp] and [createSSRApp] with the [mount] that
      they put on the app, [ensureRenderer] and [ensureHydrationRenderer].

    JavaScript numbers that the code uses as bit masks or counters are
    integers [Z]; [&], [|] and [~] are [Z.land], [Z.lor] and [Z.lnot]
    (two's complement, which agrees with JavaScript's 32-bit operators on
    the flag values).  Objects that the code mutates after sharing them
    (vnodes, the arrays of dynamic children) live in a store and are named
    by their index in it.

    The build embedded is the standard one, in which [__COMPAT__] is
    false: the statements that the sources guard by [if (__COMPAT__)] are
    not part of it.  [__DEV__], [__FEATURE_SUSPENSE__] and
    [__FEATURE_PROD_DEVTOOLS__] are parameters. *)

From Stdlib Require Import ZArith String Ascii DecimalString.
From stdpp Require Import base option list strings gmap.

Set Warnings "-register-all".
Local Open Scope Z_scope.

(** ** Enumerations of [@vue/shared] *)

(** The numeric values of [ShapeFlags], [PatchFlags] and [SlotFlags] are
    declared in [@vue/shared], which the sources import; the code below only
    ever names them, so they are taken as parameters. *)
Class SharedFlags : Type := {
  ELEMENT : Z;
  FUNCTIONAL_COMPONENT : Z;
  STATEFUL_COMPONENT : Z;
  TEXT_CHILDREN : Z;
  ARRAY_CHILDREN : Z;
  SLOTS_CHILDREN : Z;
  TELEPORT : Z;
  SUSPENSE : Z;
  COMPONENT_SHOULD_KEEP_ALIVE : Z;
  COMPONENT_KEPT_ALIVE : Z;
  COMPONENT : Z;
  FULL_PROPS : Z;
  NEED_HYDRATION : Z;
  DYNAMIC_SLOTS : Z;
  CACHED : Z;
  BAIL : Z;
  STABLE : Z;
  DYNAMIC : Z;
  FORWARDED : Z
}.

(** Modelled from the spec: an instance of the enumerations of
    [@vue/shared], whose declarations are outside the sources embedded
    here.  The spec says of them that the patch flag is a bitmask and that
    a flag that is not zero marks a dynamic node; the values are those of
    the published package: one bit for each shape, [COMPONENT] the union of
    the two component bits, and negative numbers for the two special patch
    flags.  The instance is used in the examples; the theorems hold for all
    values. *)
Definition sharedFlags : SharedFlags := {|
  ELEMENT := 1;
  FUNCTIONAL_COMPONENT := 2;
  STATEFUL_COMPONENT := 4;
  TEXT_CHILDREN := 8;
  ARRAY_CHILDREN := 16;
  SLOTS_CHILDREN := 32;
  TELEPORT := 64;
  SUSPENSE := 128;
  COMPONENT_SHOULD_KEEP_ALIVE := 256;
  COMPONENT_KEPT_ALIVE := 512;
  COMPONENT := 6;
  FULL_PROPS := 16;
  NEED_HYDRATION := 32;
  DYNAMIC_SLOTS := 1024;
  CACHED := -1;
  BAIL := -2;
  STABLE := 1;
  DYNAMIC := 2;
  FORWARDED := 3
|}.

(** The compile-time switches of the build. *)
Record BuildFlags : Type := {
  __DEV__ : bool;
  __FEATURE_SUSPENSE__ : bool;
  __FEATURE_PROD_DEVTOOLS__ : bool
}.

(** ** JavaScript values *)

(** Objects, functions and symbols are compared by identity: each carries
    the name of the object it denotes. *)
Definition Handle : Type := nat.

Inductive Value : Type :=
| VUndefined
| VNull
| VBool (b : bool)
| VNum (n : Z)
| VNaN
| VStr (s : string)
| VSym (h : Handle)
| VFun (h : Handle)
| VRef (h : Handle)          (* a reactivity Ref object *)
| VObj (h : Handle).

#[export] Instance Value_eq_dec : EqDecision Value.
Proof. solve_decision. Defined.

(** [a === b] *)
Definition strictEq (a b : Value) : bool :=
  match a, b with
  | VNaN, _ | _, VNaN => false
  | _, _ => bool_decide (a = b)
  end.

(** [a != null] *)
Definition notNullish (a : Value) : bool :=
  match a with VUndefined | VNull => false | _ => true end.

(** [!!a] *)
Definition truthy (a : Value) : bool :=
  match a with
  | VUndefined | VNull | VNaN => false
  | VBool b => b
  | VNum n => negb (n =? 0)
  | VStr s => negb (bool_decide (s = EmptyString))
  | _ => true
  end.

(** [String(n)] for a number that is a safe integer (of magnitude at most
    2^53), which JavaScript writes with all its decimal digits; and for a
    [BigInt], which it writes so whatever its size. *)
Definition numberToString (n : Z) : string :=
  NilZero.string_of_int (Z.to_int n).

(** [x & y] used as a condition. *)
Definition hasFlag (x y : Z) : bool := negb (Z.land x y =? 0).

(** An object literal or a props object: own enumerable properties in
    insertion order. *)
Definition Data : Type := list (string * Value).

Fixpoint getProp (o : Data) (k : string) : Value :=
  match o with
  | [] => VUndefined
  | (k', v) :: o' => if bool_decide (k' = k) then v else getProp o' k
  end.

(** [k in o] *)
Fixpoint hasProp (o : Data) (k : string) : bool :=
  match o with
  | [] => false
  | (k', _) :: o' => bool_decide (k' = k) || hasProp o' k
  end.

(** [o[k] = v]: an existing property keeps its place. *)
Fixpoint setProp (o : Data) (k : string) (v : Value) : Data :=
  match o with
  | [] => [(k, v)]
  | (k', v') :: o' =>
      if bool_decide (k' = k) then (k, v) :: o' else (k', v') :: setProp o' k v
  end.

(** [delete o[k]] *)
Definition deleteProp (o : Data) (k : string) : Data :=
  filter (fun kv => kv.1 <> k) o.

(** ** [vnode.ts]: the data model *)

Module VNodeModel.

(** What a caller may pass as the [type] of a vnode.  [Fragment], [Text],
    [Comment], [Static] and [NULL_DYNAMIC_COMPONENT] are the five symbols;
    [TObject] is a component options object ([raw] names the object behind
    it when it is a reactive proxy); [TFunction] is a function, a class
    component when it carries [__vccOpts]; [TVNode] is an existing vnode of
    the store; [TPrimitive] is any other primitive ([null], [undefined], a
    boolean, a number), none of which is a vnode type. *)
Inductive NonType : Type :=
| NTNull
| NTUndefined
| NTBool (b : bool)
| NTNum (n : Z)
| NTNaN.

#[export] Instance NonType_eq_dec : EqDecision NonType.
Proof. solve_decision. Defined.

Inductive VNodeTypes : Type :=
| TString (tag : string)
| TFragment
| TText
| TComment
| TStatic
| TNullDynamicComponent
| TTeleport
| TSuspense
| TObject (h : Handle) (raw : option Handle)
| TFunction (h : Handle) (vccOpts : option Handle)
| TVNode (r : nat)
| TPrimitive (v : NonType).

#[export] Instance VNodeTypes_eq_dec : EqDecision VNodeTypes.
Proof. solve_decision. Defined.

Definition Fragment : VNodeTypes := TFragment.
Definition Text : VNodeTypes := TText.
Definition Comment : VNodeTypes := TComment.
Definition Static : VNodeTypes := TStatic.
Definition NULL_DYNAMIC_COMPONENT : VNodeTypes := TNullDynamicComponent.

(** [!!type] *)
Definition typeTruthy (t : VNodeTypes) : bool :=
  match t with
  | TString s => negb (bool_decide (s = EmptyString))
  | TPrimitive NTNull | TPrimitive NTUndefined | TPrimitive NTNaN => false
  | TPrimitive (NTBool b) => b
  | TPrimitive (NTNum n) => negb (n =? 0)
  | _ => true
  end.

(** [t1 === t2] *)
Definition typeStrictEq (t1 t2 : VNodeTypes) : bool :=
  match t1, t2 with
  | TPrimitive NTNaN, _ | _, TPrimitive NTNaN => false
  | _, _ => bool_decide (t1 = t2)
  end.

Definition isString (t : VNodeTypes) : bool :=
  match t with TString _ => true | _ => false end.
Definition isSuspense (t : VNodeTypes) : bool :=
  match t with TSuspense => true | _ => false end.
Definition isTeleport (t : VNodeTypes) : bool :=
  match t with TTeleport => true | _ => false end.
Definition isObject (t : VNodeTypes) : bool :=
  match t with
  | TTeleport | TSuspense | TObject _ _ | TVNode _ => true
  | _ => false
  end.
Definition isFunction (t : VNodeTypes) : bool :=
  match t with TFunction _ _ => true | _ => false end.
Definition isClassComponent (t : VNodeTypes) : bool :=
  match t with TFunction _ (Some _) => true | _ => false end.
Definition isProxy (t : VNodeTypes) : bool :=
  match t with TObject _ (Some _) => true | _ => false end.
Definition toRaw (t : VNodeTypes) : VNodeTypes :=
  match t with TObject _ (Some r) => TObject r None | _ => t end.

(** Primitive children: what [String(children)] is applied to.  A number
    is [NaN] or a safe integer. *)
Inductive Primitive : Type :=
| PStr (s : string)
| PNum (n : Z)
| PNaN
| PBool (b : bool)
| PSym (description : string)
| PBigInt (n : Z).

(** [String(p)] *)
Definition String_ (p : Primitive) : string :=
  match p with
  | PStr s => s
  | PNum n => numberToString n
  | PNaN => "NaN"
  | PBool true => "true"
  | PBool false => "false"
  | PSym d => "Symbol(" ++ d ++ ")"
  | PBigInt n => numberToString n
  end%string.

Definition primTruthy (p : Primitive) : bool :=
  match p with
  | PStr s => negb (bool_decide (s = EmptyString))
  | PNum n | PBigInt n => negb (n =? 0)
  | PNaN => false
  | PBool b => b
  | PSym _ => true
  end.

(** A slot function: [_c] is the marker that [withCtx] puts on compiled
    slots; calling the slot yields children.  The call is taken for its
    result only: the vnodes that the body of a slot creates while it runs
    are creations of their own, which are not counted to the call that
    runs the slot. *)
Record SlotFn (R : Type) : Type := {
  _c : bool;
  call : unit -> R
}.
Arguments _c {R}.
Arguments call {R}.

(** An object passed as children: its [default] slot, its [_] slot flag,
    its [_ctx], and whether [isInternalObject] holds of it. *)
Record RawSlots (R : Type) : Type := {
  default : option (SlotFn R);
  slotFlag : option Z;
  _ctx : option Handle;
  internalObject : bool
}.
Arguments default {R}.
Arguments slotFlag {R}.
Arguments _ctx {R}.
Arguments internalObject {R}.

(** An element of a children array: a vnode, or anything else (a string, a
    number, a nested array), which this file never looks into. *)
Inductive ArrayItem (V : Type) : Type :=
| ItemVNode (v : V)
| ItemOther (x : Value).
Arguments ItemVNode {V}.
Arguments ItemOther {V}.

(** The [children] argument, by the cases [normalizeChildren] tells apart. *)
Inductive Children (V : Type) : Type :=
| ChUndefined
| ChNull
| ChArray (elems : list (ArrayItem V))
| ChObject (o : RawSlots (Children V))
| ChFunction (f : SlotFn (Children V))
| ChPrimitive (p : Primitive).
Arguments ChUndefined {V}.
Arguments ChNull {V}.
Arguments ChArray {V}.
Arguments ChObject {V}.
Arguments ChFunction {V}.
Arguments ChPrimitive {V}.

(** A normalized [ref]: an atom [{ i, r, k, f }] or the value passed through
    as it was. *)
Inductive RefAtom : Type :=
| Atom (i : option Handle) (r : Value) (k : Value) (f : bool)
| RawRef (v : Value).

Inductive NormalizedRef : Type :=
| RefNull
| RefOne (a : RefAtom)
| RefMany (l : list RefAtom).

(** [dynamicChildren]: one of the arrays made by [openBlock], or the shared
    [EMPTY_ARR]. *)
Inductive DynamicChildren : Type :=
| BlockArray (b : nat)
| EMPTY_ARR.

Inductive VNode : Type := mkVNode {
  type : VNodeTypes;
  props : option Data;
  key : Value;
  ref : NormalizedRef;
  scopeId : option string;
  slotScopeIds : option (list string);
  children : Children VNode;
  component : option Handle;
  suspense : option Handle;
  ssContent : option VNode;
  ssFallback : option VNode;
  dirs : option Handle;
  transition : option Handle;
  el : option Handle;
  anchor : option Handle;
  target : option Handle;
  targetStart : option Handle;
  targetAnchor : option Handle;
  staticCount : Z;
  shapeFlag : Z;
  patchFlag : Z;
  dynamicProps : option (list string);
  dynamicChildren : option DynamicChildren;
  appContext : option Handle;
  ctx : option Handle;
  ce : option Handle;
  memo : option Handle
}.

(** Field assignments. *)
Definition set_props (x : option Data) (v : VNode) : VNode :=
  let 'mkVNode a1 a2 a3 a4 a5 a6 a7 a8 a9 a10 a11 a12 a13 a14 a15 a16 a17 a18
        a19 a20 a21 a22 a23 a24 a25 a26 a27 := v in
  mkVNode a1 x a3 a4 a5 a6 a7 a8 a9 a10 a11 a12 a13 a14 a15 a16 a17 a18
    a19 a20 a21 a22 a23 a24 a25 a26 a27.
Definition set_children (x : Children VNode) (v : VNode) : VNode :=
  let 'mkVNode a1 a2 a3 a4 a5 a6 a7 a8 a9 a10 a11 a12 a13 a14 a15 a16 a17 a18
        a19 a20 a21 a22 a23 a24 a25 a26 a27 := v in
  mkVNode a1 a2 a3 a4 a5 a6 x a8 a9 a10 a11 a12 a13 a14 a15 a16 a17 a18
    a19 a20 a21 a22 a23 a24 a25 a26 a27.
Definition set_component (x : option Handle) (v : VNode) : VNode :=
  let 'mkVNode a1 a2 a3 a4 a5 a6 a7 a8 a9 a10 a11 a12 a13 a14 a15 a16 a17 a18
        a19 a20 a21 a22 a23 a24 a25 a26 a27 := v in
  mkVNode a1 a2 a3 a4 a5 a6 a7 x a9 a10 a11 a12 a13 a14 a15 a16 a17 a18
    a19 a20 a21 a22 a23 a24 a25 a26 a27.
Definition set_ssContent (x : option VNode) (v : VNode) : VNode :=
  let 'mkVNode a1 a2 a3 a4 a5 a6 a7 a8 a9 a10 a11 a12 a13 a14 a15 a16 a17 a18
        a19 a20 a21 a22 a23 a24 a25 a26 a27 := v in
  mkVNode a1 a2 a3 a4 a5 a6 a7 a8 a9 x a11 a12 a13 a14 a15 a16 a17 a18
    a19 a20 a21 a22 a23 a24 a25 a26 a27.
Definition set_ssFallback (x : option VNode) (v : VNode) : VNode :=
  let 'mkVNode a1 a2 a3 a4 a5 a6 a7 a8 a9 a10 a11 a12 a13 a14 a15 a16 a17 a18
        a19 a20 a21 a22 a23 a24 a25 a26 a27 := v in
  mkVNode a1 a2 a3 a4 a5 a6 a7 a8 a9 a10 x a12 a13 a14 a15 a16 a17 a18
    a19 a20 a21 a22 a23 a24 a25 a26 a27.
Definition set_transition (x : option Handle) (v : VNode) : VNode :=
  let 'mkVNode a1 a2 a3 a4 a5 a6 a7 a8 a9 a10 a11 a12 a13 a14 a15 a16 a17 a18
        a19 a20 a21 a22 a23 a24 a25 a26 a27 := v in
  mkVNode a1 a2 a3 a4 a5 a6 a7 a8 a9 a10 a11 a12 x a14 a15 a16 a17 a18
    a19 a20 a21 a22 a23 a24 a25 a26 a27.
Definition set_el (x : option Handle) (v : VNode) : VNode :=
  let 'mkVNode a1 a2 a3 a4 a5 a6 a7 a8 a9 a10 a11 a12 a13 a14 a15 a16 a17 a18
        a19 a20 a21 a22 a23 a24 a25 a26 a27 := v in
  mkVNode a1 a2 a3 a4 a5 a6 a7 a8 a9 a10 a11 a12 a13 x a15 a16 a17 a18
    a19 a20 a21 a22 a23 a24 a25 a26 a27.

Definition set_staticCount (x : Z) (v : VNode) : VNode :=
  let 'mkVNode a1 a2 a3 a4 a5 a6 a7 a8 a9 a10 a11 a12 a13 a14 a15 a16 a17 a18
        a19 a20 a21 a22 a23 a24 a25 a26 a27 := v in
  mkVNode a1 a2 a3 a4 a5 a6 a7 a8 a9 a10 a11 a12 a13 a14 a15 a16 a17 a18
    x a20 a21 a22 a23 a24 a25 a26 a27.
Definition set_shapeFlag (x : Z) (v : VNode) : VNode :=
  let 'mkVNode a1 a2 a3 a4 a5 a6 a7 a8 a9 a10 a11 a12 a13 a14 a15 a16 a17 a18
        a19 a20 a21 a22 a23 a24 a25 a26 a27 := v in
  mkVNode a1 a2 a3 a4 a5 a6 a7 a8 a9 a10 a11 a12 a13 a14 a15 a16 a17 a18
    a19 x a21 a22 a23 a24 a25 a26 a27.
Definition set_patchFlag (x : Z) (v : VNode) : VNode :=
  let 'mkVNode a1 a2 a3 a4 a5 a6 a7 a8 a9 a10 a11 a12 a13 a14 a15 a16 a17 a18
        a19 a20 a21 a22 a23 a24 a25 a26 a27 := v in
  mkVNode a1 a2 a3 a4 a5 a6 a7 a8 a9 a10 a11 a12 a13 a14 a15 a16 a17 a18
    a19 a20 x a22 a23 a24 a25 a26 a27.
Definition set_dynamicProps (x : option (list string)) (v : VNode) : VNode :=
  let 'mkVNode a1 a2 a3 a4 a5 a6 a7 a8 a9 a10 a11 a12 a13 a14 a15 a16 a17 a18
        a19 a20 a21 a22 a23 a24 a25 a26 a27 := v in
  mkVNode a1 a2 a3 a4 a5 a6 a7 a8 a9 a10 a11 a12 a13 a14 a15 a16 a17 a18
    a19 a20 a21 x a23 a24 a25 a26 a27.
Definition set_dynamicChildren (x : option DynamicChildren) (v : VNode)
  : VNode :=
  let 'mkVNode a1 a2 a3 a4 a5 a6 a7 a8 a9 a10 a11 a12 a13 a14 a15 a16 a17 a18
        a19 a20 a21 a22 a23 a24 a25 a26 a27 := v in
  mkVNode a1 a2 a3 a4 a5 a6 a7 a8 a9 a10 a11 a12 a13 a14 a15 a16 a17 a18
    a19 a20 a21 a22 x a24 a25 a26 a27.
Definition set_appContext (x : option Handle) (v : VNode) : VNode :=
  let 'mkVNode a1 a2 a3 a4 a5 a6 a7 a8 a9 a10 a11 a12 a13 a14 a15 a16 a17 a18
        a19 a20 a21 a22 a23 a24 a25 a26 a27 := v in
  mkVNode a1 a2 a3 a4 a5 a6 a7 a8 a9 a10 a11 a12 a13 a14 a15 a16 a17 a18
    a19 a20 a21 a22 a23 x a25 a26 a27.

(** An array of dynamic children, as [openBlock] makes them: the vnodes
    pushed so far, by their place in the store, and the [hasOnce] mark. *)
Record Block : Type := {
  items : list nat;
  hasOnce : bool
}.

(** The module state: the vnode objects and block arrays allocated so far,
    and the three module variables [blockStack], [currentBlock] and
    [isBlockTreeEnabled]. *)
Record State : Type := {
  vnodes : list VNode;
  blocks : list Block;
  blockStack : list (option nat);
  currentBlock : option nat;
  isBlockTreeEnabled : Z
}.

(** The state when the module is loaded. *)
Definition initial : State := {|
  vnodes := [];
  blocks := [];
  blockStack := [];
  currentBlock := None;
  isBlockTreeEnabled := 1
|}.

(** What the module reads from its imports: the build switches, the
    rendering context ([currentRenderingInstance], the [_] flag of its
    [slots], [currentScopeId]), the hot-reload registry, and the helpers of
    modules that are outside this development.  The helpers are parameters:
    [normalizeClass], [normalizeStyle] (on one value and on the two-element
    array that [mergeProps] builds), [isOn], the array operations that
    [mergeProps] applies to listeners, [SuspenseImpl.normalize], and
    [setTransitionHooks] composed with the [clone] method of the
    transition hooks. *)
Record Env : Type := {
  build : BuildFlags;
  currentRenderingInstance : option Handle;
  currentRenderingInstance_slotFlag : option Z;
  currentScopeId : option string;
  hmrDirtyComponents : VNodeTypes -> option (gset Handle);
  normalizeClass : Value -> Value;
  normalizeClass2 : Value -> Value -> Value;
  normalizeStyle : Value -> Value;
  normalizeStyle2 : Value -> Value -> Value;
  isOn : string -> bool;
  isArrayIncluding : Value -> Value -> bool;
  concat2 : Value -> Value -> Value;
  SuspenseImpl_normalize : VNode -> VNode;
  setTransitionHooks_clone : VNode -> Handle -> VNode
}.

(** ** [vnode.ts]: the operations *)

Section Operations.

Context `{F : SharedFlags} (E : Env).

Definition DEV : bool := __DEV__ (build E).

(** *** The block stack *)

Definition newBlock : Block := {| items := []; hasOnce := false |}.

(** [blockStack.push((currentBlock = disableTracking ? null : []))] *)
Definition openBlock (disableTracking : bool) (s : State) : State :=
  if disableTracking then
    {| vnodes := vnodes s;
       blocks := blocks s;
       blockStack := blockStack s ++ [None];
       currentBlock := None;
       isBlockTreeEnabled := isBlockTreeEnabled s |}
  else
    let b := length (blocks s) in
    {| vnodes := vnodes s;
       blocks := blocks s ++ [newBlock];
       blockStack := blockStack s ++ [Some b];
       currentBlock := Some b;
       isBlockTreeEnabled := isBlockTreeEnabled s |}.

(** [blockStack[blockStack.length - 1] || null] *)
Definition top (st : list (option nat)) : option nat :=
  match last st with
  | Some (Some b) => Some b
  | _ => None
  end.

Definition closeBlock (s : State) : State :=
  let st := removelast (blockStack s) in
  {| vnodes := vnodes s;
     blocks := blocks s;
     blockStack := st;
     currentBlock := top st;
     isBlockTreeEnabled := isBlockTreeEnabled s |}.

(** [block.hasOnce = true] *)
Definition markOnce (b : nat) (s : State) : State :=
  {| vnodes := vnodes s;
     blocks := alter (fun blk => {| items := items blk; hasOnce := true |})
                 b (blocks s);
     blockStack := blockStack s;
     currentBlock := currentBlock s;
     isBlockTreeEnabled := isBlockTreeEnabled s |}.

Definition setBlockTracking (value : Z) (s : State) : State :=
  let s1 :=
    {| vnodes := vnodes s;
       blocks := blocks s;
       blockStack := blockStack s;
       currentBlock := currentBlock s;
       isBlockTreeEnabled := isBlockTreeEnabled s + value |} in
  match currentBlock s1 with
  | Some b => if value <? 0 then markOnce b s1 else s1
  | None => s1
  end.

(** [block.push(vnode)] *)
Definition push (b : nat) (r : nat) (s : State) : State :=
  {| vnodes := vnodes s;
     blocks := alter (fun blk => {| items := items blk ++ [r];
                                    hasOnce := hasOnce blk |}) b (blocks s);
     blockStack := blockStack s;
     currentBlock := currentBlock s;
     isBlockTreeEnabled := isBlockTreeEnabled s |}.

(** A new vnode object: its reference and the store that holds it. *)
Definition alloc (v : VNode) (s : State) : nat * State :=
  (length (vnodes s),
   {| vnodes := vnodes s ++ [v];
      blocks := blocks s;
      blockStack := blockStack s;
      currentBlock := currentBlock s;
      isBlockTreeEnabled := isBlockTreeEnabled s |}).

(** An assignment to a field of the vnode object [r]. *)
Definition assign (r : nat) (f : VNode -> VNode) (s : State) : State :=
  {| vnodes := alter f r (vnodes s);
     blocks := blocks s;
     blockStack := blockStack s;
     currentBlock := currentBlock s;
     isBlockTreeEnabled := isBlockTreeEnabled s |}.

Definition setupBlock (vnode : nat) (s : State) : nat * State :=
  (* save current block children on the block vnode *)
  let dc :=
    if 0 <? isBlockTreeEnabled s then
      Some (match currentBlock s with
            | Some b => BlockArray b
            | None => EMPTY_ARR
            end)
    else None in
  let s1 := assign vnode (set_dynamicChildren dc) s in
  (* close block *)
  let s2 := closeBlock s1 in
  (* a block is always going to be patched, so track it as a child of its
     parent block *)
  let s3 :=
    match currentBlock s2 with
    | Some b => if 0 <? isBlockTreeEnabled s2 then push b vnode s2 else s2
    | None => s2
    end in
  (vnode, s3).

(** *** Keys, refs and props *)

Definition normalizeKey (props : Data) : Value :=
  let key := getProp props "key" in
  if notNullish key then key else VNull.

Definition normalizeRef (props : Data) : NormalizedRef :=
  let ref := getProp props "ref" in
  let ref :=
    match ref with
    | VNum n => VStr (numberToString n)
    | VNaN => VStr "NaN"
    | _ => ref
    end in
  if notNullish ref then
    match ref with
    | VStr _ | VRef _ | VFun _ =>
        RefOne (Atom (currentRenderingInstance E) ref
                  (getProp props "ref_key") (truthy (getProp props "ref_for")))
    | _ => RefOne (RawRef ref)
    end
  else RefNull.

(** One step of the [for (const key in toMerge)] loop of [mergeProps].
    [ret] is an object literal, so [ret.__proto__ = v] is a call of the
    setter that [Object.prototype] has for this key: it makes no property
    of [ret]. *)
Definition mergeProp (toMerge : Data) (ret : Data) (key : string) : Data :=
  if bool_decide (key = "class"%string) then
    if strictEq (getProp ret "class") (getProp toMerge "class") then ret
    else setProp ret "class"
           (normalizeClass2 E (getProp ret "class") (getProp toMerge "class"))
  else if bool_decide (key = "style"%string) then
    setProp ret "style"
      (normalizeStyle2 E (getProp ret "style") (getProp toMerge "style"))
  else if isOn E key then
    let existing := getProp ret key in
    let incoming := getProp toMerge key in
    if truthy incoming && negb (strictEq existing incoming)
       && negb (isArrayIncluding E existing incoming)
    then setProp ret key
           (if truthy existing then concat2 E existing incoming else incoming)
    else ret
  else if bool_decide (key <> EmptyString) then
    if bool_decide (key = "__proto__"%string) then ret
    else setProp ret key (getProp toMerge key)
  else ret.

Definition mergeProps (args : list Data) : Data :=
  foldl (fun ret toMerge => foldl (mergeProp toMerge) ret toMerge.*1) [] args.

(** [guardReactiveProps]: a reactive or internal props object is copied,
    any other is returned as it is; either way the properties are the
    same. *)
Definition guardReactiveProps (props : option Data) : option Data :=
  match props with
  | None => None
  | Some p => Some p
  end.

(** *** Cloning *)

Definition isArray {V} (c : Children V) : bool :=
  match c with ChArray _ => true | _ => false end.

(** [cloneVNode] and [deepCloneVNode] call each other on the same vnode, so
    they are one recursive function here: [deep] tells whether the call is
    [deepCloneVNode]'s, which replaces the children array of the clone by
    the deep clones of its elements.  The two functions and the equations
    that the source gives them follow.  The elements of the children array
    of a hoisted vnode are vnodes; an element that is not one is left as it
    is. *)
Fixpoint cloneVNode_ (deep : bool) (vnode : VNode) (extraProps : option Data)
    (mergeRef cloneTransition : bool) {struct vnode} : VNode :=
  let mergedProps :=
    match extraProps with
    | Some e =>
        Some (mergeProps [match props vnode with Some p => p | None => [] end;
                          e])
    | None => props vnode
    end in
  let cloned :=
    {| type := type vnode;
       props := mergedProps;
       key := match mergedProps with
              | Some m => normalizeKey m
              | None => VNull
              end;
       ref :=
         match extraProps with
         | Some e =>
             if truthy (getProp e "ref") then
               if mergeRef then
                 match ref vnode with
                 | RefNull => normalizeRef e
                 | RefMany l =>
                     RefMany (l ++ match normalizeRef e with
                                   | RefNull => []
                                   | RefOne a => [a]
                                   | RefMany l' => l'
                                   end)
                 | RefOne a =>
                     RefMany (a :: match normalizeRef e with
                                   | RefNull => []
                                   | RefOne a' => [a']
                                   | RefMany l' => l'
                                   end)
                 end
               else normalizeRef e
             else ref vnode
         | None => ref vnode
         end;
       scopeId := scopeId vnode;
       slotScopeIds := slotScopeIds vnode;
       children :=
         match children vnode with
         | ChArray elems =>
             if deep || DEV && (patchFlag vnode =? CACHED) then
               ChArray (map (fun c =>
                               match c with
                               | ItemVNode w =>
                                   ItemVNode
                                     (cloneVNode_ true w None false false)
                               | ItemOther x => ItemOther x
                               end) elems)
             else ChArray elems
         | c => c
         end;
       component := component vnode;
       suspense := suspense vnode;
       ssContent :=
         match ssContent vnode with
         | Some c => Some (cloneVNode_ false c None false false)
         | None => None
         end;
       ssFallback :=
         match ssFallback vnode with
         | Some c => Some (cloneVNode_ false c None false false)
         | None => None
         end;
       dirs := dirs vnode;
       transition := transition vnode;
       el := el vnode;
       anchor := anchor vnode;
       target := target vnode;
       targetStart := targetStart vnode;
       targetAnchor := targetAnchor vnode;
       staticCount := staticCount vnode;
       shapeFlag := shapeFlag vnode;
       (* if the vnode is cloned with extra props, we can no longer assume
          its existing patch flag to be reliable and need to add the
          FULL_PROPS flag. *)
       patchFlag :=
         match extraProps with
         | Some _ =>
             if typeStrictEq (type vnode) Fragment then patchFlag vnode
             else if patchFlag vnode =? CACHED then FULL_PROPS
             else Z.lor (patchFlag vnode) FULL_PROPS
         | None => patchFlag vnode
         end;
       dynamicProps := dynamicProps vnode;
       dynamicChildren := dynamicChildren vnode;
       appContext := appContext vnode;
       ctx := ctx vnode;
       ce := ce vnode;
       memo := None |} in
  match transition vnode with
  | Some t =>
      if cloneTransition then setTransitionHooks_clone E cloned t else cloned
  | None => cloned
  end.

Definition cloneVNode (vnode : VNode) (extraProps : option Data)
    (mergeRef cloneTransition : bool) : VNode :=
  cloneVNode_ false vnode extraProps mergeRef cloneTransition.

Definition deepCloneVNode (vnode : VNode) : VNode :=
  cloneVNode_ true vnode None false false.

Definition cloneItem (c : ArrayItem VNode) : ArrayItem VNode :=
  match c with
  | ItemVNode w => ItemVNode (deepCloneVNode w)
  | ItemOther x => ItemOther x
  end.

(** *** Children *)

(** [children] used as a condition. *)
Definition childrenTruthy {V} (c : Children V) : bool :=
  match c with
  | ChUndefined | ChNull => false
  | ChPrimitive p => primTruthy p
  | _ => true
  end.

Definition isStringChildren {V} (c : Children V) : bool :=
  match c with ChPrimitive (PStr _) => true | _ => false end.

(** [slotFlag] used as a condition. *)
Definition flagTruthy (f : option Z) : bool :=
  match f with Some n => negb (n =? 0) | None => false end.

(** The two assignments that end [normalizeChildren]. *)
Definition storeChildren (vnode : VNode) (children : Children VNode)
    (type : Z) : VNode :=
  set_shapeFlag (Z.lor (shapeFlag vnode) type) (set_children children vnode).

Section Creation.

(** [createTextVNode], which [normalizeChildren] calls on the text of a
    Teleport and which is defined from [createVNode] further down.  The
    functions of this section are those of the source with this call as a
    variable; their names end in an underscore, and the section is closed
    over [createTextVNode0] after it to give [normalizeChildren],
    [createBaseVNode] and [_createVNode]. *)
Variable createTextVNode_ : string -> State -> VNode * State.

(** [normalizeChildren(vnode, children)]: the vnode as the call leaves it.
    The [_d] mark of a compiled slot is cleared before the slot is called
    and set again after it, which leaves nothing behind.  The state that
    is returned holds what [normalizeChildren] creates itself, the text
    vnode of a Teleport; the vnodes that the body of a slot creates and
    tracks while it is called are the slot's own creations and are not
    added to it. *)
Fixpoint normalizeChildren_ (vnode : VNode) (children : Children VNode)
    (s : State) {struct children} : VNode * State :=
  match children with
  | ChUndefined | ChNull => (storeChildren vnode ChNull 0, s)
  | ChArray elems => (storeChildren vnode (ChArray elems) ARRAY_CHILDREN, s)
  | ChObject o =>
      if hasFlag (shapeFlag vnode) (Z.lor ELEMENT TELEPORT) then
        (* Normalize slot to plain children for plain element and Teleport *)
        match default o with
        | Some slot => normalizeChildren_ vnode (call slot tt) s
        | None => (vnode, s)
        end
      else if negb (flagTruthy (slotFlag o)) && negb (internalObject o) then
        (* if slots are not normalized, attach context instance *)
        (storeChildren vnode
           (ChObject {| default := default o;
                        slotFlag := slotFlag o;
                        _ctx := currentRenderingInstance E;
                        internalObject := internalObject o |})
           SLOTS_CHILDREN, s)
      else if bool_decide (slotFlag o = Some FORWARDED)
              && bool_decide (is_Some (currentRenderingInstance E)) then
        (* a child component receives forwarded slots from the parent *)
        if bool_decide (currentRenderingInstance_slotFlag E = Some STABLE)
        then
          (storeChildren vnode
             (ChObject {| default := default o;
                          slotFlag := Some STABLE;
                          _ctx := _ctx o;
                          internalObject := internalObject o |})
             SLOTS_CHILDREN, s)
        else
          (storeChildren
             (set_patchFlag (Z.lor (patchFlag vnode) DYNAMIC_SLOTS) vnode)
             (ChObject {| default := default o;
                          slotFlag := Some DYNAMIC;
                          _ctx := _ctx o;
                          internalObject := internalObject o |})
             SLOTS_CHILDREN, s)
      else (storeChildren vnode (ChObject o) SLOTS_CHILDREN, s)
  | ChFunction f =>
      (storeChildren vnode
         (ChObject {| default := Some f;
                      slotFlag := None;
                      _ctx := currentRenderingInstance E;
                      internalObject := false |})
         SLOTS_CHILDREN, s)
  | ChPrimitive p =>
      let text := String_ p in
      (* force teleport children to array so it can be moved around *)
      if hasFlag (shapeFlag vnode) TELEPORT then
        let '(t, s1) := createTextVNode_ text s in
        (storeChildren vnode (ChArray [ItemVNode t]) ARRAY_CHILDREN, s1)
      else (storeChildren vnode (ChPrimitive (PStr text)) TEXT_CHILDREN, s)
  end.

Fixpoint replaceFirst {A} `{EqDecision A} (x y : A) (l : list A) : list A :=
  match l with
  | [] => []
  | z :: l' => if bool_decide (z = x) then y :: l' else z :: replaceFirst x y l'
  end.

(** The object that [createBaseVNode] starts from. *)
Definition baseVNode (type : VNodeTypes) (props : option Data)
    (children : Children VNode) (patchFlag : Z)
    (dynamicProps : option (list string)) (shapeFlag : Z) : VNode :=
  {| type := type;
     props := props;
     key := match props with Some p => normalizeKey p | None => VNull end;
     ref := match props with Some p => normalizeRef p | None => RefNull end;
     scopeId := currentScopeId E;
     slotScopeIds := None;
     children := children;
     component := None;
     suspense := None;
     ssContent := None;
     ssFallback := None;
     dirs := None;
     transition := None;
     el := None;
     anchor := None;
     target := None;
     targetStart := None;
     targetAnchor := None;
     staticCount := 0;
     shapeFlag := shapeFlag;
     patchFlag := patchFlag;
     dynamicProps := dynamicProps;
     dynamicChildren := None;
     appContext := None;
     ctx := currentRenderingInstance E;
     ce := None;
     memo := None |}.

(** The condition under which [createBaseVNode] tracks the vnode, and the
    block that it is pushed to: block tracking is on, the vnode is not a
    block node, there is a current block, the vnode has a positive patch
    flag or is a component, and its patch flag is not [NEED_HYDRATION]
    alone. *)
Definition trackedIn (s : State) (isBlockNode : bool) (shapeFlag : Z)
    (vnode : VNode) : option nat :=
  match currentBlock s with
  | Some b =>
      if (0 <? isBlockTreeEnabled s)
         (* avoid a block node from tracking itself *)
         && negb isBlockNode
         (* presence of a patch flag indicates this node needs patching on
            updates. component nodes also should always be patched *)
         && ((0 <? patchFlag vnode) || hasFlag shapeFlag COMPONENT)
         (* the EVENTS flag is only for hydration and if it is the only
            flag, the vnode should not be considered dynamic *)
         && negb (patchFlag vnode =? NEED_HYDRATION)
      then Some b else None
  | None => None
  end.

(** [createBaseVNode]; [shapeFlag] is [None] when the caller leaves it out.
    The warning about a [NaN] key changes nothing that is modelled. *)
Definition createBaseVNode_ (type : VNodeTypes) (props : option Data)
    (children : Children VNode) (patchFlag : Z)
    (dynamicProps : option (list string)) (shapeFlag : option Z)
    (isBlockNode needFullChildrenNormalization : bool) (s : State)
  : nat * State :=
  let children := match children with ChUndefined => ChNull | c => c end in
  let shapeFlag :=
    match shapeFlag with
    | Some f => f
    | None => if typeStrictEq type Fragment then 0 else ELEMENT
    end in
  let vnode := baseVNode type props children patchFlag dynamicProps shapeFlag in
  let '(vnode, s1) :=
    if needFullChildrenNormalization then
      let '(v, s1) := normalizeChildren_ vnode children s in
      (* normalize suspense children *)
      (if __FEATURE_SUSPENSE__ (build E) && hasFlag shapeFlag SUSPENSE
       then SuspenseImpl_normalize E v else v, s1)
    else if childrenTruthy children then
      (* compiled element vnode - if children is passed, only possible
         types are string or Array. *)
      (set_shapeFlag
         (Z.lor (VNodeModel.shapeFlag vnode)
            (if isStringChildren children then TEXT_CHILDREN
             else ARRAY_CHILDREN)) vnode, s)
    else (vnode, s) in
  (* track vnode for block tree *)
  let tracked := trackedIn s1 isBlockNode shapeFlag vnode in
  let '(r, s2) := alloc vnode s1 in
  (r, match tracked with Some b => push b r s2 | None => s2 end).

(** [isVNode(type)]: the type is a vnode object of the store. *)
Definition isVNode (s : State) (t : VNodeTypes) : option VNode :=
  match t with
  | TVNode r => vnodes s !! r
  | _ => None
  end.

Definition isObjectValue (v : Value) : bool :=
  match v with VObj _ | VRef _ => true | _ => false end.
Definition isStringValue (v : Value) : bool :=
  match v with VStr _ => true | _ => false end.

(** [block[block.indexOf(old)] = new]; when [old] is not in the array the
    assignment is to the property [-1] and no element changes. *)
Definition replaceInBlock (b : nat) (old new : nat) (s : State) : State :=
  {| vnodes := vnodes s;
     blocks := alter (fun blk => {| items := replaceFirst old new (items blk);
                                    hasOnce := hasOnce blk |}) b (blocks s);
     blockStack := blockStack s;
     currentBlock := currentBlock s;
     isBlockTreeEnabled := isBlockTreeEnabled s |}.

(** class & style normalization. *)
Definition normalizeClassAndStyle (props : option Data) : option Data :=
  match guardReactiveProps props with
  | Some p =>
      let klass := getProp p "class" in
      let style := getProp p "style" in
      let p :=
        if truthy klass && negb (isStringValue klass)
        then setProp p "class" (normalizeClass E klass) else p in
      let p :=
        if isObjectValue style
        then setProp p "style" (normalizeStyle E style) else p in
      Some p
  | None => None
  end.

(** encode the vnode type information into a bitmap *)
Definition encodeShapeFlag (type : VNodeTypes) : Z :=
  if isString type then ELEMENT
  else if __FEATURE_SUSPENSE__ (build E) && isSuspense type then SUSPENSE
  else if isTeleport type then TELEPORT
  else if isObject type then STATEFUL_COMPONENT
  else if isFunction type then FUNCTIONAL_COMPONENT
  else 0.

(** [_createVNode]. *)
Definition _createVNode_ (type : VNodeTypes) (props : option Data)
    (children : Children VNode) (patchFlag : Z)
    (dynamicProps : option (list string)) (isBlockNode : bool) (s : State)
  : nat * State :=
  let type :=
    if negb (typeTruthy type) || typeStrictEq type NULL_DYNAMIC_COMPONENT
    then Comment else type in
  match type, isVNode s type with
  | TVNode old, Some v =>
      (* createVNode receiving an existing vnode. This happens in cases
         like <component :is="vnode"/> *)
      let cloned := cloneVNode v props true false in
      let '(cloned, s1) :=
        if childrenTruthy children then normalizeChildren_ cloned children s
        else (cloned, s) in
      let '(r, s2) := alloc (set_patchFlag BAIL cloned) s1 in
      (r,
       match currentBlock s2 with
       | Some b =>
           if (0 <? isBlockTreeEnabled s2) && negb isBlockNode then
             if hasFlag (VNodeModel.shapeFlag cloned) COMPONENT
             then replaceInBlock b old r s2
             else push b r s2
           else s2
       | None => s2
       end)
  | _, _ =>
      (* class component normalization. *)
      let type :=
        match type with
        | TFunction _ (Some opts) => TObject opts None
        | _ => type
        end in
      let props := normalizeClassAndStyle props in
      let shapeFlag := encodeShapeFlag type in
      let type :=
        if DEV && hasFlag shapeFlag STATEFUL_COMPONENT && isProxy type
        then toRaw type else type in
      createBaseVNode_ type props children patchFlag dynamicProps
        (Some shapeFlag) isBlockNode true s
  end.

End Creation.

(** A vnode object by its reference; [blank] stands for the object of a
    reference outside the store, which no operation returns. *)
Definition blank : VNode :=
  {| type := TPrimitive NTUndefined; props := None; key := VNull;
     ref := RefNull; scopeId := None; slotScopeIds := None;
     children := ChNull; component := None; suspense := None;
     ssContent := None; ssFallback := None; dirs := None;
     transition := None; el := None; anchor := None; target := None;
     targetStart := None; targetAnchor := None; staticCount := 0;
     shapeFlag := 0; patchFlag := 0; dynamicProps := None;
     dynamicChildren := None; appContext := None; ctx := None; ce := None;
     memo := None |}.

Definition deref (s : State) (r : nat) : VNode :=
  match vnodes s !! r with Some v => v | None => blank end.

(** [createTextVNode(text)] as [normalizeChildren] calls it.  The vnode is a
    [Text] vnode, not a Teleport, so making it never asks for another text
    vnode: the inner [createTextVNode] is not called
    ([createTextVNode_unfold] below is the equation of the source). *)
Definition createTextVNode0 (text : string) (s : State) : VNode * State :=
  let '(r, s1) :=
    _createVNode_ (fun _ s => (blank, s)) Text None (ChPrimitive (PStr text))
      0 None false s in
  (deref s1 r, s1).


Definition createBaseVNode : VNodeTypes -> option Data -> Children VNode -> Z
    -> option (list string) -> option Z -> bool -> bool -> State
    -> nat * State :=
  createBaseVNode_ createTextVNode0.

Definition createElementVNode := createBaseVNode.

Definition _createVNode : VNodeTypes -> option Data -> Children VNode -> Z
    -> option (list string) -> bool -> State -> nat * State :=
  _createVNode_ createTextVNode0.

(** [createVNode] is [_createVNode]; in a development build it first
    passes its arguments to [vnodeArgsTransformer] when one is registered.
    None is registered unless the test utilities call [transformVNodeArgs],
    and this is the case embedded here. *)
Definition createVNode := _createVNode.

Definition createTextVNode (text : string) (flag : Z) (s : State)
  : nat * State :=
  createVNode Text None (ChPrimitive (PStr text)) flag None false s.

Definition createElementBlock (type : VNodeTypes) (props : option Data)
    (children : Children VNode) (patchFlag : Z)
    (dynamicProps : option (list string)) (shapeFlag : option Z) (s : State)
  : nat * State :=
  let '(r, s1) :=
    createBaseVNode type props children patchFlag dynamicProps shapeFlag
      true (* isBlock *) false s in
  setupBlock r s1.

Definition createBlock (type : VNodeTypes) (props : option Data)
    (children : Children VNode) (patchFlag : Z)
    (dynamicProps : option (list string)) (s : State) : nat * State :=
  let '(r, s1) :=
    createVNode type props children patchFlag dynamicProps
      true (* isBlock: prevent a block from tracking itself *) s in
  setupBlock r s1.

Definition createStaticVNode (content : string) (numberOfNodes : Z)
    (s : State) : nat * State :=
  let '(r, s1) :=
    createVNode Static None (ChPrimitive (PStr content)) 0 None false s in
  (r, assign r (set_staticCount numberOfNodes) s1).

Definition createCommentVNode (text : string) (asBlock : bool) (s : State)
  : nat * State :=
  if asBlock then
    createBlock Comment None (ChPrimitive (PStr text)) 0 None
      (openBlock false s)
  else createVNode Comment None (ChPrimitive (PStr text)) 0 None false s.

(** *** Children of a render function *)

(** What a render function may return for a child: [null], [undefined], a
    boolean, an array, a vnode of the store, or a string or a number. *)
Inductive VNodeChild : Type :=
| ChildNull
| ChildUndefined
| ChildBool (b : bool)
| ChildArray (elems : list (ArrayItem VNode))
| ChildVNode (r : nat)
| ChildString (text : string)
| ChildNumber (n : Z).

(** optimized normalization for template-compiled render fns: the child
    itself unless it is mounted or cached, and always when it is
    memoized. *)
Definition cloneIfMounted (child : nat) (s : State) : nat * State :=
  let v := deref s child in
  if bool_decide (el v = None) && negb (patchFlag v =? CACHED)
     || bool_decide (is_Some (memo v))
  then (child, s)
  else alloc (cloneVNode v None false false) s.

Definition normalizeVNode (child : VNodeChild) (s : State) : nat * State :=
  match child with
  | ChildNull | ChildUndefined | ChildBool _ =>
      (* empty placeholder *)
      createVNode Comment None ChUndefined 0 None false s
  | ChildArray elems =>
      (* fragment; [child.slice()] is an array with the same elements *)
      createVNode Fragment None (ChArray elems) 0 None false s
  | ChildVNode r =>
      (* already vnode *)
      cloneIfMounted r s
  | ChildString text =>
      createVNode Text None (ChPrimitive (PStr text)) 0 None false s
  | ChildNumber n =>
      createVNode Text None (ChPrimitive (PStr (numberToString n))) 0 None
        false s
  end.

(** *** Identity of vnodes *)

(** [isSameVNodeType(n1, n2)] on two vnode objects of the store: the
    result and the store as the call leaves it; [None] when a reference is
    outside the store. *)
Definition isDirty (v1 v2 : VNode) : bool :=
  DEV && hasFlag (shapeFlag v2) COMPONENT &&
  match component v1, hmrDirtyComponents E (type v2) with
  | Some i, Some dirtyInstances => bool_decide (i ∈ dirtyInstances)
  | _, _ => false
  end.

Definition isSameVNodeType (n1 n2 : nat) (s : State) : option (bool * State) :=
  match vnodes s !! n1, vnodes s !! n2 with
  | Some v1, Some v2 =>
      if isDirty v1 v2 then
        (* HMR only: if the component has been hot-updated, force a reload. *)
        let s1 :=
          assign n1 (fun v => set_shapeFlag
                       (Z.land (shapeFlag v)
                          (Z.lnot COMPONENT_SHOULD_KEEP_ALIVE)) v) s in
        let s2 :=
          assign n2 (fun v => set_shapeFlag
                       (Z.land (shapeFlag v)
                          (Z.lnot COMPONENT_KEPT_ALIVE)) v) s1 in
        Some (false, s2)
      else
        Some (typeStrictEq (type v1) (type v2) && strictEq (key v1) (key v2),
              s)
  | _, _ => None
  end.

(** *** Sequences of calls *)

(** A call of the block and creation interface, with its arguments. *)
Inductive Call : Type :=
| OpenBlock (disableTracking : bool)
| CloseBlock
| SetBlockTracking (value : Z)
| CreateElementVNode (type : VNodeTypes) (props : option Data)
    (children : Children VNode) (patchFlag : Z)
    (dynamicProps : option (list string)) (shapeFlag : option Z)
| CreateVNode (type : VNodeTypes) (props : option Data)
    (children : Children VNode) (patchFlag : Z)
    (dynamicProps : option (list string))
| CreateElementBlock (type : VNodeTypes) (props : option Data)
    (children : Children VNode) (patchFlag : Z)
    (dynamicProps : option (list string)) (shapeFlag : option Z)
| CreateBlock (type : VNodeTypes) (props : option Data)
    (children : Children VNode) (patchFlag : Z)
    (dynamicProps : option (list string))
| CreateTextVNode (text : string) (flag : Z)
| CreateStaticVNode (content : string) (numberOfNodes : Z)
| CreateCommentVNode (text : string) (asBlock : bool).

Definition step (c : Call) (s : State) : State :=
  match c with
  | OpenBlock d => openBlock d s
  | CloseBlock => closeBlock s
  | SetBlockTracking v => setBlockTracking v s
  | CreateElementVNode t p c f d sf =>
      (createElementVNode t p c f d sf false false s).2
  | CreateVNode t p c f d => (createVNode t p c f d false s).2
  | CreateElementBlock t p c f d sf => (createElementBlock t p c f d sf s).2
  | CreateBlock t p c f d => (createBlock t p c f d s).2
  | CreateTextVNode t f => (createTextVNode t f s).2
  | CreateStaticVNode c n => (createStaticVNode c n s).2
  | CreateCommentVNode t b => (createCommentVNode t b s).2
  end.

Fixpoint run (calls : list Call) (s : State) : State :=
  match calls with
  | [] => s
  | c :: calls' => run calls' (step c s)
  end.

(** The calls that end the scope of a block: [closeBlock] itself and the
    two block constructors, which call it through [setupBlock]. *)
Definition closes (c : Call) : bool :=
  match c with
  | CloseBlock | CreateElementBlock _ _ _ _ _ _ | CreateBlock _ _ _ _ _ => true
  | _ => false
  end.

Definition opens (c : Call) : bool :=
  match c with OpenBlock _ => true | _ => false end.

(** The depth of open blocks after the calls, starting at [depth]; [None]
    when a call closes a block that the sequence did not open. *)
Fixpoint nesting (depth : nat) (calls : list Call) : option nat :=
  match calls with
  | [] => Some depth
  | c :: calls' =>
      if opens c then nesting (S depth) calls'
      else if closes c then
        match depth with
        | O => None
        | S depth' => nesting depth' calls'
        end
      else nesting depth calls'
  end.

(** Sequences in which every [openBlock] is matched by a later close and
    the pairs are nested. *)
Definition balanced (calls : list Call) : Prop :=
  nesting O calls = Some O.

(** The same for the calls [setBlockTracking(-1)] and [setBlockTracking(1)]
    that the compiler puts around a cached subtree; other calls are free. *)
Fixpoint trackingNesting (depth : nat) (calls : list Call) : option nat :=
  match calls with
  | [] => Some depth
  | SetBlockTracking value :: calls' =>
      if value =? -1 then trackingNesting (S depth) calls'
      else if value =? 1 then
        match depth with
        | O => None
        | S depth' => trackingNesting depth' calls'
        end
      else None
  | _ :: calls' => trackingNesting depth calls'
  end.

Definition balancedTracking (calls : list Call) : Prop :=
  trackingNesting O calls = Some O.

(** What relates the two module variables of the block stack. *)
Definition currentIsTop (s : State) : Prop :=
  currentBlock s = top (blockStack s).

End Operations.

(** A build with no rendering instance, no hot-reloaded component, and
    helpers that return their argument: the environment of the examples. *)
Definition plainEnv (dev : bool) : Env :=
  {| build := {| __DEV__ := dev;
                 __FEATURE_SUSPENSE__ := true;
                 __FEATURE_PROD_DEVTOOLS__ := false |};
     currentRenderingInstance := None;
     currentRenderingInstance_slotFlag := None;
     currentScopeId := None;
     hmrDirtyComponents := fun _ => None;
     normalizeClass := fun v => v;
     normalizeClass2 := fun _ v => v;
     normalizeStyle := fun v => v;
     normalizeStyle2 := fun _ v => v;
     isOn := fun _ => false;
     isArrayIncluding := fun _ _ => false;
     concat2 := fun _ v => v;
     SuspenseImpl_normalize := fun v => v;
     setTransitionHooks_clone := fun v h => set_transition (Some h) v |}.

End VNodeModel.

(** ** runtime-dom: [patchProp] *)

Module PatchProp.

(** [isOn], [isModelListener] and [camelize] of [@vue/shared], which
    [patchProp] imports; they are parameters. *)
Class SharedHelpers : Type := {
  isOn : string -> bool;
  isModelListener : string -> bool;
  camelize : string -> string
}.

Inductive ElementNamespace : Type := svg | mathml.

#[export] Instance ElementNamespace_eq_dec : EqDecision ElementNamespace.
Proof. solve_decision. Defined.

(** What [patchProp] reads of the element: its [tagName], the [_isVueCE]
    mark of a Vue custom element, and which keys are [in] it. *)
Record Element : Type := {
  tagName : string;
  _isVueCE : bool;
  has : string -> bool
}.

(** The host mutations: the functions of [./modules/*] that [patchProp]
    calls, and the two assignments to [_trueValue] and [_falseValue]; each
    constructor is a call with its arguments. *)
Inductive Mutation : Type :=
| patchClass (el : Element) (value : Value) (isSVG : bool)
| patchStyle (el : Element) (prev next : Value)
| patchEvent (el : Element) (rawName : string) (prevValue nextValue : Value)
    (instance : option Handle)
| patchDOMProp (el : Element) (key : string) (value : Value)
    (parentComponent : option Handle) (attrName : option string)
| patchAttr (el : Element) (key : string) (value : Value) (isSVG : bool)
    (instance : option Handle) (isBoolean : option bool)
| set_trueValue (el : Element) (value : Value)
| set_falseValue (el : Element) (value : Value).

(** [key.charCodeAt(i)]; [None] is [NaN]. *)
Definition charCodeAt (key : string) (i : nat) : option nat :=
  nat_of_ascii <$> String.get i key.

Definition codeIs (c : option nat) (n : nat) : bool :=
  match c with Some m => Nat.eqb m n | None => false end.
Definition codeGt (c : option nat) (n : nat) : bool :=
  match c with Some m => Nat.ltb n m | None => false end.
Definition codeLt (c : option nat) (n : nat) : bool :=
  match c with Some m => Nat.ltb m n | None => false end.

Definition isNativeOn (key : string) : bool :=
  codeIs (charCodeAt key 0) 111 (* o *) &&
  codeIs (charCodeAt key 1) 110 (* n *) &&
  (* lowercase letter *)
  codeGt (charCodeAt key 2) 96 &&
  codeLt (charCodeAt key 2) 123.

Definition isFunction (v : Value) : bool :=
  match v with VFun _ => true | _ => false end.
Definition isString (v : Value) : bool :=
  match v with VStr _ => true | _ => false end.

Definition strIs (a b : string) : bool := bool_decide (a = b).

Definition shouldSetAsProp (el : Element) (key : string) (value : Value)
    (isSVG : bool) : bool :=
  if isSVG then
    (* most keys must be set as attribute on svg elements to work
       ...except innerHTML & textContent *)
    if strIs key "innerHTML" || strIs key "textContent" then true
    (* or native onclick with function values *)
    else if has el key && isNativeOn key && isFunction value then true
    else false
  (* these are enumerated attrs, however their corresponding DOM properties
     are actually booleans *)
  else if strIs key "spellcheck" || strIs key "draggable"
          || strIs key "translate" then false
  (* form property on form elements is readonly and must be set as
     attribute. *)
  else if strIs key "form" then false
  (* <input list> must be set as attribute *)
  else if strIs key "list" && strIs (tagName el) "INPUT" then false
  (* <textarea type> must be set as attribute *)
  else if strIs key "type" && strIs (tagName el) "TEXTAREA" then false
  (* the width or height of embedded tags must be set as attribute *)
  else if (strIs key "width" || strIs key "height")
          && (strIs (tagName el) "IMG" || strIs (tagName el) "VIDEO"
              || strIs (tagName el) "CANVAS" || strIs (tagName el) "SOURCE")
  then false
  (* native onclick with string value, must be set as attribute *)
  else if isNativeOn key && isString value then false
  else has el key.

(** [key[0]] and [key.slice(1)] *)
Definition firstChar (key : string) : option ascii := String.get 0 key.
Definition slice1 (key : string) : string :=
  match key with
  | EmptyString => EmptyString
  | String _ rest => rest
  end.

(** [/[A-Z]/.test(key)] *)
Fixpoint hasUpperCase (key : string) : bool :=
  match key with
  | EmptyString => false
  | String c rest =>
      (Nat.leb 65 (nat_of_ascii c) && Nat.leb (nat_of_ascii c) 90)
      || hasUpperCase rest
  end.

(** [tagName.includes('-')] *)
Fixpoint includesDash (t : string) : bool :=
  match t with
  | EmptyString => false
  | String c rest => Ascii.eqb c "-" || includesDash rest
  end.

Section Patch.

Context `{H : SharedHelpers}.

(** [patchProp]: the host mutations it performs, in order. *)
Definition patchProp (el : Element) (key : string)
    (prevValue nextValue : Value) (namespace : option ElementNamespace)
    (parentComponent : option Handle) : list Mutation :=
  let isSVG := bool_decide (namespace = Some svg) in
  if strIs key "class" then [patchClass el nextValue isSVG]
  else if strIs key "style" then [patchStyle el prevValue nextValue]
  else if isOn key then
    (* ignore v-model listeners *)
    if negb (isModelListener key)
    then [patchEvent el key prevValue nextValue parentComponent]
    else []
  else
    let '(asProp, key) :=
      match firstChar key with
      | Some "."%char => (true, slice1 key)
      | Some "^"%char => (false, slice1 key)
      | _ => (shouldSetAsProp el key nextValue isSVG, key)
      end in
    if asProp then
      patchDOMProp el key nextValue parentComponent None ::
      (* also set form state as attributes so they work with
         <input type="reset"> *)
      (if negb (includesDash (tagName el))
          && (strIs key "value" || strIs key "checked" || strIs key "selected")
       then [patchAttr el key nextValue isSVG parentComponent
               (Some (negb (strIs key "value")))]
       else [])
    else if _isVueCE el && (hasUpperCase key || negb (isString nextValue)) then
      (* force set props for possible async custom element *)
      [patchDOMProp el (camelize key) nextValue parentComponent (Some key)]
    else
      (* special case for <input v-model type="checkbox"> with
         :true-value & :false-value *)
      (if strIs key "true-value" then [set_trueValue el nextValue]
       else if strIs key "false-value" then [set_falseValue el nextValue]
       else [])
      ++ [patchAttr el key nextValue isSVG parentComponent None].

End Patch.

(** Modelled from the spec: [isOn] of [@vue/shared], whose source is
    outside this development.  The spec and the comments of [patchProp]
    call an event key a key such as [onClick]: [on] followed by a
    character that is not a lower-case letter. *)
Definition isOn_ (key : string) : bool :=
  codeIs (charCodeAt key 0) 111 &&
  codeIs (charCodeAt key 1) 110 &&
  (codeGt (charCodeAt key 2) 122 || codeLt (charCodeAt key 2) 97).

(** Modelled from the spec: [isModelListener] of [@vue/shared], whose
    source is outside this development; a listener of [v-model] is a key
    that starts with [onUpdate:]. *)
Definition isModelListener_ (key : string) : bool :=
  String.prefix "onUpdate:" key.

Definition isWordChar (c : ascii) : bool :=
  let n := nat_of_ascii c in
  (Nat.leb 97 n && Nat.leb n 122) || (Nat.leb 65 n && Nat.leb n 90)
  || (Nat.leb 48 n && Nat.leb n 57) || Nat.eqb n 95.

Definition toUpperCase (c : ascii) : ascii :=
  let n := nat_of_ascii c in
  if Nat.leb 97 n && Nat.leb n 122 then ascii_of_nat (n - 32) else c.

(** Modelled from the spec: [camelize] of [@vue/shared], whose source is
    outside this development; a hyphen followed by a word character
    becomes that character in upper case. *)
Fixpoint camelize_ (key : string) : string :=
  match key with
  | EmptyString => EmptyString
  | String a tl =>
      match tl with
      | String c rest =>
          if Ascii.eqb a "-" && isWordChar c
          then String (toUpperCase c) (camelize_ rest)
          else String a (camelize_ tl)
      | EmptyString => String a EmptyString
      end
  end.

(** Modelled from the spec: the helpers of [@vue/shared] together. *)
Definition sharedHelpers : SharedHelpers := {|
  isOn := isOn_;
  isModelListener := isModelListener_;
  camelize := camelize_
|}.

End PatchProp.

(** ** runtime-dom: [nodeOps.insert] and [nodeOps.remove] *)

Module NodeOps.

(** The DOM that the two host operations act on: every node has a parent,
    or none, and an ordered list of children.  [insertBefore] and
    [removeChild] are the methods of the platform, after the DOM Standard:
    [removeChild] throws [NotFoundError] when the node is not a child of the
    receiver; [insertBefore] throws [HierarchyRequestError] when the node
    is an inclusive ancestor of the receiver and [NotFoundError] when the
    reference child is not a child of the receiver, and otherwise moves the
    node, taking it out of its old parent first. *)
Definition Node : Type := positive.

Record NodeRecord : Type := {
  parent : option Node;
  children : list Node
}.

Abbreviation DOM := (gmap Node NodeRecord).

Inductive DOMException : Type :=
| HierarchyRequestError
| NotFoundError.

Inductive Completion (A : Type) : Type :=
| Normal (a : A)
| Throw (e : DOMException).
Arguments Normal {A}.
Arguments Throw {A}.

Definition record (d : DOM) (n : Node) : NodeRecord :=
  match d !! n with
  | Some r => r
  | None => {| parent := None; children := [] |}
  end.

(** [n.parentNode] and [n.childNodes] *)
Definition parentNode (d : DOM) (n : Node) : option Node :=
  parent (record d n).
Definition childNodes (d : DOM) (n : Node) : list Node :=
  children (record d n).

(** [n.nextSibling] *)
Fixpoint after (n : Node) (l : list Node) : option Node :=
  match l with
  | [] => None
  | m :: l' => if bool_decide (m = n) then head l' else after n l'
  end.

Definition nextSibling (d : DOM) (n : Node) : option Node :=
  match parentNode d n with
  | Some p => after n (childNodes d p)
  | None => None
  end.

(** [a] is [n] or an ancestor of [n]; the walk up is at most as long as
    the store is large. *)
Fixpoint isInclusiveAncestor_ (fuel : nat) (d : DOM) (a n : Node) : bool :=
  bool_decide (a = n) ||
  match fuel with
  | O => false
  | S fuel' =>
      match parentNode d n with
      | Some p => isInclusiveAncestor_ fuel' d a p
      | None => false
      end
  end.

Definition isInclusiveAncestor (d : DOM) (a n : Node) : bool :=
  isInclusiveAncestor_ (size d) d a n.

(** The node taken out of its parent, if it has one. *)
Definition detach (d : DOM) (n : Node) : DOM :=
  match parentNode d n with
  | Some p =>
      let d1 :=
        <[p := {| parent := parentNode d p;
                  children := filter (fun m => m <> n) (childNodes d p) |}]> d in
      <[n := {| parent := None; children := childNodes d1 n |}]> d1
  | None => d
  end.

(** [l] with [n] put before the first [r], or at the end. *)
Fixpoint putBefore (n : Node) (r : option Node) (l : list Node) : list Node :=
  match l with
  | [] => [n]
  | m :: l' =>
      if bool_decide (Some m = r) then n :: m :: l' else m :: putBefore n r l'
  end.

Definition removeChild (d : DOM) (p child : Node) : Completion DOM :=
  if bool_decide (parentNode d child = Some p) then Normal (detach d child)
  else Throw NotFoundError.

Definition insertBefore (d : DOM) (p node : Node) (child : option Node)
  : Completion DOM :=
  if isInclusiveAncestor d node p then Throw HierarchyRequestError
  else
    match child with
    | Some c =>
        if bool_decide (parentNode d c = Some p) then
          let reference :=
            if bool_decide (c = node) then nextSibling d node else Some c in
          let d1 := detach d node in
          let d2 :=
            <[p := {| parent := parentNode d1 p;
                      children := putBefore node reference (childNodes d1 p) |}]>
              d1 in
          Normal (<[node := {| parent := Some p;
                               children := childNodes d2 node |}]> d2)
        else Throw NotFoundError
    | None =>
        let d1 := detach d node in
        let d2 :=
          <[p := {| parent := parentNode d1 p;
                    children := childNodes d1 p ++ [node] |}]> d1 in
        Normal (<[node := {| parent := Some p;
                             children := childNodes d2 node |}]> d2)
    end.

(** [nodeOps.insert]: [parent.insertBefore(child, anchor || null)]; an
    anchor that is [null] or [undefined] is [None]. *)
Definition insert (d : DOM) (child parent : Node) (anchor : option Node)
  : Completion DOM :=
  insertBefore d parent child
    (match anchor with Some a => Some a | None => None end).

(** [nodeOps.remove] *)
Definition remove (d : DOM) (child : Node) : Completion DOM :=
  let parent := parentNode d child in
  match parent with
  | Some p => removeChild d p child
  | None => Normal d
  end.

End NodeOps.

(** ** [apiCreateApp.ts]: [mount] and [unmount] *)

Module App.

Import VNodeModel.

Definition Container : Type := Handle.

(** The [namespace] argument of [mount]: [true], [false], left out, or the
    name of a namespace. *)
Inductive NamespaceArg : Type :=
| NsTrue
| NsFalse
| NsUndefined
| NsName (ns : PatchProp.ElementNamespace).

(** What the renderer acts on: the vnode objects, and the [__vue_app__]
    property of the containers, which holds the [_uid] of an app. *)
Record Host : Type := {
  store : State;
  __vue_app__ : gmap Container nat
}.

(** The arguments of [createAppAPI], and [getComponentPublicInstance] of
    [component.ts]; what they do to the host is theirs to decide. *)
Record Renderer : Type := {
  render : option nat -> option Container
           -> option PatchProp.ElementNamespace -> Host -> Host;
  hydrate : option (nat -> Container -> Host -> Host);
  getComponentPublicInstance : option Handle -> Value
}.

(** What a call does besides changing the app and the host, in order. *)
Inductive Effect : Type :=
| warn (message : string)
| rendered (vnode : option nat) (container : option Container)
    (namespace : option PatchProp.ElementNamespace)
| hydrated (vnode : nat) (container : Container)
| devtoolsInitApp
| devtoolsUnmountApp
| cleanupCalled (fns : list Handle) (instance : option Handle)
| typeError.

(** The app object and the variables of the closure of [createApp] that
    [mount] and [unmount] use: [isMounted], [pluginCleanupFns], and the
    [reload] function that [mount] stores in the context in a development
    build (the vnode, container and namespace that it closes over). *)
Record App : Type := {
  _uid : nat;
  _component : VNodeTypes;
  _props : option Data;
  _container : option Container;
  _context : Handle;
  _instance : option Handle;
  _ceVNode : option nat;
  isMounted : bool;
  pluginCleanupFns : list Handle;
  reload : option (nat * Container * option PatchProp.ElementNamespace)
}.

(** The app that [createApp(rootComponent, rootProps)] returns. *)
Definition createApp (uid : nat) (context : Handle)
    (rootComponent : VNodeTypes) (rootProps : option Data) : App :=
  {| _uid := uid;
     _component := rootComponent;
     _props := rootProps;
     _container := None;
     _context := context;
     _instance := None;
     _ceVNode := None;
     isMounted := false;
     pluginCleanupFns := [];
     reload := None |}.

Section Mount.

Context `{F : SharedFlags} (E : Env) (R : Renderer).

Definition withStore (st : State) (h : Host) : Host :=
  {| store := st; __vue_app__ := __vue_app__ h |}.

Definition mount (app : App) (rootContainer : Container) (isHydrate : bool)
    (namespace : NamespaceArg) (h : Host)
  : Value * App * Host * list Effect :=
  if negb (isMounted app) then
    let warned :=
      if __DEV__ (build E)
         && bool_decide (is_Some (__vue_app__ h !! rootContainer))
      then [warn "There is already an app instance mounted on the host container."]
      else [] in
    let '(vnode, st) :=
      match _ceVNode app with
      | Some r => (r, store h)
      | None =>
          createVNode E (_component app) (_props app) ChUndefined 0 None false
            (store h)
      end in
    (* store app context on the root VNode. *)
    let st := assign vnode (set_appContext (Some (_context app))) st in
    let namespace :=
      match namespace with
      | NsTrue => Some PatchProp.svg
      | NsFalse | NsUndefined => None
      | NsName ns => Some ns
      end in
    let reload :=
      if __DEV__ (build E) then Some (vnode, rootContainer, namespace)
      else reload app in
    let '(h1, done) :=
      match hydrate R with
      | Some hy =>
          if isHydrate
          then (hy vnode rootContainer (withStore st h),
                [hydrated vnode rootContainer])
          else (render R (Some vnode) (Some rootContainer) namespace
                  (withStore st h),
                [rendered (Some vnode) (Some rootContainer) namespace])
      | None =>
          (render R (Some vnode) (Some rootContainer) namespace
             (withStore st h),
           [rendered (Some vnode) (Some rootContainer) namespace])
      end in
    let h2 :=
      {| store := store h1;
         __vue_app__ := <[rootContainer := _uid app]> (__vue_app__ h1) |} in
    let devtools :=
      __DEV__ (build E) || __FEATURE_PROD_DEVTOOLS__ (build E) in
    let app' :=
      {| _uid := _uid app;
         _component := _component app;
         _props := _props app;
         _container := Some rootContainer;
         _context := _context app;
         _instance :=
           if devtools then component (deref (store h2) vnode)
           else _instance app;
         _ceVNode := _ceVNode app;
         isMounted := true;
         pluginCleanupFns := pluginCleanupFns app;
         reload := reload |} in
    (getComponentPublicInstance R (component (deref (store h2) vnode)),
     app', h2,
     warned ++ done ++ (if devtools then [devtoolsInitApp] else []))
  else
    (VUndefined, app, h,
     if __DEV__ (build E) then [warn "App has already been mounted."] else []).

Definition unmount (app : App) (h : Host) : App * Host * list Effect :=
  if isMounted app then
    let h1 := render R None (_container app) None h in
    let devtools :=
      __DEV__ (build E) || __FEATURE_PROD_DEVTOOLS__ (build E) in
    let app' :=
      {| _uid := _uid app;
         _component := _component app;
         _props := _props app;
         _container := _container app;
         _context := _context app;
         _instance := if devtools then None else _instance app;
         _ceVNode := _ceVNode app;
         isMounted := isMounted app;
         pluginCleanupFns := pluginCleanupFns app;
         reload := reload app |} in
    let effects :=
      [cleanupCalled (pluginCleanupFns app) (_instance app);
       rendered None (_container app) None]
      ++ (if devtools then [devtoolsUnmountApp] else []) in
    match _container app with
    | Some c =>
        (app',
         {| store := store h1; __vue_app__ := delete c (__vue_app__ h1) |},
         effects)
    | None => (app', h1, effects ++ [typeError])
    end
  else
    (app, h,
     if __DEV__ (build E)
     then [warn "Cannot unmount an app that is not mounted."] else []).

(** Calls of the two methods, and what a sequence of them does. *)
Inductive AppCall : Type :=
| Mount (rootContainer : Container) (isHydrate : bool)
    (namespace : NamespaceArg)
| Unmount.

Definition call (c : AppCall) (app : App) (h : Host)
  : App * Host * list Effect :=
  match c with
  | Mount rc hy ns => let '(_, app', h', e) := mount app rc hy ns h in (app', h', e)
  | Unmount => unmount app h
  end.

Fixpoint calls (cs : list AppCall) (app : App) (h : Host)
  : App * Host * list Effect :=
  match cs with
  | [] => (app, h, [])
  | c :: cs' =>
      let '(app1, h1, e1) := call c app h in
      let '(app2, h2, e2) := calls cs' app1 h1 in
      (app2, h2, e1 ++ e2)
  end.

(** A render or a hydration of a vnode: what mounting does. *)
Definition isMountingRender (e : Effect) : bool :=
  match e with
  | rendered (Some _) _ _ | hydrated _ _ => true
  | _ => false
  end.

(** Any call of the renderer. *)
Definition isRender (e : Effect) : bool :=
  match e with
  | rendered _ _ _ | hydrated _ _ => true
  | _ => false
  end.

End Mount.

End App.

(** ** [apiCreateApp.ts]: plugins, mixins and the registries *)

Module AppApi.

(** What a method of the app returns: the app itself, or a value. *)
Inductive Result : Type :=
| RApp
| RValue (v : Value).

(** The code that calls the methods of the app: a plugin's [install]
    function, or the user's own.  It ends, or it calls a method and goes
    on with what the method returned; it is taken to return.  A plugin is
    an object or a function with an identity; [install] is its [install]
    property when that is a function, and the body of a function plugin is
    what calling it does.  Both get the options of [use].  [PluginOther]
    is any other value: [null], [undefined], a primitive. *)
Inductive ApiCall : Type :=
| Use (plugin : Plugin) (options : list Value)
| Mixin (mixin : Value)
| Component (name : string) (component : Value)
| Directive (name : string) (directive : Value)
with Plugin : Type :=
| PluginObject (id : Handle) (install : option (list Value -> Script))
| PluginFunction (id : Handle) (install : option (list Value -> Script))
    (body : list Value -> Script)
| PluginOther
with Script : Type :=
| Done
| Call (c : ApiCall) (next : Result -> Script).

(** The part of the app context that the methods act on, and the set
    [installedPlugins] of the closure of [createApp].  [components] and
    [directives] hold the own properties of the two objects, which are
    made by [{}] and so inherit from [Object.prototype]. *)
Record AppState : Type := {
  mixins : list Value;
  components : Data;
  directives : Data;
  installedPlugins : gset Handle
}.

(** The state that [createApp] starts from. *)
Definition created : AppState :=
  {| mixins := []; components := []; directives := [];
     installedPlugins := ∅ |}.

Inductive Effect : Type :=
| warn (message : string)
| installCalled (id : Handle) (options : list Value)
| pluginCalled (id : Handle) (options : list Value).

(** The build flags, and what the methods use of their surroundings: the
    properties of [Object.prototype], the messages that
    [validateComponentName] and [validateDirectiveName] warn with, and the
    [name] of a mixin as the warning shows it, when it is truthy. *)
Record Setting : Type := {
  __DEV__ : bool;
  __FEATURE_OPTIONS_API__ : bool;
  Object_prototype : string -> Value;
  validateComponentName : string -> list string;
  validateDirectiveName : string -> list string;
  mixinName : Value -> option string
}.

(** The double quote of the messages. *)
Definition quote : ascii := "034"%char.

Section Methods.

Variable S : Setting.

(** [object[name]] on one of the two registries.  The name is not
    [__proto__], whose assignment would replace the prototype. *)
Definition registered (own : Data) (name : string) : Value :=
  if hasProp own name then getProp own name else Object_prototype S name.

(** [context.mixins.includes(mixin)] *)
Definition includes (l : list Value) (v : Value) : bool := bool_decide (v ∈ l).

Definition mixin (m : Value) (st : AppState) : Result * AppState * list Effect :=
  if __FEATURE_OPTIONS_API__ S then
    if negb (includes (mixins st) m) then
      (RApp,
       {| mixins := mixins st ++ [m];
          components := components st;
          directives := directives st;
          installedPlugins := installedPlugins st |},
       [])
    else
      (RApp, st,
       if __DEV__ S then
         [warn ("Mixin has already been applied to target app"
                ++ match mixinName S m with
                   | Some name => ": " ++ name
                   | None => EmptyString
                   end)]
       else [])
  else
    (RApp, st,
     if __DEV__ S
     then [warn "Mixins are only available in builds supporting Options API"]
     else []).

Definition component (name : string) (component : Value) (st : AppState)
  : Result * AppState * list Effect :=
  let validated :=
    if __DEV__ S then warn <$> validateComponentName S name else [] in
  if negb (truthy component) then
    (RValue (registered (components st) name), st, validated)
  else
    (RApp,
     {| mixins := mixins st;
        components := setProp (components st) name component;
        directives := directives st;
        installedPlugins := installedPlugins st |},
     validated
     ++ (if __DEV__ S && truthy (registered (components st) name)
         then [warn ("Component " ++ String quote name
                     ++ String quote
                          " has already been registered in target app.")]
         else [])).

Definition directive (name : string) (directive : Value) (st : AppState)
  : Result * AppState * list Effect :=
  let validated :=
    if __DEV__ S then warn <$> validateDirectiveName S name else [] in
  if negb (truthy directive) then
    (RValue (registered (directives st) name), st, validated)
  else
    (RApp,
     {| mixins := mixins st;
        components := components st;
        directives := setProp (directives st) name directive;
        installedPlugins := installedPlugins st |},
     validated
     ++ (if __DEV__ S && truthy (registered (directives st) name)
         then [warn ("Directive " ++ String quote name
                     ++ String quote
                          " has already been registered in target app.")]
         else [])).

(** [installedPlugins.add(plugin)] *)
Definition installed (id : Handle) (st : AppState) : AppState :=
  {| mixins := mixins st;
     components := components st;
     directives := directives st;
     installedPlugins := {[ id ]} ∪ installedPlugins st |}.

Definition notAPlugin : list Effect :=
  if __DEV__ S
  then [warn ("A plugin must either be a function or an object with an "
              ++ String quote "install"
              ++ String quote " function.")]
  else [].

Definition alreadyApplied : list Effect :=
  if __DEV__ S then [warn "Plugin has already been applied to target app."]
  else [].

(** [use], the methods by their calls, and the code that calls them. *)
Fixpoint use (plugin : Plugin) (options : list Value) (st : AppState)
    {struct plugin} : Result * AppState * list Effect :=
  match plugin with
  | PluginObject id install =>
      if bool_decide (id ∈ installedPlugins st) then (RApp, st, alreadyApplied)
      else
        match install with
        | Some f =>
            let '(st', effects) := run (f options) (installed id st) in
            (RApp, st', installCalled id options :: effects)
        | None => (RApp, st, notAPlugin)
        end
  | PluginFunction id install body =>
      if bool_decide (id ∈ installedPlugins st) then (RApp, st, alreadyApplied)
      else
        match install with
        | Some f =>
            let '(st', effects) := run (f options) (installed id st) in
            (RApp, st', installCalled id options :: effects)
        | None =>
            let '(st', effects) := run (body options) (installed id st) in
            (RApp, st', pluginCalled id options :: effects)
        end
  | PluginOther => (RApp, st, notAPlugin)
  end
with call (c : ApiCall) (st : AppState) {struct c}
  : Result * AppState * list Effect :=
  match c with
  | Use plugin options => use plugin options st
  | Mixin m => mixin m st
  | Component name c => component name c st
  | Directive name d => directive name d st
  end
with run (s : Script) (st : AppState) {struct s} : AppState * list Effect :=
  match s with
  | Done => (st, [])
  | Call c next =>
      let '(r, st1, e1) := call c st in
      let '(st2, e2) := run (next r) st1 in
      (st2, e1 ++ e2)
  end.

End Methods.

End AppApi.

(** ** runtime-dom: [createApp], [createSSRApp] and the renderer *)

Module RuntimeDom.

Import VNodeModel App.

(** What the [mount] of runtime-dom is given: a selector, or the
    container itself. *)
Inductive ContainerArg : Type :=
| Selector (selector : string)
| Given (container : Container).

(** The containers by what [mount] asks of them: an element is an
    [Element] with [nodeType] 1, and may be an [SVGElement] or a
    [MathMLElement]; a shadow root is neither, and has a [mode]. *)
Inductive ContainerKind : Type :=
| HTMLElement
| SVGElement
| MathMLElement
| OtherElement
| ShadowRoot (closed : bool).

Definition isElement (k : ContainerKind) : bool :=
  match k with ShadowRoot _ => false | _ => true end.

(** The page as [mount] reads it: [document.querySelector], the kind and
    the [innerHTML] of the containers, whether the globals [MathMLElement]
    and [ShadowRoot] are there, and the [render] property of the
    components. *)
Record Document : Type := {
  querySelector : string -> option Container;
  kind : Container -> ContainerKind;
  innerHTML : Container -> string;
  MathMLElement_defined : bool;
  ShadowRoot_defined : bool;
  component_render : VNodeTypes -> Value
}.

(** What [mount] changes: the vnodes and the containers of the renderer,
    and the [template] property of the components. *)
Record Page : Type := {
  host : Host;
  component_template : VNodeTypes -> Value
}.

(** What a call does besides, in order: the effects of the [mount] of
    runtime-core, a warning, the writes to the container and to the
    component, and a [TypeError] thrown. *)
Inductive DomEffect : Type :=
| core (e : Effect)
| warnDom (message : string)
| set_template (component : VNodeTypes) (html : string)
| set_textContent (container : Container) (text : string)
| removeAttribute (container : Container) (name : string)
| setAttribute (container : Container) (name value : string)
| throwTypeError.

Section Mounting.

Context `{F : SharedFlags} (E : Env) (R : Renderer) (D : Document).

Definition normalizeContainer (container : ContainerArg)
  : option Container * list DomEffect :=
  match container with
  | Selector selector =>
      let res := querySelector D selector in
      (res,
       if __DEV__ (build E) && negb (bool_decide (is_Some res))
       then [warnDom ("Failed to mount app: mount target selector "
                      ++ String AppApi.quote selector
                      ++ String AppApi.quote " returned null.")]
       else [])
  | Given c =>
      (Some c,
       if __DEV__ (build E) && ShadowRoot_defined D
          && match kind D c with ShadowRoot closed => closed | _ => false end
       then [warnDom ("mounting on a ShadowRoot with `{mode: "
                      ++ String AppApi.quote "closed"
                      ++ String AppApi.quote
                           "}` may lead to unpredictable bugs")]
       else [])
  end.

Definition resolveRootNamespace (container : Container) : NamespaceArg :=
  match kind D container with
  | SVGElement => NsName PatchProp.svg
  | MathMLElement =>
      if MathMLElement_defined D then NsName PatchProp.mathml
      else NsUndefined
  | _ => NsUndefined
  end.

(** [component.template = container.innerHTML] *)
Definition withTemplate (component : VNodeTypes) (html : string) (p : Page)
  : Page :=
  {| host := host p;
     component_template := fun c =>
       if bool_decide (c = component) then VStr html
       else component_template p c |}.

(** The [mount] that [createApp] puts on the app; [mount] of runtime-core
    is the one that it replaces.  A component is an object or a function;
    on anything else the reads and the assignment of [template] throw. *)
Definition mount (app : App) (containerOrSelector : ContainerArg) (p : Page)
  : Value * App * Page * list DomEffect :=
  let '(container, warned) := normalizeContainer containerOrSelector in
  match container with
  | None => (VUndefined, app, p, warned)
  | Some container =>
      let component := _component app in
      if negb (VNodeModel.isFunction component || VNodeModel.isObject component)
      then (VUndefined, app, p, warned ++ [throwTypeError])
      else
        let '(p1, templated) :=
          if negb (VNodeModel.isFunction component)
             && negb (truthy (component_render D component))
             && negb (truthy (component_template p component))
          then (withTemplate component (innerHTML D container) p,
                [set_template component (innerHTML D container)])
          else (p, []) in
        (* clear content before mounting *)
        let cleared :=
          if isElement (kind D container)
          then [set_textContent container EmptyString] else [] in
        let '(proxy, app', h', effects) :=
          App.mount E R app container false (resolveRootNamespace container)
            (host p1) in
        (proxy, app',
         {| host := h'; component_template := component_template p1 |},
         warned ++ templated ++ cleared ++ (core <$> effects)
         ++ (if isElement (kind D container)
             then [removeAttribute container "v-cloak";
                   setAttribute container "data-v-app" EmptyString]
             else []))
  end.

(** The [mount] that [createSSRApp] puts on the app. *)
Definition mountSSR (app : App) (containerOrSelector : ContainerArg) (p : Page)
  : Value * App * Page * list DomEffect :=
  let '(container, warned) := normalizeContainer containerOrSelector in
  match container with
  | Some container =>
      let '(proxy, app', h', effects) :=
        App.mount E R app container true (resolveRootNamespace container)
          (host p) in
      (proxy, app',
       {| host := h'; component_template := component_template p |},
       warned ++ (core <$> effects))
  | None => (VUndefined, app, p, warned)
  end.

End Mounting.

(** *** The renderer *)

(** The variables [renderer] and [enabledHydration] of the module.  A
    renderer is known by the call that made it: [hydration] tells
    [createHydrationRenderer] from [createRenderer], and [serial] numbers
    the renderers in the order in which they are made. *)
Record RendererObject : Type := {
  hydration : bool;
  serial : nat
}.

Record RendererState : Type := {
  renderer : option RendererObject;
  enabledHydration : bool;
  made : nat
}.

(** The variables when the module is loaded. *)
Definition loaded : RendererState :=
  {| renderer := None; enabledHydration := false; made := O |}.

(** [renderer || (renderer = createRenderer(rendererOptions))] *)
Definition ensureRenderer (m : RendererState)
  : option RendererObject * RendererState :=
  match renderer m with
  | Some r => (Some r, m)
  | None =>
      let r := {| hydration := false; serial := made m |} in
      (Some r,
       {| renderer := Some r;
          enabledHydration := enabledHydration m;
          made := Datatypes.S (made m) |})
  end.

Definition ensureHydrationRenderer (m : RendererState)
  : option RendererObject * RendererState :=
  let '(r, made') :=
    if enabledHydration m then (renderer m, made m)
    else (Some {| hydration := true; serial := made m |},
          Datatypes.S (made m)) in
  (r, {| renderer := r; enabledHydration := true; made := made' |}).

(** The two functions by their calls. *)
Inductive Ensure : Type :=
| EnsureRenderer
| EnsureHydrationRenderer.

Definition ensure (c : Ensure) (m : RendererState)
  : option RendererObject * RendererState :=
  match c with
  | EnsureRenderer => ensureRenderer m
  | EnsureHydrationRenderer => ensureHydrationRenderer m
  end.

(** What a sequence of calls returns, call by call, and the variables
    after it. *)
Fixpoint ensures (calls : list Ensure) (m : RendererState)
  : list (option RendererObject) * RendererState :=
  match calls with
  | [] => ([], m)
  | c :: calls' =>
      let '(r, m1) := ensure c m in
      let '(rs, m2) := ensures calls' m1 in
      (r :: rs, m2)
  end.

End RuntimeDom.

(** ** [apiCreateApp.ts]: [onUnmount] *)

Module AppCleanup.

Import VNodeModel App.

Section OnUnmount.

Context `{F : SharedFlags} (E : Env) (R : Renderer).

(** [typeof] of the values that [onUnmount] is given. *)
Variable typeof : Handle -> string.

(** [app.onUnmount(cleanupFn)]: the value is pushed whatever it is. *)
Definition onUnmount (cleanupFn : Handle) (app : App) : App * list Effect :=
  ({| _uid := _uid app;
      _component := _component app;
      _props := _props app;
      _container := _container app;
      _context := _context app;
      _instance := _instance app;
      _ceVNode := _ceVNode app;
      isMounted := isMounted app;
      pluginCleanupFns := pluginCleanupFns app ++ [cleanupFn];
      reload := reload app |},
   if __DEV__ (build E)
      && negb (bool_decide (typeof cleanupFn = "function"%string))
   then [warn ("Expected function as first argument to app.onUnmount(), "
               ++ "but got " ++ typeof cleanupFn)]
   else []).

(** Calls of [mount], [unmount] and [onUnmount], and what a sequence of
    them does. *)
Inductive Method : Type :=
| CallMount (rootContainer : Container) (isHydrate : bool)
    (namespace : NamespaceArg)
| CallUnmount
| CallOnUnmount (cleanupFn : Handle).

Definition method (c : Method) (app : App) (h : Host)
  : App * Host * list Effect :=
  match c with
  | CallMount rc hy ns =>
      let '(_, app', h', e) := mount E R app rc hy ns h in (app', h', e)
  | CallUnmount => unmount E R app h
  | CallOnUnmount f => let '(app', e) := onUnmount f app in (app', h, e)
  end.

Fixpoint methods (cs : list Method) (app : App) (h : Host)
  : App * Host * list Effect :=
  match cs with
  | [] => (app, h, [])
  | c :: cs' =>
      let '(app1, h1, e1) := method c app h in
      let '(app2, h2, e2) := methods cs' app1 h1 in
      (app2, h2, e1 ++ e2)
  end.

End OnUnmount.

End AppCleanup.

(** * Properties *)

(** ** The block tree and vnode creation *)

Module VNodeTheory.

Import VNodeModel.

(** Induction on children that follows [normalizeChildren]: the children
    that an object stands for are those its [default] slot returns. *)
Lemma Children_slot_ind (P : Children VNode -> Prop) :
  P ChUndefined ->
  P ChNull ->
  (forall elems, P (ChArray elems)) ->
  (forall o, (forall slot, default o = Some slot -> P (call slot tt)) ->
             P (ChObject o)) ->
  (forall f, P (ChFunction f)) ->
  (forall p, P (ChPrimitive p)) ->
  forall c, P c.
Proof.
  intros Hu Hn Ha Ho Hf Hp.
  fix IH 1.
  intros [ | | elems | o | f | p ];
    [exact Hu | exact Hn | apply Ha | | apply Hf | apply Hp].
  apply Ho. intros slot Hslot.
  destruct o as [[slot'|] fl cx io]; simpl in Hslot; [|discriminate].
  injection Hslot as <-. destruct slot' as [c0 k]. simpl. apply IH.
Qed.

(** Reading a field after an assignment to a field. *)
Lemma type_set_children x v : type (set_children x v) = type v.
Proof. by destruct v. Qed.
Lemma type_set_shapeFlag x v : type (set_shapeFlag x v) = type v.
Proof. by destruct v. Qed.
Lemma type_set_patchFlag x v : type (set_patchFlag x v) = type v.
Proof. by destruct v. Qed.
Lemma type_set_dynamicChildren x v : type (set_dynamicChildren x v) = type v.
Proof. by destruct v. Qed.
Lemma key_set_children x v : key (set_children x v) = key v.
Proof. by destruct v. Qed.
Lemma key_set_shapeFlag x v : key (set_shapeFlag x v) = key v.
Proof. by destruct v. Qed.
Lemma key_set_patchFlag x v : key (set_patchFlag x v) = key v.
Proof. by destruct v. Qed.
Lemma key_set_dynamicChildren x v : key (set_dynamicChildren x v) = key v.
Proof. by destruct v. Qed.
Lemma patchFlag_set_children x v : patchFlag (set_children x v) = patchFlag v.
Proof. by destruct v. Qed.
Lemma patchFlag_set_shapeFlag x v : patchFlag (set_shapeFlag x v) = patchFlag v.
Proof. by destruct v. Qed.
Lemma patchFlag_set_patchFlag x v : patchFlag (set_patchFlag x v) = x.
Proof. by destruct v. Qed.
Lemma shapeFlag_set_children x v : shapeFlag (set_children x v) = shapeFlag v.
Proof. by destruct v. Qed.
Lemma shapeFlag_set_shapeFlag x v : shapeFlag (set_shapeFlag x v) = x.
Proof. by destruct v. Qed.
Lemma shapeFlag_set_patchFlag x v : shapeFlag (set_patchFlag x v) = shapeFlag v.
Proof. by destruct v. Qed.
Lemma children_set_children x v : children (set_children x v) = x.
Proof. by destruct v. Qed.
Lemma children_set_shapeFlag x v : children (set_shapeFlag x v) = children v.
Proof. by destruct v. Qed.
Lemma children_set_patchFlag x v : children (set_patchFlag x v) = children v.
Proof. by destruct v. Qed.
Lemma dynamicChildren_set_dynamicChildren x v :
  dynamicChildren (set_dynamicChildren x v) = x.
Proof. by destruct v. Qed.

Create Rewrite HintDb vnode.
#[export] Hint Rewrite type_set_children type_set_shapeFlag type_set_patchFlag
  type_set_dynamicChildren key_set_children key_set_shapeFlag
  key_set_patchFlag key_set_dynamicChildren patchFlag_set_children
  patchFlag_set_shapeFlag patchFlag_set_patchFlag shapeFlag_set_children
  shapeFlag_set_shapeFlag shapeFlag_set_patchFlag children_set_children
  children_set_shapeFlag children_set_patchFlag
  dynamicChildren_set_dynamicChildren : vnode.

(** The equation of [deepCloneVNode] in the source: the clone of the
    vnode, with the deep clones of the elements for children when the
    children are an array. *)
Lemma deepCloneVNode_unfold `{F : SharedFlags} (E : Env) (vnode : VNode) :
  deepCloneVNode E vnode
  = let cloned := cloneVNode E vnode None false false in
    match children vnode with
    | ChArray elems => set_children (ChArray (map (cloneItem E) elems)) cloned
    | _ => cloned
    end.
Proof.
  unfold deepCloneVNode, cloneVNode.
  destruct vnode as [t p k r sc ssi ch c su ssc ssf di tr e an ta ts tan stc sf
                       pf dp dc ac cx ce0 me].
  destruct ch; destruct tr; simpl; try reflexivity;
    by destruct (DEV E && (pf =? CACHED)).
Qed.

Section Frames.

Context `{F : SharedFlags} (E : Env).

(** The part of the state that scopes consist of. *)
Definition scopes (s : State) : list (option nat) * option nat * Z :=
  (blockStack s, currentBlock s, isBlockTreeEnabled s).

(** [s'] is [s] with more vnode objects and nothing else changed. *)
Definition allocated (s s' : State) : Prop :=
  scopes s' = scopes s /\ blocks s' = blocks s /\
  exists extra, vnodes s' = vnodes s ++ extra.

Lemma allocated_refl s : allocated s s.
Proof. repeat split; auto. exists []. by rewrite app_nil_r. Qed.

Lemma allocated_trans s1 s2 s3 :
  allocated s1 s2 -> allocated s2 s3 -> allocated s1 s3.
Proof.
  intros (H1 & H2 & e1 & H3) (H4 & H5 & e2 & H6).
  repeat split; try congruence.
  exists (e1 ++ e2). rewrite H6, H3. by rewrite app_assoc.
Qed.

Lemma allocated_alloc v s : allocated s (alloc v s).2.
Proof. repeat split; auto. by exists [v]. Qed.

Lemma hasFlag_0 x : hasFlag 0 x = false.
Proof. reflexivity. Qed.

Lemma deref_alloc v s : deref (alloc v s).2 (alloc v s).1 = v.
Proof.
  unfold deref, alloc. simpl. rewrite lookup_app_r by lia.
  by rewrite Nat.sub_diag.
Qed.

Lemma trackedIn_scopes s s' ib sf v :
  scopes s' = scopes s -> trackedIn s' ib sf v = trackedIn s ib sf v.
Proof.
  unfold scopes, trackedIn. intros Hs. injection Hs as _ -> ->. done.
Qed.

Section Creator.

(** What holds of creation whenever the text vnode of a Teleport is made
    by a function that only allocates. *)
Variable mk : string -> State -> VNode * State.
Hypothesis mk_allocated : forall text s, allocated s (mk text s).2.

Lemma normalizeChildren__allocated children : forall vnode s,
  allocated s (normalizeChildren_ E mk vnode children s).2.
Proof using mk_allocated.
  induction children as [ | | elems | o IH | f | p ] using Children_slot_ind;
    intros vnode s; simpl; try apply allocated_refl.
  - destruct (hasFlag _ _).
    + destruct (default o) as [slot|] eqn:Hd; [|apply allocated_refl].
      by apply IH.
    + repeat (case_match; simpl; try apply allocated_refl).
  - destruct (hasFlag _ _); [|apply allocated_refl].
    pose proof (mk_allocated (String_ p) s) as Ha.
    destruct (mk (String_ p) s) as [t s1]. exact Ha.
Qed.

(** [normalizeChildren] leaves the type and the key of the vnode alone. *)
Lemma normalizeChildren__identity children : forall vnode s,
  type (normalizeChildren_ E mk vnode children s).1 = type vnode /\
  key (normalizeChildren_ E mk vnode children s).1 = key vnode.
Proof.
  induction children as [ | | elems | o IH | f | p ] using Children_slot_ind;
    intros vnode s; simpl; unfold storeChildren.
  all: try (by autorewrite with vnode).
  - destruct (hasFlag _ _).
    + destruct (default o) as [slot|] eqn:Hd; [|done]. by apply IH.
    + repeat case_match; simpl; by autorewrite with vnode.
  - destruct (hasFlag _ _); simpl; [|by autorewrite with vnode].
    destruct (mk (String_ p) s) as [t s1]. simpl. by autorewrite with vnode.
Qed.

(** Whether [createBaseVNode] hands the vnode to [SuspenseImpl.normalize]. *)
Definition suspenseNormalized (shapeFlag : Z) (needFull : bool) : bool :=
  needFull && __FEATURE_SUSPENSE__ (build E) && hasFlag shapeFlag SUSPENSE.

Definition shapeFlagOr (type : VNodeTypes) (shapeFlag : option Z) : Z :=
  match shapeFlag with
  | Some f => f
  | None => if typeStrictEq type Fragment then 0 else ELEMENT
  end.


(** [createBaseVNode] allocates the vnode, after the text vnode of a
    Teleport if there is one, and pushes it to the current block when
    [trackedIn] says so. *)
Lemma createBaseVNode__spec type props children patchFlag dynamicProps
    shapeFlag isBlockNode needFull s :
  exists (s1 : State) (vnode : VNode),
    allocated s s1 /\
    createBaseVNode_ E mk type props children patchFlag dynamicProps shapeFlag
      isBlockNode needFull s
    = (length (vnodes s1),
       match trackedIn s isBlockNode (shapeFlagOr type shapeFlag) vnode with
       | Some b => push b (length (vnodes s1)) (alloc vnode s1).2
       | None => (alloc vnode s1).2
       end) /\
    (suspenseNormalized (shapeFlagOr type shapeFlag) needFull = false ->
     VNodeModel.type vnode = type) /\
    (suspenseNormalized (shapeFlagOr type shapeFlag) needFull = false \/
     (forall v, key (SuspenseImpl_normalize E v) = key v) ->
     key vnode = match props with Some p => normalizeKey p | None => VNull end) /\
    (needFull = false ->
     VNodeModel.patchFlag vnode = patchFlag /\ s1 = s).
Proof using mk_allocated.
  unfold createBaseVNode_, suspenseNormalized. fold (shapeFlagOr type shapeFlag).
  set (c' := match children with ChUndefined => ChNull | c => c end).
  set (sf := shapeFlagOr type shapeFlag).
  set (v0 := baseVNode E type props c' patchFlag dynamicProps sf).
  destruct needFull.
  - pose proof (normalizeChildren__allocated c' v0 s) as Ha.
    pose proof (normalizeChildren__identity c' v0 s) as [Ht Hk].
    destruct (normalizeChildren_ E mk v0 c' s) as [v s1]. simpl in Ha, Ht, Hk.
    eexists s1, _. split; [exact Ha|].
    split; [|split; [|split; [|discriminate]]].
    + simpl. rewrite (trackedIn_scopes s s1) by apply Ha. reflexivity.
    + simpl. intros ->. done.
    + simpl. intros [-> | Hhook]; [done|].
      destruct (_ && _); [by rewrite Hhook|done].
  - destruct (childrenTruthy c').
    + eexists s, _. split; [apply allocated_refl|].
      split; [reflexivity|].
      repeat split; intros _; by autorewrite with vnode.
    + eexists s, _. split; [apply allocated_refl|].
      split; [reflexivity|]. done.
Qed.

(** The type that [_createVNode] works with: [Comment] for a falsy type and
    for the sentinel of a null dynamic component. *)
Definition coerced (type : VNodeTypes) : VNodeTypes :=
  if negb (typeTruthy type) || typeStrictEq type NULL_DYNAMIC_COMPONENT
  then Comment else type.

Definition classNormalized (type : VNodeTypes) : VNodeTypes :=
  match type with
  | TFunction _ (Some opts) => TObject opts None
  | _ => type
  end.

Definition unproxied (type : VNodeTypes) : VNodeTypes :=
  if DEV E && hasFlag (encodeShapeFlag E type) STATEFUL_COMPONENT
     && isProxy type
  then toRaw type else type.

(** On a type that is not a vnode, [_createVNode] is [createBaseVNode] on
    the normalized type and props, with full normalization of children. *)
Lemma _createVNode__not_vnode type props children patchFlag dynamicProps
    isBlockNode s :
  isVNode s (coerced type) = None ->
  _createVNode_ E mk type props children patchFlag dynamicProps isBlockNode s
  = createBaseVNode_ E mk (unproxied (classNormalized (coerced type)))
      (normalizeClassAndStyle E props) children patchFlag dynamicProps
      (Some (encodeShapeFlag E (classNormalized (coerced type))))
      isBlockNode true s.
Proof.
  unfold _createVNode_. fold (coerced type). intros Hv.
  destruct (coerced type); try reflexivity.
  by rewrite Hv.
Qed.

(** On a vnode, [_createVNode] clones it, normalizes the children given,
    and tracks the clone. *)
Lemma _createVNode__vnode type props children patchFlag dynamicProps
    isBlockNode s old v :
  coerced type = TVNode old ->
  vnodes s !! old = Some v ->
  exists (s1 : State) (cloned : VNode),
    allocated s s1 /\
    VNodeModel.type (set_patchFlag BAIL cloned) = VNodeModel.type v /\
    _createVNode_ E mk type props children patchFlag dynamicProps isBlockNode s
    = (length (vnodes s1),
       let s2 := (alloc (set_patchFlag BAIL cloned) s1).2 in
       match currentBlock s with
       | Some b =>
           if (0 <? isBlockTreeEnabled s) && negb isBlockNode then
             if hasFlag (VNodeModel.shapeFlag cloned) COMPONENT
             then replaceInBlock b old (length (vnodes s1)) s2
             else push b (length (vnodes s1)) s2
           else s2
       | None => s2
       end).
Proof using mk_allocated.
  unfold _createVNode_. fold (coerced type). intros Hc Hv.
  rewrite Hc. simpl. rewrite Hv.
  assert (Hty : forall ep mr ct,
    ct = false -> VNodeModel.type (cloneVNode E v ep mr ct) = VNodeModel.type v).
  { intros ep mr ct ->. unfold cloneVNode. destruct v. simpl.
    by destruct transition0. }
  destruct (childrenTruthy children).
  - pose proof (normalizeChildren__allocated children
                  (cloneVNode E v props true false) s) as Ha.
    pose proof (normalizeChildren__identity children
                  (cloneVNode E v props true false) s) as [Ht _].
    destruct (normalizeChildren_ E mk _ children s) as [c s1].
    simpl in Ha, Ht. exists s1, c. split; [exact Ha|]. split.
    + autorewrite with vnode. rewrite Ht. by apply Hty.
    + simpl. destruct Ha as (Hs & _ & _). unfold scopes in Hs.
      injection Hs as _ -> ->. reflexivity.
  - exists s, (cloneVNode E v props true false).
    split; [apply allocated_refl|]. split; [|reflexivity].
    autorewrite with vnode. by apply Hty.
Qed.

Lemma scopes_push b r s : scopes (push b r s) = scopes s.
Proof. reflexivity. Qed.

Lemma scopes_replaceInBlock b o r s : scopes (replaceInBlock b o r s) = scopes s.
Proof. reflexivity. Qed.

Lemma scopes_alloc v s : scopes (alloc v s).2 = scopes s.
Proof. reflexivity. Qed.

Lemma scopes_assign r f s : scopes (assign r f s) = scopes s.
Proof. reflexivity. Qed.

Lemma createBaseVNode__scopes type props children patchFlag dynamicProps
    shapeFlag isBlockNode needFull s :
  scopes (createBaseVNode_ E mk type props children patchFlag dynamicProps
            shapeFlag isBlockNode needFull s).2 = scopes s.
Proof using mk_allocated.
  destruct (createBaseVNode__spec type props children patchFlag dynamicProps
              shapeFlag isBlockNode needFull s)
    as (s1 & v & (Hs & _) & -> & _).
  simpl. by destruct (trackedIn _ _ _ _).
Qed.

Lemma _createVNode__scopes type props children patchFlag dynamicProps
    isBlockNode s :
  scopes (_createVNode_ E mk type props children patchFlag dynamicProps
            isBlockNode s).2 = scopes s.
Proof using mk_allocated.
  destruct (isVNode s (coerced type)) as [v|] eqn:Hv.
  - destruct (coerced type) as [| | | | | | | | | |old|] eqn:Hc;
      try discriminate.
    destruct (_createVNode__vnode type props children patchFlag dynamicProps
                isBlockNode s old v Hc Hv) as (s1 & c & (Hs & _) & _ & ->).
    simpl. repeat case_match; done.
  - rewrite _createVNode__not_vnode by done.
    apply createBaseVNode__scopes.
Qed.

End Creator.

(** *** The text vnode of a Teleport *)

Lemma encodeShapeFlag_Text : encodeShapeFlag E Text = 0.
Proof. unfold encodeShapeFlag. simpl. by rewrite andb_false_r. Qed.

Lemma encodeShapeFlag_Comment : encodeShapeFlag E Comment = 0.
Proof. unfold encodeShapeFlag. simpl. by rewrite andb_false_r. Qed.

Lemma unproxied_symbol type :
  isProxy type = false -> unproxied type = type.
Proof. unfold unproxied. intros ->. by rewrite andb_false_r. Qed.

(** The vnode that [createVNode(Text, null, text, flag)] makes. *)
Definition textVNode (text : string) (flag : Z) : VNode :=
  storeChildren (baseVNode E Text None (ChPrimitive (PStr text)) flag None 0)
    (ChPrimitive (PStr text)) TEXT_CHILDREN.

Lemma trackedIn_static s isBlockNode v :
  patchFlag v = 0 -> trackedIn s isBlockNode 0 v = None.
Proof.
  unfold trackedIn. intros ->. destruct (currentBlock s); [|done].
  rewrite hasFlag_0. simpl. by rewrite andb_false_r.
Qed.

Lemma createText_with mk text s :
  _createVNode_ E mk Text None (ChPrimitive (PStr text)) 0 None false s
  = alloc (textVNode text 0) s.
Proof.
  rewrite _createVNode__not_vnode by done.
  change (coerced Text) with Text. simpl classNormalized.
  rewrite unproxied_symbol, encodeShapeFlag_Text by done.
  unfold createBaseVNode_. simpl.
  rewrite hasFlag_0, andb_false_r. simpl.
  fold (textVNode text 0).
  by rewrite trackedIn_static.
Qed.

Lemma createTextVNode0_eq text s :
  createTextVNode0 E text s = (textVNode text 0, (alloc (textVNode text 0) s).2).
Proof.
  unfold createTextVNode0. rewrite createText_with.
  remember (textVNode text 0) as v.
  change (alloc v s) with ((alloc v s).1, (alloc v s).2).
  cbv beta iota. by rewrite deref_alloc.
Qed.

Lemma createTextVNode0_allocated text s :
  allocated s (createTextVNode0 E text s).2.
Proof. rewrite createTextVNode0_eq. apply allocated_alloc. Qed.


(** *** What each call does to the scopes *)

Lemma scopes_createBaseVNode type props children patchFlag dynamicProps
    shapeFlag isBlockNode needFull s :
  scopes (createBaseVNode E type props children patchFlag dynamicProps
            shapeFlag isBlockNode needFull s).2 = scopes s.
Proof. apply createBaseVNode__scopes, createTextVNode0_allocated. Qed.

Lemma scopes_createVNode type props children patchFlag dynamicProps
    isBlockNode s :
  scopes (createVNode E type props children patchFlag dynamicProps
            isBlockNode s).2 = scopes s.
Proof. apply _createVNode__scopes, createTextVNode0_allocated. Qed.

Lemma scopes_setupBlock r s :
  scopes (setupBlock r s).2
  = (removelast (blockStack s), top (removelast (blockStack s)),
     isBlockTreeEnabled s).
Proof.
  unfold setupBlock, scopes. simpl.
  destruct (top (removelast (blockStack s))) eqn:Ht;
    [destruct (0 <? _)|]; simpl; by rewrite Ht.
Qed.

Lemma scopes_setBlockTracking v s :
  scopes (setBlockTracking v s)
  = (blockStack s, currentBlock s, isBlockTreeEnabled s + v).
Proof.
  unfold setBlockTracking, scopes. simpl.
  destruct (currentBlock s) eqn:Hc; [destruct (v <? 0)|]; simpl;
    by rewrite ?Hc.
Qed.

Lemma top_snoc st x : top (st ++ [x]) = x.
Proof. unfold top. rewrite last_snoc. by destruct x. Qed.

Lemma scopes_openBlock d s :
  scopes (openBlock d s)
  = (blockStack s ++ [currentBlock (openBlock d s)],
     currentBlock (openBlock d s), isBlockTreeEnabled s).
Proof. by destruct d. Qed.

Lemma scopes_eq s st cb n :
  scopes s = (st, cb, n) ->
  blockStack s = st /\ currentBlock s = cb /\ isBlockTreeEnabled s = n.
Proof. unfold scopes. intros Hs. by injection Hs as -> -> ->. Qed.

(** The scopes after a call that creates a vnode or sets it up as a block:
    [createBlock] and [createElementBlock] close the current block, the
    others leave the scopes alone. *)
Lemma scopes_step c s :
  opens c = false ->
  scopes (step E c s)
  = if closes c
    then (removelast (blockStack s), top (removelast (blockStack s)),
          isBlockTreeEnabled s)
    else match c with
         | SetBlockTracking v =>
             (blockStack s, currentBlock s, isBlockTreeEnabled s + v)
         | CreateCommentVNode _ true =>
             (blockStack s, top (blockStack s), isBlockTreeEnabled s)
         | _ => scopes s
         end.
Proof.
  destruct c as [d| |v|t p ch pf dp sf|t p ch pf dp|t p ch pf dp sf|t p ch pf dp
                 |text flag|content n|text asBlock];
    simpl; try discriminate; intros _.
  - done.
  - apply scopes_setBlockTracking.
  - apply scopes_createBaseVNode.
  - apply scopes_createVNode.
  - unfold createElementBlock.
    pose proof (scopes_createBaseVNode t p ch pf dp sf true false s) as Hs.
    destruct (createBaseVNode _ _ _ _ _ _ _ _ _ _) as [r s1].
    apply scopes_eq in Hs as (H1 & H2 & H3). simpl in H1, H3.
    by rewrite scopes_setupBlock, H1, H3.
  - unfold createBlock.
    pose proof (scopes_createVNode t p ch pf dp true s) as Hs.
    destruct (createVNode _ _ _ _ _ _ _ _) as [r s1].
    apply scopes_eq in Hs as (H1 & H2 & H3). simpl in H1, H3.
    by rewrite scopes_setupBlock, H1, H3.
  - apply scopes_createVNode.
  - unfold createStaticVNode.
    pose proof (scopes_createVNode Static None (ChPrimitive (PStr content)) 0
                  None false s) as Hs.
    by destruct (createVNode _ _ _ _ _ _ _ _) as [r s1].
  - unfold createCommentVNode. destruct asBlock.
    + unfold createBlock.
      pose proof (scopes_createVNode Comment None (ChPrimitive (PStr text)) 0
                    None true (openBlock false s)) as Hs.
      destruct (createVNode _ _ _ _ _ _ _ _) as [r s1].
      apply scopes_eq in Hs as (H1 & H2 & H3). simpl in H1, H3.
      rewrite scopes_setupBlock, H1, H3. simpl.
      by rewrite removelast_last.
    + apply scopes_createVNode.
Qed.

(** The stack after a call. *)
Lemma blockStack_step c s :
  blockStack (step E c s)
  = if opens c then blockStack s ++ [currentBlock (step E c s)]
    else if closes c then removelast (blockStack s)
    else blockStack s.
Proof.
  destruct (opens c) eqn:Ho.
  - destruct c as [d| | | | | | | | | ]; try discriminate. simpl.
    by destruct d.
  - pose proof (scopes_step c s Ho) as Hs.
    destruct (closes c).
    + by apply scopes_eq in Hs as (H1 & _).
    + destruct c as [ | | | | | | | | |text asBlock];
        try (by apply scopes_eq in Hs as (H1 & _)).
      destruct asBlock; by apply scopes_eq in Hs as (H1 & _).
Qed.

(** The counter after a call. *)
Lemma isBlockTreeEnabled_step c s :
  isBlockTreeEnabled (step E c s)
  = isBlockTreeEnabled s
    + match c with SetBlockTracking v => v | _ => 0 end.
Proof.
  destruct (opens c) eqn:Ho.
  - destruct c as [d| | | | | | | | | ]; try discriminate. simpl.
    destruct d; simpl; lia.
  - pose proof (scopes_step c s Ho) as Hs.
    destruct (closes c) eqn:Hc.
    + apply scopes_eq in Hs as (_ & _ & ->). destruct c; try discriminate; lia.
    + destruct c as [ | | | | | | | | |text asBlock]; try discriminate;
        try (apply scopes_eq in Hs as (_ & _ & ->); lia).
      destruct asBlock; apply scopes_eq in Hs as (_ & _ & ->); lia.
Qed.

(** [currentBlock] is the top of [blockStack] after every call. *)
Lemma currentIsTop_step c s : currentIsTop s -> currentIsTop (step E c s).
Proof.
  unfold currentIsTop. intros Hinv.
  destruct (opens c) eqn:Ho.
  - destruct c as [d| | | | | | | | | ]; try discriminate. simpl.
    destruct d; simpl; by rewrite top_snoc.
  - pose proof (scopes_step c s Ho) as Hs.
    destruct (closes c) eqn:Hc.
    + by apply scopes_eq in Hs as (-> & -> & _).
    + destruct c as [ | | | | | | | | |text asBlock]; try discriminate;
        try (by apply scopes_eq in Hs as (-> & -> & _)).
      destruct asBlock; by apply scopes_eq in Hs as (-> & -> & _).
Qed.

Lemma currentIsTop_run calls : forall s,
  currentIsTop s -> currentIsTop (run E calls s).
Proof.
  induction calls as [|c calls IH]; intros s Hs; simpl; [done|].
  by apply IH, currentIsTop_step.
Qed.

Lemma currentIsTop_initial : currentIsTop initial.
Proof. reflexivity. Qed.

(** The stack after a sequence of calls that starts at depth [d] and ends
    at depth [d']: the blocks below the [d] innermost are as they were. *)
Lemma blockStack_run calls : forall d d' s,
  nesting d calls = Some d' ->
  (d <= length (blockStack s))%nat ->
  exists inner,
    blockStack (run E calls s)
    = take (length (blockStack s) - d) (blockStack s) ++ inner /\
    length inner = d'.
Proof.
  induction calls as [|c calls IH]; intros d d' s Hn Hd; simpl in *.
  - injection Hn as <-. exists (drop (length (blockStack s) - d) (blockStack s)).
    rewrite take_drop. split; [done|]. rewrite length_drop. lia.
  - pose proof (blockStack_step c s) as Hstep.
    destruct (opens c).
    + destruct (IH (S d) d' (step E c s) Hn) as (inner & Hi & Hl).
      { rewrite Hstep, length_app. simpl. lia. }
      exists inner. split; [|done]. rewrite Hi, Hstep, length_app. simpl.
      f_equal. rewrite take_app_le by lia. f_equal. lia.
    + destruct (closes c).
      * destruct d as [|d0]; [discriminate|].
        assert (Hrl : removelast (blockStack s)
                      = take (length (blockStack s) - 1) (blockStack s)).
        { destruct (blockStack s) as [|x st] using rev_ind; [done|].
          rewrite removelast_last, length_app. simpl.
          rewrite take_app_le by lia. rewrite take_ge by lia. done. }
        destruct (IH d0 d' (step E c s) Hn) as (inner & Hi & Hl).
        { rewrite Hstep, Hrl, length_take. lia. }
        exists inner. split; [|done]. rewrite Hi, Hstep, Hrl.
        f_equal. rewrite length_take, take_take. f_equal. lia.
      * destruct (IH d d' (step E c s) Hn) as (inner & Hi & Hl).
        { by rewrite Hstep. }
        exists inner. split; [|done]. by rewrite Hi, Hstep.
Qed.

(** The counter after a sequence of calls. *)
Lemma isBlockTreeEnabled_run calls : forall d d' s,
  trackingNesting d calls = Some d' ->
  isBlockTreeEnabled (run E calls s)
  = isBlockTreeEnabled s + Z.of_nat d - Z.of_nat d'.
Proof.
  induction calls as [|c calls IH]; intros d d' s Hn; simpl in *.
  - injection Hn as <-. lia.
  - pose proof (isBlockTreeEnabled_step c s) as Hstep.
    destruct c; try (rewrite (IH _ _ _ Hn), Hstep; lia).
    destruct (value =? -1) eqn:H1.
    + rewrite (IH _ _ _ Hn), Hstep. lia.
    + destruct (value =? 1) eqn:H2; [|discriminate].
      destruct d as [|d0]; [discriminate|].
      rewrite (IH _ _ _ Hn), Hstep. lia.
Qed.

(** *** What creation does to the blocks *)

(** A block after [push]. *)
Definition pushed (r : nat) (blk : Block) : Block :=
  {| items := items blk ++ [r]; hasOnce := hasOnce blk |}.

Lemma blocks_push b r s : blocks (push b r s) = alter (pushed r) b (blocks s).
Proof. reflexivity. Qed.

Lemma lookup_pushed b r (bs : list Block) blk :
  bs !! b = Some blk -> alter (pushed r) b bs !! b = Some (pushed r blk).
Proof. intros Hb. by rewrite list_lookup_alter_eq, Hb. Qed.


Lemma trackedIn_off s isBlockNode shapeFlag v :
  isBlockTreeEnabled s <= 0 -> trackedIn s isBlockNode shapeFlag v = None.
Proof.
  unfold trackedIn. intros Hle. destruct (currentBlock s); [|done].
  by replace (0 <? isBlockTreeEnabled s) with false by lia.
Qed.

(** [createBaseVNode] returns a new vnode object, leaves the scopes alone,
    and changes the blocks by at most one [push] of that object. *)
Lemma createBaseVNode_tracks type props children patchFlag dynamicProps
    shapeFlag isBlockNode needFull s :
  let r := (createBaseVNode E type props children patchFlag dynamicProps
              shapeFlag isBlockNode needFull s).1 in
  let s' := (createBaseVNode E type props children patchFlag dynamicProps
               shapeFlag isBlockNode needFull s).2 in
  exists vnode,
    vnodes s' !! r = Some vnode /\
    (length (vnodes s) <= r)%nat /\
    scopes s' = scopes s /\
    blocks s' =
      match trackedIn s isBlockNode (shapeFlagOr type shapeFlag) vnode with
      | Some b => alter (pushed r) b (blocks s)
      | None => blocks s
      end /\
    (suspenseNormalized (shapeFlagOr type shapeFlag) needFull = false ->
     VNodeModel.type vnode = type) /\
    (suspenseNormalized (shapeFlagOr type shapeFlag) needFull = false \/
     (forall v, key (SuspenseImpl_normalize E v) = key v) ->
     key vnode = match props with Some p => normalizeKey p | None => VNull end) /\
    (needFull = false -> VNodeModel.patchFlag vnode = patchFlag).
Proof.
  destruct (createBaseVNode__spec (createTextVNode0 E)
              createTextVNode0_allocated type props children patchFlag
              dynamicProps shapeFlag isBlockNode needFull s)
    as (s1 & v & (Hs & Hb & extra & Hv) & Heq & Hty & Hkey & Hpf).
  unfold createBaseVNode. rewrite Heq. simpl.
  exists v. repeat split.
  - destruct (trackedIn _ _ _ _); simpl; rewrite lookup_app_r by lia;
      by rewrite Nat.sub_diag.
  - rewrite Hv, length_app. lia.
  - by destruct (trackedIn _ _ _ _).
  - destruct (trackedIn _ _ _ _); simpl; by rewrite Hb.
  - exact Hty.
  - exact Hkey.
  - intros Hf. by apply Hpf.
Qed.

(** [createVNode] on a type that is not a vnode. *)
Lemma createVNode_not_vnode type props children patchFlag dynamicProps
    isBlockNode s :
  isVNode s (coerced type) = None ->
  createVNode E type props children patchFlag dynamicProps isBlockNode s
  = createBaseVNode E (unproxied (classNormalized (coerced type)))
      (normalizeClassAndStyle E props) children patchFlag dynamicProps
      (Some (encodeShapeFlag E (classNormalized (coerced type))))
      isBlockNode true s.
Proof. apply _createVNode__not_vnode. Qed.

(** No creation changes the blocks while the counter is not positive. *)
Lemma createBaseVNode_off type props children patchFlag dynamicProps
    shapeFlag isBlockNode needFull s :
  isBlockTreeEnabled s <= 0 ->
  blocks (createBaseVNode E type props children patchFlag dynamicProps
            shapeFlag isBlockNode needFull s).2 = blocks s.
Proof.
  intros Hle.
  destruct (createBaseVNode_tracks type props children patchFlag dynamicProps
              shapeFlag isBlockNode needFull s) as (v & _ & _ & _ & -> & _).
  by rewrite trackedIn_off.
Qed.

Lemma createVNode_off type props children patchFlag dynamicProps
    isBlockNode s :
  isBlockTreeEnabled s <= 0 ->
  blocks (createVNode E type props children patchFlag dynamicProps
            isBlockNode s).2 = blocks s.
Proof.
  intros Hle. destruct (isVNode s (coerced type)) as [v|] eqn:Hv.
  - destruct (coerced type) as [| | | | | | | | | |old|] eqn:Hc;
      try discriminate.
    destruct (_createVNode__vnode (createTextVNode0 E)
                createTextVNode0_allocated type props children patchFlag
                dynamicProps isBlockNode s old v Hc Hv)
      as (s1 & c & (_ & Hb & _) & _ & Heq).
    unfold createVNode, _createVNode. rewrite Heq. simpl.
    replace (0 <? isBlockTreeEnabled s) with false by lia. simpl.
    by destruct (currentBlock s).
  - rewrite createVNode_not_vnode by done. by apply createBaseVNode_off.
Qed.

(** A block after the assignment [block[block.indexOf(old)] = new]. *)
Definition replaced (old new : nat) (blk : Block) : Block :=
  {| items := replaceFirst old new (items blk); hasOnce := hasOnce blk |}.

Lemma deref_lookup s r v : vnodes s !! r = Some v -> deref s r = v.
Proof. unfold deref. by intros ->. Qed.

(** [createVNode] on a vnode: the clone is a new object with the patch
    flag [BAIL]; unless it is made as a block node, a component clone takes
    the place of the original in the current block and any other clone is
    appended to it. *)
Lemma createVNode_vnode type props children patchFlag dynamicProps
    isBlockNode s old v :
  coerced type = TVNode old ->
  vnodes s !! old = Some v ->
  let r := (createVNode E type props children patchFlag dynamicProps
              isBlockNode s).1 in
  let s' := (createVNode E type props children patchFlag dynamicProps
               isBlockNode s).2 in
  exists cloned,
    vnodes s' !! r = Some cloned /\
    VNodeModel.type cloned = VNodeModel.type v /\
    VNodeModel.patchFlag cloned = BAIL /\
    scopes s' = scopes s /\
    blocks s' =
      match currentBlock s with
      | Some b =>
          if (0 <? isBlockTreeEnabled s) && negb isBlockNode then
            if hasFlag (shapeFlag cloned) COMPONENT
            then alter (replaced old r) b (blocks s)
            else alter (pushed r) b (blocks s)
          else blocks s
      | None => blocks s
      end.
Proof.
  intros Hc Hv.
  destruct (_createVNode__vnode (createTextVNode0 E)
              createTextVNode0_allocated type props children patchFlag
              dynamicProps isBlockNode s old v Hc Hv)
    as (s1 & c & (Hs & Hb & extra & Hvs) & Hty & Heq).
  unfold createVNode, _createVNode. rewrite Heq. simpl.
  exists (set_patchFlag BAIL c).
  assert (Hl : (vnodes s1 ++ [set_patchFlag BAIL c]) !! length (vnodes s1)
               = Some (set_patchFlag BAIL c)).
  { rewrite lookup_app_r by lia. by rewrite Nat.sub_diag. }
  autorewrite with vnode in *.
  repeat split; try done.
  - destruct (currentBlock s); [|done].
    destruct (_ && _); [|done]. by destruct (hasFlag _ _).
  - destruct (currentBlock s); [|done].
    destruct (_ && _); [|done]. by destruct (hasFlag _ _).
  - destruct (currentBlock s); [|done].
    destruct (_ && _); [|done]. destruct (hasFlag _ _); simpl; by rewrite Hb.
Qed.

(** [createVNode] returns a vnode object of the store and leaves the
    scopes alone. *)
Lemma createVNode_returns type props children patchFlag dynamicProps
    isBlockNode s :
  is_Some (vnodes (createVNode E type props children patchFlag dynamicProps
                     isBlockNode s).2
           !! (createVNode E type props children patchFlag dynamicProps
                 isBlockNode s).1).
Proof.
  destruct (isVNode s (coerced type)) as [v|] eqn:Hv.
  - destruct (coerced type) as [| | | | | | | | | |old|] eqn:Hc;
      try discriminate.
    destruct (createVNode_vnode type props children patchFlag dynamicProps
                isBlockNode s old v Hc Hv) as (c & Hl & _). by eexists.
  - rewrite createVNode_not_vnode by done.
    destruct (createBaseVNode_tracks
                (unproxied (classNormalized (coerced type)))
                (normalizeClassAndStyle E props) children patchFlag
                dynamicProps
                (Some (encodeShapeFlag E (classNormalized (coerced type))))
                isBlockNode true s) as (c & Hl & _).
    by eexists.
Qed.


End Frames.

Section Claims.

Context `{F : SharedFlags} (E : Env).

(** C3.  Blocks are nested scopes.  [openBlock] pushes a new, empty list of
    dynamic children on [blockStack] and makes it [currentBlock] (it pushes
    [null] when tracking is disabled for the block); [closeBlock] pops the
    stack and makes [currentBlock] the list of the enclosing block, or
    [null] when there is none; [setupBlock] appends the block vnode to the
    list of the enclosing block when [isBlockTreeEnabled > 0]; and after
    every sequence of calls in which the [openBlock]s and the closes
    ([closeBlock], [createBlock], [createElementBlock]) are matched,
    whatever vnodes are created in between, [currentBlock] and
    [blockStack] are as they were before it.  This holds in every state
    in which [currentBlock] is the top of [blockStack], as it is in all
    states the module reaches. *)
Theorem blocks_are_nested_scopes :
  (forall d s,
     blockStack (openBlock d s) = blockStack s ++ [currentBlock (openBlock d s)]
     /\ currentBlock (openBlock d s)
        = (if d then None else Some (length (blocks s)))
     /\ (d = false ->
         blocks s !! length (blocks s) = None /\
         blocks (openBlock d s) !! length (blocks s) = Some newBlock)
     /\ (forall b, (b < length (blocks s))%nat ->
                   blocks (openBlock d s) !! b = blocks s !! b)) /\
  (forall s,
     blockStack (closeBlock s) = removelast (blockStack s)
     /\ currentBlock (closeBlock s) = top (removelast (blockStack s))
     /\ blocks (closeBlock s) = blocks s) /\
  (forall r s b blk,
     top (removelast (blockStack s)) = Some b ->
     0 < isBlockTreeEnabled s ->
     blocks s !! b = Some blk ->
     (setupBlock r s).1 = r /\
     blocks (setupBlock r s).2 !! b = Some (pushed r blk)) /\
  (forall calls s,
     currentIsTop s -> balanced calls ->
     currentBlock (run E calls s) = currentBlock s /\
     blockStack (run E calls s) = blockStack s) /\
  (forall calls, currentIsTop (run E calls initial)).
Proof.
  repeat apply conj.
  - intros d s. destruct d; simpl.
    + repeat split; try done.
    + repeat split; try done.
      * apply lookup_ge_None. lia.
      * rewrite lookup_app_r by lia. by rewrite Nat.sub_diag.
      * intros b Hb. by rewrite lookup_app_l.
  - done.
  - intros r s b blk Htop Hen Hblk. split; [done|].
    unfold setupBlock. simpl. rewrite Htop.
    replace (0 <? isBlockTreeEnabled s) with true by lia.
    rewrite blocks_push. simpl. by apply lookup_pushed.
  - intros calls s Hinv Hbal.
    destruct (blockStack_run E calls O O s Hbal) as (inner & Hst & Hlen);
      [lia|].
    destruct inner; [|discriminate].
    rewrite app_nil_r, Nat.sub_0_r, take_ge in Hst by lia.
    split; [|done].
    pose proof (currentIsTop_run E calls s Hinv) as Hinv'.
    unfold currentIsTop in *. by rewrite Hinv', Hst.
  - intros calls. apply (currentIsTop_run E), currentIsTop_initial.
Qed.

(** C4.  Block tracking is switched by a counter.  [setBlockTracking(v)]
    adds [v] to [isBlockTreeEnabled] and leaves the block stack alone.
    Tracking is on exactly when the counter is positive: while it is not,
    no creation changes any list of dynamic children and [setupBlock]
    gives the block vnode no [dynamicChildren]; while it is, a vnode with
    a positive patch flag other than [NEED_HYDRATION] alone is appended to
    the current block.  After every sequence of calls in which the
    [setBlockTracking(-1)] and [setBlockTracking(1)] are matched and
    nested, whatever else is called in between, the counter is what it was
    before. *)
Theorem block_tracking_is_a_counter :
  (forall v s,
     isBlockTreeEnabled (setBlockTracking v s) = isBlockTreeEnabled s + v
     /\ blockStack (setBlockTracking v s) = blockStack s
     /\ currentBlock (setBlockTracking v s) = currentBlock s) /\
  (forall type props children patchFlag dynamicProps shapeFlag isBlockNode
          needFull s,
     isBlockTreeEnabled s <= 0 ->
     blocks (createBaseVNode E type props children patchFlag dynamicProps
               shapeFlag isBlockNode needFull s).2 = blocks s) /\
  (forall type props children patchFlag dynamicProps isBlockNode s,
     isBlockTreeEnabled s <= 0 ->
     blocks (createVNode E type props children patchFlag dynamicProps
               isBlockNode s).2 = blocks s) /\
  (forall r s vnode,
     isBlockTreeEnabled s <= 0 ->
     vnodes s !! r = Some vnode ->
     blocks (setupBlock r s).2 = blocks s /\
     dynamicChildren (deref (setupBlock r s).2 r) = None) /\
  (forall type props children patchFlag dynamicProps shapeFlag s b blk,
     0 < isBlockTreeEnabled s ->
     currentBlock s = Some b ->
     blocks s !! b = Some blk ->
     0 < patchFlag -> patchFlag <> NEED_HYDRATION ->
     let '(r, s') :=
       createElementVNode E type props children patchFlag dynamicProps
         shapeFlag false false s in
     blocks s' !! b = Some (pushed r blk)) /\
  (forall calls s,
     balancedTracking calls ->
     isBlockTreeEnabled (run E calls s) = isBlockTreeEnabled s).
Proof.
  repeat apply conj.
  - intros v s. pose proof (scopes_setBlockTracking v s) as Hs.
    by apply scopes_eq in Hs as (-> & -> & ->).
  - intros *. apply (createBaseVNode_off E).
  - intros *. apply (createVNode_off E).
  - intros r s vnode Hle Hv. unfold setupBlock, deref. simpl.
    replace (0 <? isBlockTreeEnabled s) with false by lia.
    split; [by destruct (top _)|].
    assert (Hl : forall s0, vnodes s0 = alter (set_dynamicChildren None) r (vnodes s)
                 -> match vnodes s0 !! r with Some v => v | None => blank end
                    = set_dynamicChildren None vnode).
    { intros s0 ->. by rewrite list_lookup_alter_eq, Hv. }
    destruct (top _); rewrite Hl by done; by autorewrite with vnode.
  - intros type props children patchFlag dynamicProps shapeFlag s b blk
      Hen Hcur Hblk Hpos Hne.
    unfold createElementVNode.
    destruct (createBaseVNode_tracks E type props children patchFlag
                dynamicProps shapeFlag false false s)
      as (v & _ & _ & _ & Hb & _ & _ & Hpf).
    destruct (createBaseVNode E type props children patchFlag dynamicProps
                shapeFlag false false s) as [r s'].
    simpl in Hb. rewrite Hb. unfold trackedIn.
    rewrite Hcur, Hpf by done.
    replace (0 <? isBlockTreeEnabled s) with true by lia.
    replace (0 <? patchFlag) with true by lia.
    replace (patchFlag =? NEED_HYDRATION) with false by lia.
    simpl. by apply lookup_pushed.
  - intros calls s Hbal.
    rewrite (isBlockTreeEnabled_run E calls O O s Hbal). lia.
Qed.




(** C9.  [_createVNode], and so [createVNode], returns a vnode for every
    type: when the type is falsy or is [NULL_DYNAMIC_COMPONENT], the vnode
    it returns is in the store and its type is [Comment]. *)
Theorem createVNode_makes_comment_of_invalid_type
    type props children patchFlag dynamicProps isBlockNode s :
  typeTruthy type = false \/ typeStrictEq type NULL_DYNAMIC_COMPONENT = true ->
  let '(r, s') :=
    _createVNode E type props children patchFlag dynamicProps isBlockNode s in
  exists vnode,
    vnodes s' !! r = Some vnode /\ VNodeModel.type vnode = Comment.
Proof.
  intros Hinv.
  assert (Hc : coerced type = Comment).
  { unfold coerced. by destruct Hinv as [-> | ->]; rewrite ?orb_true_r. }
  change (_createVNode E) with (createVNode E).
  rewrite createVNode_not_vnode by (by rewrite Hc).
  rewrite Hc. simpl classNormalized.
  rewrite unproxied_symbol by done.
  destruct (createBaseVNode_tracks E Comment (normalizeClassAndStyle E props)
              children patchFlag dynamicProps
              (Some (encodeShapeFlag E Comment)) isBlockNode true s)
    as (v & Hl & _ & _ & _ & Hty & _).
  destruct (createBaseVNode E Comment _ children patchFlag dynamicProps
              _ isBlockNode true s) as [r s'].
  exists v. split; [exact Hl|]. apply Hty.
  unfold suspenseNormalized, shapeFlagOr. rewrite encodeShapeFlag_Comment.
  by rewrite hasFlag_0, andb_false_r.
Qed.

(** C10.  The key of a vnode is never [undefined].  [normalizeKey] returns
    the [key] of the props, or [null] when that is [null], [undefined] or
    absent.  The key of a vnode made by [createBaseVNode] is [normalizeKey]
    of its props, and [null] when it has no props; the key of a clone made
    by [cloneVNode] is [normalizeKey] of the merged props, and [null] when
    there are none.  Two vnodes without a key both have the key [null],
    and [null === null].  ([SuspenseImpl.normalize] and
    [setTransitionHooks], which are parameters here, are taken to leave
    the key of the vnode they are given alone.) *)
Theorem vnode_key_is_never_undefined :
  (forall props : Data,
     normalizeKey props <> VUndefined /\
     normalizeKey props
     = (if notNullish (getProp props "key") then getProp props "key"
        else VNull)) /\
  (forall type props children patchFlag dynamicProps shapeFlag isBlockNode
          needFull s,
     (forall v, key (SuspenseImpl_normalize E v) = key v) ->
     let '(r, s') :=
       createBaseVNode E type props children patchFlag dynamicProps shapeFlag
         isBlockNode needFull s in
     exists vnode,
       vnodes s' !! r = Some vnode /\
       key vnode
       = match props with Some p => normalizeKey p | None => VNull end /\
       key vnode <> VUndefined) /\
  (forall vnode extraProps mergeRef cloneTransition,
     (forall v h, key (setTransitionHooks_clone E v h) = key v) ->
     let mergedProps :=
       match extraProps with
       | Some e =>
           Some (mergeProps E [match props vnode with Some p => p | None => [] end;
                               e])
       | None => props vnode
       end in
     key (cloneVNode E vnode extraProps mergeRef cloneTransition)
     = match mergedProps with Some m => normalizeKey m | None => VNull end /\
     key (cloneVNode E vnode extraProps mergeRef cloneTransition)
     <> VUndefined) /\
  (forall v1 v2 : VNode,
     key v1 = VNull -> key v2 = VNull -> strictEq (key v1) (key v2) = true).
Proof.
  assert (Hnk : forall props : Data, normalizeKey props <> VUndefined).
  { intros props. unfold normalizeKey.
    by destruct (getProp props "key"). }
  repeat apply conj.
  - intros props. split; [apply Hnk|done].
  - intros type props children patchFlag dynamicProps shapeFlag isBlockNode
      needFull s Hhook.
    destruct (createBaseVNode_tracks E type props children patchFlag
                dynamicProps shapeFlag isBlockNode needFull s)
      as (v & Hl & _ & _ & _ & _ & Hkey & _).
    destruct (createBaseVNode E type props children patchFlag dynamicProps
                shapeFlag isBlockNode needFull s) as [r s'].
    exists v. split; [exact Hl|].
    rewrite Hkey by (by right).
    split; [done|]. destruct props; [apply Hnk|done].
  - intros vnode extraProps mergeRef cloneTransition Hhook mergedProps.
    assert (Hk : key (cloneVNode E vnode extraProps mergeRef cloneTransition)
                 = match mergedProps with
                   | Some m => normalizeKey m
                   | None => VNull
                   end).
    { unfold cloneVNode. destruct vnode. simpl.
      destruct transition0; [destruct cloneTransition|]; simpl;
        by rewrite ?Hhook. }
    split; [exact Hk|]. rewrite Hk.
    destruct mergedProps; [apply Hnk|done].
  - intros v1 v2 -> ->. reflexivity.
Qed.

(** C2.  For two vnode objects, [isSameVNodeType] returns and its result is
    [true] if and only if their types are [===], their keys are [===], and
    the pair is not the exception of hot reload; [null === null], so a
    null key matches a null key.  The exception is: the build is a
    development build, the second vnode is a component, the first has a
    component instance, and that instance is in the set that
    [hmrDirtyComponents] has for the type of the second.  Without the
    exception the call changes nothing. *)
Theorem isSameVNodeType_iff_type_and_key (n1 n2 : nat) (s : State)
    (v1 v2 : VNode) :
  vnodes s !! n1 = Some v1 ->
  vnodes s !! n2 = Some v2 ->
  exists result s',
    isSameVNodeType E n1 n2 s = Some (result, s') /\
    (result = true <->
     typeStrictEq (type v1) (type v2) = true /\
     strictEq (key v1) (key v2) = true /\
     isDirty E v1 v2 = false) /\
    (isDirty E v1 v2 = true <->
     __DEV__ (build E) = true /\
     hasFlag (shapeFlag v2) COMPONENT = true /\
     exists i dirtyInstances,
       component v1 = Some i /\
       hmrDirtyComponents E (type v2) = Some dirtyInstances /\
       i ∈ dirtyInstances) /\
    (isDirty E v1 v2 = false -> s' = s) /\
    (key v1 = VNull -> key v2 = VNull -> strictEq (key v1) (key v2) = true).
Proof.
  intros H1 H2. unfold isSameVNodeType. rewrite H1, H2.
  assert (Hd : isDirty E v1 v2 = true <->
     __DEV__ (build E) = true /\
     hasFlag (shapeFlag v2) COMPONENT = true /\
     exists i dirtyInstances,
       component v1 = Some i /\
       hmrDirtyComponents E (type v2) = Some dirtyInstances /\
       i ∈ dirtyInstances).
  { unfold isDirty, DEV. split.
    - intros Hd. apply andb_true_iff in Hd as [Hd Hi].
      apply andb_true_iff in Hd as [Hdev Hc].
      split; [done|]. split; [done|].
      destruct (component v1) as [i|]; [|discriminate].
      destruct (hmrDirtyComponents E (type v2)) as [d|]; [|discriminate].
      exists i, d. repeat split. by apply bool_decide_eq_true in Hi.
    - intros (-> & -> & i & d & -> & -> & Hi). simpl.
      by apply bool_decide_eq_true. }
  destruct (isDirty E v1 v2) eqn:Hdirty.
  - eexists _, _. split; [reflexivity|].
    split; [|split; [exact Hd|split; [done|by intros -> ->]]].
    split; [done|]. by intros (_ & _ & ?).
  - eexists _, _. split; [reflexivity|].
    split; [|split; [exact Hd|split; [done|by intros -> ->]]].
    rewrite andb_true_iff. split.
    + by intros [? ?].
    + by intros (? & ? & _).
Qed.


End Claims.

(** C3 at work: a block with a dynamic child, an inner block around a
    static child, one more dynamic child, and the close of the outer
    block. *)
Lemma blocks_are_nested_scopes_witness :
  let calls :=
    [OpenBlock false;
     CreateElementVNode (TString "p") None ChNull 1 None None;
     OpenBlock false;
     CreateElementVNode (TString "i") None ChNull 0 None None;
     CreateElementBlock (TString "span") None ChNull 0 None None;
     CreateVNode (TString "b") None (ChPrimitive (PStr "x")) 8 None;
     CreateBlock (TString "div") None ChNull 0 None] in
  currentIsTop initial /\ balanced calls /\
  currentBlock (run (F := sharedFlags) (plainEnv true) calls initial)
  = currentBlock initial /\
  blockStack (run (F := sharedFlags) (plainEnv true) calls initial)
  = blockStack initial.
Proof.
  intros calls.
  split; [reflexivity|]. split; [reflexivity|].
  apply (blocks_are_nested_scopes (F := sharedFlags) (plainEnv true));
    reflexivity.
Defined.

(** C4 at work: a cached subtree inside a cached subtree. *)
Lemma block_tracking_is_a_counter_witness :
  let calls :=
    [OpenBlock false;
     SetBlockTracking (-1);
     CreateElementVNode (TString "p") None ChNull 1 None None;
     SetBlockTracking (-1);
     CreateVNode (TString "b") None (ChPrimitive (PStr "x")) 8 None;
     SetBlockTracking 1;
     SetBlockTracking 1] in
  balancedTracking calls /\
  isBlockTreeEnabled (run (F := sharedFlags) (plainEnv true) calls initial)
  = isBlockTreeEnabled initial.
Proof.
  intros calls. split; [reflexivity|].
  apply (block_tracking_is_a_counter (F := sharedFlags) (plainEnv true)).
  reflexivity.
Defined.



(** C9 at work: [createVNode(null)]. *)
Lemma createVNode_makes_comment_of_invalid_type_witness :
  (typeTruthy (TPrimitive NTNull) = false \/
   typeStrictEq (TPrimitive NTNull) NULL_DYNAMIC_COMPONENT = true) /\
  (let '(r, s') :=
     _createVNode (F := sharedFlags) (plainEnv true) (TPrimitive NTNull) None
       ChNull 0 None false initial in
   exists vnode, vnodes s' !! r = Some vnode /\ type vnode = Comment).
Proof.
  split; [left; reflexivity|].
  apply (createVNode_makes_comment_of_invalid_type (F := sharedFlags)
           (plainEnv true)).
  left; reflexivity.
Defined.

(** C10 at work: a vnode made without props, in an environment whose
    helpers leave the key alone. *)
Lemma vnode_key_is_never_undefined_witness :
  (forall v, key (SuspenseImpl_normalize (plainEnv true) v) = key v) /\
  (let '(r, s') :=
     createBaseVNode (F := sharedFlags) (plainEnv true) (TString "li") None
       ChNull 0 None None false false initial in
   exists vnode,
     vnodes s' !! r = Some vnode /\ key vnode = VNull /\
     key vnode <> VUndefined).
Proof.
  split; [reflexivity|].
  apply (proj1 (proj2 (vnode_key_is_never_undefined (F := sharedFlags)
                         (plainEnv true)))).
  reflexivity.
Defined.

(** C2 at work: two list items with the key 1. *)
Lemma isSameVNodeType_iff_type_and_key_witness :
  let s :=
    run (F := sharedFlags) (plainEnv true)
      [CreateElementVNode (TString "li") (Some [("key"%string, VNum 1)]) ChNull
         0 None None;
       CreateElementVNode (TString "li") (Some [("key"%string, VNum 1)]) ChNull
         0 None None] initial in
  (vnodes s !! O = Some (deref s O) /\ vnodes s !! 1%nat = Some (deref s 1)) /\
  exists result s',
    isSameVNodeType (F := sharedFlags) (plainEnv true) O 1 s
    = Some (result, s') /\
    (result = true <->
     typeStrictEq (type (deref s O)) (type (deref s 1)) = true /\
     strictEq (key (deref s O)) (key (deref s 1)) = true /\
     isDirty (F := sharedFlags) (plainEnv true) (deref s O) (deref s 1) = false)
    /\
    (isDirty (F := sharedFlags) (plainEnv true) (deref s O) (deref s 1) = true
     <->
     __DEV__ (build (plainEnv true)) = true /\
     hasFlag (shapeFlag (deref s 1)) (COMPONENT (SharedFlags := sharedFlags))
     = true /\
     exists i dirtyInstances,
       component (deref s O) = Some i /\
       hmrDirtyComponents (plainEnv true) (type (deref s 1))
       = Some dirtyInstances /\
       i ∈ dirtyInstances) /\
    (isDirty (F := sharedFlags) (plainEnv true) (deref s O) (deref s 1) = false
     -> s' = s) /\
    (key (deref s O) = VNull -> key (deref s 1) = VNull ->
     strictEq (key (deref s O)) (key (deref s 1)) = true).
Proof.
  intros s. split; [split; reflexivity|].
  apply (isSameVNodeType_iff_type_and_key (F := sharedFlags) (plainEnv true));
    reflexivity.
Defined.



(** A block tree: a block [div] with a child whose text is dynamic (patch
    flag [TEXT]) and a static child.  The block's [dynamicChildren] is the
    list opened by [openBlock], and it holds the dynamic child only. *)
Example block_tree :
  let s :=
    run (F := sharedFlags) (plainEnv false)
      [OpenBlock false;
       CreateElementVNode (TString "span") None (ChPrimitive (PStr "a"))
         1 None None;
       CreateElementVNode (TString "p") None (ChPrimitive (PStr "b"))
         0 None None;
       CreateElementBlock (TString "div") None ChNull 0 None None]
      initial in
  dynamicChildren (deref s 2) = Some (BlockArray O) /\
  option_map items (blocks s !! O) = Some [O] /\
  currentBlock s = None /\ blockStack s = [].
Proof. vm_compute. repeat split. Qed.

End VNodeTheory.

(** ** [patchProp] *)

Module PatchPropTheory.

Import PatchProp.

(** The key that [patchProp] works with once a [.] or [^] prefix is
    stripped, and whether it is to be set as a DOM property. *)
Definition stripped (key : string) : string :=
  match firstChar key with
  | Some "."%char | Some "^"%char => slice1 key
  | _ => key
  end.

Definition asProp (el : Element) (key : string) (value : Value) (isSVG : bool)
  : bool :=
  match firstChar key with
  | Some "."%char => true
  | Some "^"%char => false
  | _ => shouldSetAsProp el key value isSVG
  end.

(** The keys of form state, which are set as attributes as well. *)
Definition isFormState (el : Element) (key : string) : bool :=
  negb (includesDash (tagName el))
  && (strIs key "value" || strIs key "checked" || strIs key "selected").

(** The case of a Vue custom element: the key has an upper-case letter or
    the value is not a string. *)
Definition forcedOnCustomElement (el : Element) (key : string) (value : Value)
  : bool :=
  _isVueCE el && (hasUpperCase key || negb (isString value)).

Section Routing.

Context `{H : SharedHelpers}.

(** C6, as amended.  [patchProp] routes [class] to [patchClass], [style] to
    [patchStyle], and an event key to [patchEvent] unless it is a listener
    of [v-model], for which nothing is done.  Any other key is set as a
    DOM property, first of all, when it starts with [.] (the rest of the key
    is the property) or, having no [.] or [^] prefix, when
    [shouldSetAsProp] accepts it; form state of an element that is not a
    custom element is then set as an attribute too.  A key that is not set
    so is still set as a DOM property, camelized, when the element is a Vue
    custom element and the key has an upper-case letter or the value is not
    a string; otherwise it is set as an attribute, after [true-value] and
    [false-value] are stored on the element.  On an SVG element
    [shouldSetAsProp] accepts exactly [innerHTML], [textContent], and the
    native [on*] keys that are in the element and have a function value;
    it rejects [spellcheck], [draggable], [translate] and [form] on every
    element, so these four are set as attributes except in the case of the
    Vue custom element. *)
Theorem patchProp_routes_by_kind (el : Element) (key : string)
    (prevValue nextValue : Value) (namespace : option ElementNamespace)
    (parentComponent : option Handle) :
  let isSVG := bool_decide (namespace = Some svg) in
  let mutations :=
    patchProp el key prevValue nextValue namespace parentComponent in
  (key = "class"%string -> mutations = [patchClass el nextValue isSVG]) /\
  (key = "style"%string -> mutations = [patchStyle el prevValue nextValue]) /\
  (key <> "class"%string -> key <> "style"%string -> isOn key = true ->
   mutations
   = if isModelListener key then []
     else [patchEvent el key prevValue nextValue parentComponent]) /\
  (key <> "class"%string -> key <> "style"%string -> isOn key = false ->
   (asProp el key nextValue isSVG = true ->
    mutations
    = patchDOMProp el (stripped key) nextValue parentComponent None
      :: (if isFormState el (stripped key)
          then [patchAttr el (stripped key) nextValue isSVG parentComponent
                  (Some (negb (strIs (stripped key) "value")))]
          else [])) /\
   (asProp el key nextValue isSVG = false ->
    forcedOnCustomElement el (stripped key) nextValue = true ->
    mutations
    = [patchDOMProp el (camelize (stripped key)) nextValue parentComponent
         (Some (stripped key))]) /\
   (asProp el key nextValue isSVG = false ->
    forcedOnCustomElement el (stripped key) nextValue = false ->
    mutations
    = (if strIs (stripped key) "true-value"
       then [set_trueValue el nextValue]
       else if strIs (stripped key) "false-value"
            then [set_falseValue el nextValue]
            else [])
      ++ [patchAttr el (stripped key) nextValue isSVG parentComponent None])) /\
  (shouldSetAsProp el key nextValue true
   = strIs key "innerHTML" || strIs key "textContent"
     || has el key && isNativeOn key && isFunction nextValue) /\
  (key = "spellcheck"%string \/ key = "draggable"%string \/
   key = "translate"%string \/ key = "form"%string ->
   shouldSetAsProp el key nextValue isSVG = false /\
   (isOn key = false ->
    mutations
    = if forcedOnCustomElement el key nextValue
      then [patchDOMProp el (camelize key) nextValue parentComponent
              (Some key)]
      else [patchAttr el key nextValue isSVG parentComponent None])).
Proof.
  intros isSVG mutations. subst mutations.
  assert (Hother : key <> "class"%string -> key <> "style"%string ->
                   isOn key = false ->
    patchProp el key prevValue nextValue namespace parentComponent
    = if asProp el key nextValue isSVG then
        patchDOMProp el (stripped key) nextValue parentComponent None
        :: (if isFormState el (stripped key)
            then [patchAttr el (stripped key) nextValue isSVG parentComponent
                    (Some (negb (strIs (stripped key) "value")))]
            else [])
      else if forcedOnCustomElement el (stripped key) nextValue then
        [patchDOMProp el (camelize (stripped key)) nextValue parentComponent
           (Some (stripped key))]
      else
        (if strIs (stripped key) "true-value"
         then [set_trueValue el nextValue]
         else if strIs (stripped key) "false-value"
              then [set_falseValue el nextValue]
              else [])
        ++ [patchAttr el (stripped key) nextValue isSVG parentComponent None]).
  { intros Hc Hs Hon. unfold patchProp, strIs at 1 2.
    rewrite !bool_decide_eq_false_2 by done. rewrite Hon.
    unfold asProp, stripped, isFormState, forcedOnCustomElement.
    fold isSVG.
    destruct (firstChar key) as [c|]; [|done].
    destruct (decide (c = "."%char)) as [->|Hdot]; [done|].
    destruct (decide (c = "^"%char)) as [->|Hcaret]; [done|].
    assert (Hc' : forall (A : Type) (x y z : A),
              match c with "."%char => x | "^"%char => y | _ => z end = z).
    { intros A x y z.
      destruct c as [[] [] [] [] [] [] [] []]; try reflexivity;
        congruence. }
    by rewrite !Hc'. }
  assert (Hsvg : shouldSetAsProp el key nextValue true
   = strIs key "innerHTML" || strIs key "textContent"
     || has el key && isNativeOn key && isFunction nextValue).
  { unfold shouldSetAsProp.
    destruct (strIs key "innerHTML" || strIs key "textContent"); [done|].
    simpl. by destruct (has el key && isNativeOn key && isFunction nextValue). }
  repeat apply conj.
  - intros ->. reflexivity.
  - intros ->. reflexivity.
  - intros Hc Hs Hon. unfold patchProp, strIs.
    rewrite !bool_decide_eq_false_2 by done. rewrite Hon.
    by destruct (isModelListener key).
  - intros Hc Hs Hon. rewrite Hother by done. repeat apply conj.
    + by intros ->.
    + by intros -> ->.
    + by intros -> ->.
  - exact Hsvg.
  - intros Hk.
    assert (Hrej : shouldSetAsProp el key nextValue isSVG = false).
    { unfold shouldSetAsProp.
      destruct Hk as [-> | [-> | [-> | ->]]]; destruct isSVG; simpl;
        try reflexivity; by destruct (has el _). }
    split; [exact Hrej|]. intros Hon.
    assert (Hne : key <> "class"%string /\ key <> "style"%string).
    { destruct Hk as [-> | [-> | [-> | ->]]]; by split. }
    destruct Hne as [Hc Hs]. rewrite Hother by done.
    assert (Hst : stripped key = key).
    { destruct Hk as [-> | [-> | [-> | ->]]]; reflexivity. }
    assert (Hap : asProp el key nextValue isSVG = false).
    { rewrite <- Hrej. by destruct Hk as [-> | [-> | [-> | ->]]]. }
    rewrite Hap, Hst.
    destruct (forcedOnCustomElement el key nextValue); [done|].
    destruct Hk as [-> | [-> | [-> | ->]]]; reflexivity.
Qed.

End Routing.

(** A Vue custom element and a plain [div], none of whose DOM properties
    matter. *)
Definition customElement : Element :=
  {| tagName := "MY-ELEMENT"; _isVueCE := true; has := fun _ => false |}.

Definition plainDiv : Element :=
  {| tagName := "DIV"; _isVueCE := false; has := fun _ => false |}.

(** C6 at work: [draggable] on a plain [div]. *)
Lemma patchProp_routes_by_kind_witness :
  ("draggable"%string = "spellcheck"%string \/
   "draggable"%string = "draggable"%string \/
   "draggable"%string = "translate"%string \/
   "draggable"%string = "form"%string) /\
  isOn (SharedHelpers := sharedHelpers) "draggable" = false /\
  patchProp (H := sharedHelpers) plainDiv "draggable" VUndefined (VBool true)
    None None
  = if forcedOnCustomElement plainDiv "draggable" (VBool true)
    then [patchDOMProp plainDiv
            (camelize (SharedHelpers := sharedHelpers) "draggable")
            (VBool true) None (Some "draggable"%string)]
    else [patchAttr plainDiv "draggable" (VBool true)
            (bool_decide (None = Some svg)) None None].
Proof.
  split; [right; left; reflexivity|]. split; [reflexivity|].
  apply (patchProp_routes_by_kind (H := sharedHelpers) plainDiv "draggable"
           VUndefined (VBool true) None None).
  - right; left; reflexivity.
  - reflexivity.
Defined.

(** C6 does not hold as stated.  [shouldSetAsProp] rejects [draggable], yet
    on a Vue custom element a boolean [draggable] is set as a DOM property
    and not as an attribute; and [shouldSetAsProp] rejects the key [.foo]
    on a [div], yet [patchProp] sets the DOM property [foo]. *)
Lemma draggable_is_set_as_prop_on_custom_element :
  shouldSetAsProp customElement "draggable" (VBool true) false = false /\
  patchProp (H := sharedHelpers) customElement "draggable" VUndefined
    (VBool true) None None
  = [patchDOMProp customElement "draggable" (VBool true) None
       (Some "draggable"%string)] /\
  shouldSetAsProp plainDiv ".foo" (VStr "bar") false = false /\
  patchProp (H := sharedHelpers) plainDiv ".foo" VUndefined (VStr "bar")
    None None
  = [patchDOMProp plainDiv "foo" (VStr "bar") None None].
Proof. repeat split. Qed.

End PatchPropTheory.

(** ** [nodeOps.insert] and [nodeOps.remove] *)

Module NodeOpsTheory.

Import NodeOps.

(** A list of children without the node [n]. *)
Definition without (n : Node) (l : list Node) : list Node :=
  filter (fun m => m <> n) l.

Lemma record_insert (d : DOM) n r : record (<[n := r]> d) n = r.
Proof. unfold record. by rewrite lookup_insert_eq. Qed.

Lemma record_insert_ne (d : DOM) n m r :
  n <> m -> record (<[n := r]> d) m = record d m.
Proof. intros Hne. unfold record. by rewrite lookup_insert_ne. Qed.

Lemma without_app n l1 l2 : without n (l1 ++ l2) = without n l1 ++ without n l2.
Proof. apply filter_app. Qed.

Lemma without_cons_ne n a l : a <> n -> without n (a :: l) = a :: without n l.
Proof. intros Hne. unfold without. by rewrite filter_cons_True. Qed.

Lemma not_in_without n a l : a ∉ l -> a ∉ without n l.
Proof. unfold without. rewrite list_elem_of_filter. tauto. Qed.

Lemma self_not_in_without n l : n ∉ without n l.
Proof. unfold without. rewrite list_elem_of_filter. tauto. Qed.

Lemma putBefore_anchor n a l1 l2 :
  a ∉ l1 -> putBefore n (Some a) (l1 ++ a :: l2) = l1 ++ n :: a :: l2.
Proof.
  induction l1 as [|m l1 IH]; intros Hnot; simpl.
  - by rewrite bool_decide_eq_true_2.
  - apply not_elem_of_cons in Hnot as [Hne Hnot].
    rewrite bool_decide_eq_false_2 by congruence.
    by rewrite IH.
Qed.

Lemma putBefore_end n l : putBefore n None l = l ++ [n].
Proof. induction l as [|m l IH]; simpl; [done|]. by rewrite IH. Qed.

Lemma not_ancestor_ne d a n : isInclusiveAncestor d a n = false -> a <> n.
Proof.
  unfold isInclusiveAncestor. intros Hf ->.
  destruct (size d); simpl in Hf; by rewrite bool_decide_eq_true_2 in Hf.
Qed.

(** The node has no parent once it is detached. *)
Lemma parentNode_detach d n : parentNode (detach d n) n = None.
Proof.
  unfold detach. destruct (parentNode d n) as [p|] eqn:Hp; [|done].
  unfold parentNode. by rewrite record_insert.
Qed.

(** The children of any other node once [n] is detached. *)
Lemma childNodes_detach d n p :
  childNodes (detach d n) p
  = if bool_decide (parentNode d n = Some p) then without n (childNodes d p)
    else childNodes d p.
Proof.
  unfold detach. destruct (parentNode d n) as [q|] eqn:Hq.
  - destruct (decide (n = p)) as [->|Hnp].
    + unfold childNodes at 1. rewrite record_insert. simpl.
      destruct (decide (q = p)) as [->|Hqp].
      * rewrite bool_decide_eq_true_2 by done.
        unfold childNodes at 1. by rewrite record_insert.
      * rewrite bool_decide_eq_false_2 by congruence.
        unfold childNodes at 1. by rewrite record_insert_ne.
    + unfold childNodes at 1. rewrite record_insert_ne by done.
      destruct (decide (q = p)) as [->|Hqp].
      * rewrite bool_decide_eq_true_2 by done. by rewrite record_insert.
      * rewrite bool_decide_eq_false_2 by congruence.
        by rewrite record_insert_ne.
  - by rewrite bool_decide_eq_false_2.
Qed.

Section HostOperations.

Variable d : DOM.


End HostOperations.

(** A list [ul] with the items 2 and 3, and a detached item 4. *)
Definition exampleDOM : DOM :=
  {[ 1%positive := {| parent := None; children := [2; 3]%positive |};
     2%positive := {| parent := Some 1%positive; children := [] |};
     3%positive := {| parent := Some 1%positive; children := [] |};
     4%positive := {| parent := None; children := [] |} ]}.



End NodeOpsTheory.

(** ** [mount] and [unmount] *)

Module AppTheory.

Import VNodeModel App.

Section MountOnce.

Context `{F : SharedFlags} (E : Env) (R : Renderer).

(** The root vnode of a mount: the vnode of the custom element when the app
    has one, a new vnode of the root component otherwise. *)
Definition rootVNode (app : App) (h : Host) : nat * State :=
  match _ceVNode app with
  | Some r => (r, store h)
  | None =>
      createVNode E (_component app) (_props app) ChUndefined 0 None false
        (store h)
  end.

Definition namespaceOf (namespace : NamespaceArg)
  : option PatchProp.ElementNamespace :=
  match namespace with
  | NsTrue => Some PatchProp.svg
  | NsFalse | NsUndefined => None
  | NsName ns => Some ns
  end.

(** The host as [mount] hands it to the renderer, and as the renderer
    leaves it. *)
Definition beforeRender (app : App) (h : Host) : Host :=
  withStore
    (assign (rootVNode app h).1 (set_appContext (Some (_context app)))
       (rootVNode app h).2) h.

Definition afterRender (app : App) (rootContainer : Container)
    (isHydrate : bool) (namespace : NamespaceArg) (h : Host) : Host :=
  match hydrate R with
  | Some hy =>
      if isHydrate
      then hy (rootVNode app h).1 rootContainer (beforeRender app h)
      else render R (Some (rootVNode app h).1) (Some rootContainer)
             (namespaceOf namespace) (beforeRender app h)
  | None =>
      render R (Some (rootVNode app h).1) (Some rootContainer)
        (namespaceOf namespace) (beforeRender app h)
  end.

Definition renderEffect (app : App) (rootContainer : Container)
    (isHydrate : bool) (namespace : NamespaceArg) (h : Host) : Effect :=
  match hydrate R with
  | Some _ =>
      if isHydrate then hydrated (rootVNode app h).1 rootContainer
      else rendered (Some (rootVNode app h).1) (Some rootContainer)
             (namespaceOf namespace)
  | None =>
      rendered (Some (rootVNode app h).1) (Some rootContainer)
        (namespaceOf namespace)
  end.

Lemma filter_isRender_warn (b : bool) (msg : string) :
  filter (fun e => isRender e) (if b then [warn msg] else []) = [].
Proof. by destruct b. Qed.

Lemma filter_isRender_devtools (b : bool) (e : Effect) :
  isRender e = false ->
  filter (fun e => isRender e) (if b then [e] else []) = [].
Proof.
  intros He. destruct b; [|done].
  rewrite filter_cons_False; [done|]. simpl. rewrite He. by intros [].
Qed.

Lemma filter_isMounting_warn (b : bool) (msg : string) :
  filter (fun e => isMountingRender e) (if b then [warn msg] else []) = [].
Proof. by destruct b. Qed.

Lemma filter_isMounting_devtools (b : bool) (e : Effect) :
  isMountingRender e = false ->
  filter (fun e => isMountingRender e) (if b then [e] else []) = [].
Proof.
  intros He. destruct b; [|done].
  rewrite filter_cons_False; [done|]. simpl. rewrite He. by intros [].
Qed.

(** What the first [mount] does. *)
Lemma mount_unmounted app rootContainer isHydrate namespace h :
  isMounted app = false ->
  exists app' warned devtools,
    mount E R app rootContainer isHydrate namespace h
    = (getComponentPublicInstance R
         (component
            (deref (store (afterRender app rootContainer isHydrate namespace h))
               (rootVNode app h).1)),
       app',
       {| store := store (afterRender app rootContainer isHydrate namespace h);
          __vue_app__ :=
            <[rootContainer := _uid app]>
              (__vue_app__ (afterRender app rootContainer isHydrate namespace h)) |},
       (if warned : bool
        then [warn "There is already an app instance mounted on the host container."]
        else [])
       ++ [renderEffect app rootContainer isHydrate namespace h]
       ++ (if devtools : bool then [devtoolsInitApp] else [])) /\
    isMounted app' = true /\
    _container app' = Some rootContainer /\
    _uid app' = _uid app.
Proof.
  intros Hm. unfold mount, afterRender, renderEffect, beforeRender, rootVNode.
  rewrite Hm. simpl.
  destruct (match _ceVNode app with
            | Some r => (r, store h)
            | None => _
            end) as [vnode st].
  simpl.
  destruct (hydrate R) as [hy|]; [destruct isHydrate|];
    eexists _, _, _; (split; [reflexivity|done]).
Qed.

(** [unmount] never renders a vnode and never changes [isMounted]. *)
Lemma unmount_spec app h :
  exists app' h' effects,
    unmount E R app h = (app', h', effects) /\
    isMounted app' = isMounted app /\
    filter (fun e => isMountingRender e) effects = [].
Proof.
  unfold unmount. destruct (isMounted app) eqn:Hm.
  - destruct (_container app) as [c|]; eexists _, _, _;
      (split; [reflexivity|]); (split; [done|]);
      rewrite ?filter_app, filter_isMounting_devtools by done;
      repeat (rewrite filter_cons_False by (simpl; by intros [])); done.
  - eexists _, _, _. split; [reflexivity|]. split; [done|].
    apply filter_isMounting_warn.
Qed.

(** C8.  An app mounts at most once and is torn down only if it was
    mounted.  The first [mount], on an app that is not mounted, takes the
    root vnode (a new vnode of the root component made by [createVNode],
    or the vnode of the custom element if the app has one), stores the app
    context on it, renders or hydrates it into the container, records the
    container and the back-reference [__vue_app__], and returns
    [getComponentPublicInstance] of the component of the root vnode.
    [mount] on an app that was mounted calls no renderer, changes nothing
    and returns [undefined].  [unmount] on an app that was mounted renders
    [null] into the container and deletes its [__vue_app__]; on an app
    that was not mounted it calls no renderer and changes nothing.
    Whatever the sequence of [mount] and [unmount] calls, at most one
    render or hydration of a vnode takes place, and none on an app that
    was mounted before. *)
Theorem app_mounts_at_most_once :
  (forall app rootContainer isHydrate namespace h,
     isMounted app = false ->
     let '(result, app', h', effects) :=
       mount E R app rootContainer isHydrate namespace h in
     (_ceVNode app = None ->
      rootVNode app h
      = createVNode E (_component app) (_props app) ChUndefined 0 None false
          (store h) /\
      appContext (deref (store (beforeRender app h)) (rootVNode app h).1)
      = Some (_context app)) /\
     filter (fun e => isRender e) effects
     = [renderEffect app rootContainer isHydrate namespace h] /\
     store h' = store (afterRender app rootContainer isHydrate namespace h) /\
     __vue_app__ h' !! rootContainer = Some (_uid app) /\
     isMounted app' = true /\
     _container app' = Some rootContainer /\
     result
     = getComponentPublicInstance R
         (component (deref (store h') (rootVNode app h).1))) /\
  (forall app rootContainer isHydrate namespace h,
     isMounted app = true ->
     let '(result, app', h', effects) :=
       mount E R app rootContainer isHydrate namespace h in
     result = VUndefined /\ app' = app /\ h' = h /\
     filter (fun e => isRender e) effects = []) /\
  (forall app h c,
     isMounted app = true ->
     _container app = Some c ->
     let '(app', h', effects) := unmount E R app h in
     filter (fun e => isRender e) effects = [rendered None (Some c) None] /\
     store h' = store (render R None (Some c) None h) /\
     __vue_app__ h' = delete c (__vue_app__ (render R None (Some c) None h)) /\
     __vue_app__ h' !! c = None) /\
  (forall app h,
     isMounted app = false ->
     let '(app', h', effects) := unmount E R app h in
     app' = app /\ h' = h /\ filter (fun e => isRender e) effects = []) /\
  (forall cs app h,
     let '(app', h', effects) := calls E R cs app h in
     (length (filter (fun e => isMountingRender e) effects) <= 1)%nat /\
     (isMounted app = true ->
      filter (fun e => isMountingRender e) effects = [] /\
      isMounted app' = true)).
Proof.
  repeat apply conj.
  - intros app rootContainer isHydrate namespace h Hm.
    destruct (mount_unmounted app rootContainer isHydrate namespace h Hm)
      as (app' & warned & devtools & -> & Hm' & Hc & _).
    split.
    { intros Hce. unfold beforeRender, rootVNode. rewrite Hce.
      split; [done|].
      destruct (VNodeTheory.createVNode_returns E (_component app) (_props app)
                  ChUndefined 0 None false (store h)) as [v Hv].
      unfold deref. simpl. rewrite list_lookup_alter_eq, Hv. simpl.
      by destruct v. }
    split.
    { rewrite !filter_app, filter_isRender_warn,
        filter_isRender_devtools by done.
      rewrite app_nil_r. simpl.
      rewrite filter_cons_True; [done|].
      unfold renderEffect.
      destruct (hydrate R); [destruct isHydrate|]; done. }
    simpl. split; [done|]. split; [by rewrite lookup_insert_eq|]. done.
  - intros app rootContainer isHydrate namespace h Hm.
    unfold mount. rewrite Hm. simpl.
    repeat split. apply filter_isRender_warn.
  - intros app h c Hm Hc. unfold unmount. rewrite Hm, Hc. simpl.
    split.
    { rewrite filter_cons_False by (simpl; by intros []). rewrite filter_cons_True by (by simpl).
      by rewrite filter_isRender_devtools. }
    repeat split. by rewrite lookup_delete_eq.
  - intros app h Hm. unfold unmount. rewrite Hm.
    repeat split. apply filter_isRender_warn.
  - induction cs as [|c cs IH]; intros app h; simpl.
    { split; [lia|done]. }
    destruct c as [rc hy ns|]; simpl.
    + destruct (isMounted app) eqn:Hm.
      * unfold mount. rewrite Hm. simpl.
        specialize (IH app h).
        destruct (calls E R cs app h) as [[app2 h2] e2].
        destruct IH as [IH1 IH2]. specialize (IH2 Hm) as [IH2 IH3].
        rewrite filter_app, filter_isMounting_warn, IH2. simpl.
        split; [lia|done].
      * destruct (mount_unmounted app rc hy ns h Hm)
          as (app' & warned & devtools & -> & Hm' & _).
        match goal with
        | |- context [calls E R cs app' ?h1] => specialize (IH app' h1)
        end.
        destruct (calls E R cs app' _) as [[app2 h2] e2].
        destruct IH as [_ IH2]. specialize (IH2 Hm') as [IH2 IH3].
        rewrite !filter_app, filter_isMounting_warn,
          filter_isMounting_devtools, IH2 by done.
        split; [|done]. rewrite !app_nil_r.
        etrans; [apply length_filter|]. simpl. lia.
    + destruct (unmount_spec app h) as (app1 & h1 & e1 & -> & Hm1 & He1).
      specialize (IH app1 h1).
      destruct (calls E R cs app1 h1) as [[app2 h2] e2].
      destruct IH as [IH1 IH2]. rewrite filter_app, He1. simpl.
      split; [done|]. intros Hm. apply IH2. by rewrite Hm1.
Qed.

End MountOnce.

(** A renderer that gives a mounted root vnode the component instance 7,
    an app of the component 5, and a host with nothing in it. *)
Definition exampleRenderer : Renderer :=
  {| render := fun vnode _ _ h =>
       match vnode with
       | Some r =>
           {| store := assign r (set_component (Some 7%nat)) (store h);
              __vue_app__ := __vue_app__ h |}
       | None => h
       end;
     hydrate := None;
     getComponentPublicInstance := fun i =>
       match i with Some n => VObj n | None => VUndefined end |}.

Definition exampleApp : App :=
  createApp 0%nat 1%nat (TObject 5%nat None) None.

Definition exampleHost : Host :=
  {| store := initial; __vue_app__ := ∅ |}.

(** C8 at work: the first [mount] of an app that [createApp] returned. *)
Lemma app_mounts_at_most_once_witness :
  isMounted exampleApp = false /\
  (let '(result, app', h', effects) :=
     mount (F := sharedFlags) (plainEnv false) exampleRenderer exampleApp
       3%nat false NsUndefined exampleHost in
   (_ceVNode exampleApp = None ->
    rootVNode (F := sharedFlags) (plainEnv false) exampleApp exampleHost
    = createVNode (F := sharedFlags) (plainEnv false) (_component exampleApp)
        (_props exampleApp) ChUndefined 0 None false (store exampleHost) /\
    appContext
      (deref
         (store (beforeRender (F := sharedFlags) (plainEnv false) exampleApp
                   exampleHost))
         (rootVNode (F := sharedFlags) (plainEnv false) exampleApp
            exampleHost).1)
    = Some (_context exampleApp)) /\
   filter (fun e => isRender e) effects
   = [renderEffect (F := sharedFlags) (plainEnv false) exampleRenderer
        exampleApp 3%nat false NsUndefined exampleHost] /\
   store h'
   = store (afterRender (F := sharedFlags) (plainEnv false) exampleRenderer
              exampleApp 3%nat false NsUndefined exampleHost) /\
   __vue_app__ h' !! 3%nat = Some (_uid exampleApp) /\
   isMounted app' = true /\
   _container app' = Some 3%nat /\
   result
   = getComponentPublicInstance exampleRenderer
       (component
          (deref (store h')
             (rootVNode (F := sharedFlags) (plainEnv false) exampleApp
                exampleHost).1))).
Proof.
  split; [reflexivity|].
  apply (proj1 (app_mounts_at_most_once (F := sharedFlags) (plainEnv false)
                  exampleRenderer)).
  reflexivity.
Defined.

(** The same run, evaluated: the first [mount] returns the public instance
    of the component 7, the second returns [undefined], and in five calls
    a vnode is rendered once. *)
Example mount_twice :
  (mount (F := sharedFlags) (plainEnv false) exampleRenderer exampleApp
     3%nat false NsUndefined exampleHost).1.1.1 = VObj 7%nat /\
  (let '(_, app1, h1, _) :=
     mount (F := sharedFlags) (plainEnv false) exampleRenderer exampleApp
       3%nat false NsUndefined exampleHost in
   (mount (F := sharedFlags) (plainEnv false) exampleRenderer app1
      3%nat false NsUndefined h1).1.1.1) = VUndefined /\
  List.filter isMountingRender
    (calls (F := sharedFlags) (plainEnv false) exampleRenderer
       [Mount 3%nat false NsUndefined; Mount 3%nat false NsUndefined; Unmount;
        Unmount; Mount 4%nat false NsTrue] exampleApp exampleHost).2
  = [rendered (Some O) (Some 3%nat) None].
Proof. vm_compute. repeat split. Qed.

End AppTheory.
(** ** [mergeProps] *)

Module MergePropsTheory.

Import VNodeModel.

Lemma getProp_setProp (o : Data) k v k' :
  getProp (setProp o k v) k' = if bool_decide (k = k') then v else getProp o k'.
Proof.
  induction o as [|[k0 v0] o IH]; simpl.
  - by destruct (bool_decide (k = k')).
  - destruct (bool_decide (k0 = k)) eqn:H0; simpl.
    + apply bool_decide_eq_true in H0 as ->.
      by destruct (bool_decide (k = k')).
    + rewrite IH. destruct (bool_decide (k0 = k')) eqn:H1; [|done].
      apply bool_decide_eq_true in H1 as ->.
      apply bool_decide_eq_false in H0.
      by rewrite bool_decide_eq_false_2 by congruence.
Qed.

Lemma hasProp_setProp (o : Data) k v k' :
  hasProp (setProp o k v) k' = bool_decide (k = k') || hasProp o k'.
Proof.
  induction o as [|[k0 v0] o IH]; simpl.
  - by rewrite orb_false_r.
  - destruct (bool_decide (k0 = k)) eqn:H0; simpl.
    + apply bool_decide_eq_true in H0 as ->.
      by destruct (bool_decide (k = k')).
    + rewrite IH. by destruct (bool_decide (k0 = k')), (bool_decide (k = k')).
Qed.

Lemma hasProp_elem_of (o : Data) k : hasProp o k = true <-> k ∈ o.*1.
Proof.
  induction o as [|[k0 v0] o IH]; simpl.
  - split; [done|]. by intros ?%elem_of_nil.
  - rewrite orb_true_iff, IH, bool_decide_eq_true, elem_of_cons.
    split; intros [?|?]; auto.
Qed.


Section Merge.

Context `{F : SharedFlags} (E : Env).

(** The keys that [mergeProps] copies: not [class], not [style], not a
    listener, not the empty string, and not [__proto__], which an
    assignment does not make a property of an object literal. *)
Definition ordinary (key : string) : Prop :=
  key <> "class"%string /\ key <> "style"%string /\ isOn E key = false /\
  key <> EmptyString /\ key <> "__proto__"%string.

(** A step of the loop touches no key but its own. *)
Lemma mergeProp_other toMerge ret key k :
  key <> k ->
  getProp (mergeProp E toMerge ret key) k = getProp ret k /\
  hasProp (mergeProp E toMerge ret key) k = hasProp ret k.
Proof.
  intros Hne. unfold mergeProp.
  repeat case_match; try done.
  all: rewrite getProp_setProp, hasProp_setProp.
  all: repeat match goal with
           | H : bool_decide _ = true |- _ => apply bool_decide_eq_true in H
           end; subst.
  all: by rewrite bool_decide_eq_false_2.
Qed.

Lemma mergeProp_ordinary toMerge ret k :
  ordinary k ->
  getProp (mergeProp E toMerge ret k) k = getProp toMerge k /\
  hasProp (mergeProp E toMerge ret k) k = true.
Proof.
  intros (Hc & Hs & Ho & He & Hp). unfold mergeProp.
  rewrite (bool_decide_eq_false_2 (k = "class"%string)) by done.
  rewrite (bool_decide_eq_false_2 (k = "style"%string)) by done.
  rewrite Ho, (bool_decide_eq_true_2 (k <> EmptyString)) by done.
  rewrite (bool_decide_eq_false_2 (k = "__proto__"%string)) by done.
  rewrite getProp_setProp, hasProp_setProp.
  by rewrite bool_decide_eq_true_2.
Qed.

Lemma mergeProp_fold toMerge k : forall keys ret,
  ordinary k ->
  getProp (foldl (mergeProp E toMerge) ret keys) k
  = (if bool_decide (k ∈ keys) then getProp toMerge k else getProp ret k) /\
  hasProp (foldl (mergeProp E toMerge) ret keys) k
  = bool_decide (k ∈ keys) || hasProp ret k.
Proof.
  induction keys as [|key keys IH]; intros ret Hk; cbn [foldl].
  - rewrite bool_decide_eq_false_2; [done|]. by intros ?%elem_of_nil.
  - destruct (IH (mergeProp E toMerge ret key) Hk) as [-> ->].
    destruct (decide (key = k)) as [->|Hne].
    + rewrite (bool_decide_eq_true_2 (k ∈ k :: keys))
        by (apply elem_of_cons; by left).
      destruct (mergeProp_ordinary toMerge ret k Hk) as [-> ->].
      by destruct (bool_decide (k ∈ keys)).
    + destruct (mergeProp_other toMerge ret key k Hne) as [-> ->].
      destruct (decide (k ∈ keys)) as [Hin|Hni].
      * rewrite !bool_decide_eq_true_2; [done| |done].
        apply elem_of_cons; by right.
      * rewrite !bool_decide_eq_false_2; [done| |done].
        intros [?|?]%elem_of_cons; congruence.
Qed.

Lemma mergeProps_snoc args b :
  mergeProps E (args ++ [b])
  = foldl (mergeProp E b) (mergeProps E args) b.*1.
Proof. unfold mergeProps. by rewrite foldl_app. Qed.

(** X1.  For a key that is not [class], [style], a listener, the empty
    string or [__proto__], [mergeProps] is an assignment: the merged object
    has the key when some argument has it, and its value is the value in
    the last argument that has it. *)
Theorem mergeProps_last_wins (args : list Data) (k : string) :
  ordinary k ->
  getProp (mergeProps E args) k
  = match last (filter (fun a => hasProp a k = true) args) with
    | Some a => getProp a k
    | None => VUndefined
    end /\
  hasProp (mergeProps E args) k = existsb (fun a => hasProp a k) args.
Proof.
  intros Hk. induction args as [|b args [IH1 IH2]] using rev_ind; [done|].
  rewrite mergeProps_snoc.
  destruct (mergeProp_fold b k b.*1 (mergeProps E args) Hk) as [-> ->].
  rewrite filter_app, existsb_app. simpl. rewrite orb_false_r.
  destruct (hasProp b k) eqn:Hb.
  - rewrite bool_decide_eq_true_2 by by apply hasProp_elem_of.
    rewrite filter_cons_True by done. rewrite filter_nil, last_snoc.
    by rewrite orb_true_r.
  - rewrite bool_decide_eq_false_2.
    2:{ rewrite <- hasProp_elem_of. congruence. }
    rewrite filter_cons_False by congruence.
    by rewrite filter_nil, app_nil_r, orb_false_r.
Qed.

Lemma mergeProp_fold_has toMerge k : forall keys ret,
  hasProp (foldl (mergeProp E toMerge) ret keys) k = true ->
  hasProp ret k = true \/ k ∈ keys.
Proof.
  induction keys as [|key keys IH]; intros ret; cbn [foldl]; [by left|].
  intros [Hr|Hin]%IH.
  - destruct (decide (key = k)) as [->|Hne].
    + right. apply elem_of_cons. by left.
    + left. by rewrite <- (proj2 (mergeProp_other toMerge ret key k Hne)).
  - right. apply elem_of_cons. by right.
Qed.

Lemma mergeProp_fold_empty toMerge : forall keys ret,
  isOn E EmptyString = false ->
  hasProp (foldl (mergeProp E toMerge) ret keys) EmptyString
  = hasProp ret EmptyString.
Proof.
  induction keys as [|key keys IH]; intros ret Ho; cbn [foldl]; [done|].
  rewrite IH by done.
  destruct (decide (key = EmptyString)) as [->|Hne].
  - unfold mergeProp. simpl. by rewrite Ho.
  - apply mergeProp_other. done.
Qed.

(** X2.  [mergeProps] invents no key: a key of the merged object is a key
    of one of the arguments; and it never copies the empty key. *)
Theorem mergeProps_invents_no_key (args : list Data) :
  (forall k, hasProp (mergeProps E args) k = true ->
             exists a, a ∈ args /\ hasProp a k = true) /\
  (isOn E EmptyString = false ->
   hasProp (mergeProps E args) EmptyString = false).
Proof.
  split.
  - intros k. induction args as [|b args IH] using rev_ind; [done|].
    rewrite mergeProps_snoc. intros [Hr|Hin]%mergeProp_fold_has.
    + destruct (IH Hr) as (a & Ha & Hk). exists a. split; [|done].
      apply elem_of_app. by left.
    + exists b. split; [|by apply hasProp_elem_of].
      apply elem_of_app. right. by apply list_elem_of_singleton.
  - intros Ho. induction args as [|b args IH] using rev_ind; [done|].
    by rewrite mergeProps_snoc, mergeProp_fold_empty.
Qed.






End Merge.

(** An environment that takes the keys that start with [on] for
    listeners and builds the array [0] from any two listeners. *)
Definition listenerEnv : Env :=
  {| build := build (plainEnv false);
     currentRenderingInstance := None;
     currentRenderingInstance_slotFlag := None;
     currentScopeId := None;
     hmrDirtyComponents := fun _ => None;
     normalizeClass := fun v => v;
     normalizeClass2 := fun _ v => v;
     normalizeStyle := fun v => v;
     normalizeStyle2 := fun _ v => v;
     isOn := String.prefix "on";
     isArrayIncluding := fun _ _ => false;
     concat2 := fun _ _ => VObj O;
     SuspenseImpl_normalize := fun v => v;
     setTransitionHooks_clone := fun v h => set_transition (Some h) v |}.

(** X1 at work: the [id] of the second object wins. *)
Lemma mergeProps_last_wins_witness :
  ordinary listenerEnv "id" /\
  getProp (mergeProps listenerEnv
             [[("id", VStr "a"); ("title", VStr "t")]; [("id", VStr "b")]])
    "id"
  = VStr "b".
Proof.
  assert (H : ordinary listenerEnv "id") by (by repeat split).
  split; [exact H|].
  exact (proj1 (mergeProps_last_wins listenerEnv
                  [[("id", VStr "a"); ("title", VStr "t")]; [("id", VStr "b")]]
                  "id" H)).
Defined.

(** X2 at work. *)
Lemma mergeProps_invents_no_key_witness :
  isOn listenerEnv EmptyString = false /\
  hasProp (mergeProps listenerEnv
             [[(EmptyString, VStr "a")]]) EmptyString = false.
Proof.
  split; [reflexivity|].
  apply (proj2 (mergeProps_invents_no_key listenerEnv
                  [[(EmptyString, VStr "a")]])).
  reflexivity.
Defined.


End MergePropsTheory.

(** ** [cloneVNode], [cloneIfMounted] and [normalizeVNode] *)

Module CloneTheory.

Import VNodeModel VNodeTheory MergePropsTheory.

(** Induction on a vnode through the vnodes that cloning visits: the
    elements of a children array and the two branches of a suspense. *)
Lemma VNode_clone_ind (P : VNode -> Prop) :
  (forall t p k r sc ssi ch c su ssc ssf di tr e an ta ts tan stc sf pf dp dc
          ac cx ce0 me,
     match ch with
     | ChArray elems =>
         Forall (fun i => match i with ItemVNode w => P w | _ => True end)
           elems
     | _ => True
     end ->
     match ssc with Some w => P w | None => True end ->
     match ssf with Some w => P w | None => True end ->
     P (mkVNode t p k r sc ssi ch c su ssc ssf di tr e an ta ts tan stc sf pf
          dp dc ac cx ce0 me)) ->
  forall v, P v.
Proof.
  intros H. fix IH 1.
  intros [t p k r sc ssi ch c su ssc ssf di tr e an ta ts tan stc sf pf dp dc
            ac cx ce0 me].
  apply H.
  - destruct ch as [ | |elems| | | ]; try exact I.
    revert elems. fix IHe 1. intros [|[w|x] elems].
    + apply Forall_nil_2.
    + apply Forall_cons_2; [apply IH|apply IHe].
    + apply Forall_cons_2; [exact I|apply IHe].
  - destruct ssc as [w|]; [apply IH|exact I].
  - destruct ssf as [w|]; [apply IH|exact I].
Qed.

Section Clone.

Context `{F : SharedFlags} (E : Env).

(** X4.  A clone made without extra props, whose transition hooks are not
    cloned, is a fixed point of cloning: [cloneVNode] of it gives it back,
    and [deepCloneVNode] of a deep clone gives the deep clone back.  (The
    first clone differs from the original: it has no [memo], its key is
    the normalized key of its props, and so in its suspense branches.) *)
Theorem cloneVNode_of_a_clone (v : VNode) :
  cloneVNode E (cloneVNode E v None false false) None false false
  = cloneVNode E v None false false /\
  deepCloneVNode E (deepCloneVNode E v) = deepCloneVNode E v.
Proof.
  assert (Htwice : forall (v : VNode) (deep : bool),
    cloneVNode_ E deep (cloneVNode_ E deep v None false false) None false false
    = cloneVNode_ E deep v None false false).
  { clear v. intros v.
    induction v as [t p k r sc ssi ch c su ssc ssf di tr e an ta ts
      tan stc sf pf dp dc ac cx ce0 me Hch Hssc Hssf] using VNode_clone_ind.
    intros deep.
    assert (Hc : forall w : option VNode,
               match w with Some w => forall deep,
                 cloneVNode_ E deep (cloneVNode_ E deep w None false false)
                   None false false
                 = cloneVNode_ E deep w None false false
               | None => True end ->
               match match w with
                     | Some c0 => Some (cloneVNode_ E false c0 None false false)
                     | None => None
                     end with
               | Some c0 => Some (cloneVNode_ E false c0 None false false)
               | None => None
               end
               = match w with
                 | Some c0 => Some (cloneVNode_ E false c0 None false false)
                 | None => None
                 end).
    { intros [w|] Hw; [|done]. by rewrite Hw. }
    destruct tr; simpl; rewrite (Hc ssc Hssc), (Hc ssf Hssf).
    all: destruct ch as [ | |elems| | | ]; try reflexivity.
    all: destruct (deep || DEV E && (pf =? CACHED)); [|reflexivity].
    all: do 2 f_equal; rewrite map_map; apply map_ext_Forall;
      eapply Forall_impl; [exact Hch|];
      intros [w|x] Hw; [by rewrite Hw|done].
  }
  split; apply Htwice.
Qed.



(** *** [normalizeVNode] *)

Lemma encodeShapeFlag_Fragment : encodeShapeFlag E Fragment = 0.
Proof. unfold encodeShapeFlag. simpl. by rewrite andb_false_r. Qed.

(** [createVNode(Comment)] *)
Lemma createVNode_Comment s :
  createVNode E Comment None ChUndefined 0 None false s
  = alloc (storeChildren (baseVNode E Comment None ChNull 0 None 0) ChNull 0)
      s.
Proof.
  rewrite createVNode_not_vnode by done.
  change (coerced Comment) with Comment. simpl classNormalized.
  rewrite unproxied_symbol, encodeShapeFlag_Comment by done.
  unfold createBaseVNode, createBaseVNode_. simpl.
  rewrite hasFlag_0, andb_false_r. simpl.
  by rewrite trackedIn_static.
Qed.

(** [createVNode(Fragment, null, array)] *)
Lemma createVNode_Fragment elems s :
  createVNode E Fragment None (ChArray elems) 0 None false s
  = alloc (storeChildren (baseVNode E Fragment None (ChArray elems) 0 None 0)
             (ChArray elems) ARRAY_CHILDREN) s.
Proof.
  rewrite createVNode_not_vnode by done.
  change (coerced Fragment) with Fragment. simpl classNormalized.
  rewrite unproxied_symbol, encodeShapeFlag_Fragment by done.
  unfold createBaseVNode, createBaseVNode_. simpl.
  rewrite hasFlag_0, andb_false_r. simpl.
  by rewrite trackedIn_static.
Qed.

(** [createVNode(Text, null, text)] *)
Lemma createVNode_Text text s :
  createVNode E Text None (ChPrimitive (PStr text)) 0 None false s
  = alloc (textVNode E text 0) s.
Proof. apply createText_with. Qed.

(** X6.  [normalizeVNode] always returns a vnode of the store, and it
    leaves the blocks, the block stack and every vnode that is there
    alone.  The vnode is a new [Comment] without children for [null],
    [undefined] and booleans, a new [Fragment] with the elements for an
    array, a new [Text] with the text for a string or a number
    ([String(child)]), none of them with a key or a patch flag.  For a
    vnode it is the vnode itself when that is not mounted and not cached,
    or memoized, and else a new clone of it, which has its type and its
    element. *)
Theorem normalizeVNode_makes_a_vnode (child : VNodeChild) (s : State) :
  (forall r, child = ChildVNode r -> is_Some (vnodes s !! r)) ->
  let '(r, s') := normalizeVNode E child s in
  allocated s s' /\
  exists vnode,
    vnodes s' !! r = Some vnode /\
    match child with
    | ChildNull | ChildUndefined | ChildBool _ =>
        r = length (vnodes s) /\ type vnode = Comment /\
        children vnode = ChNull /\ shapeFlag vnode = 0 /\
        key vnode = VNull /\ patchFlag vnode = 0
    | ChildArray elems =>
        r = length (vnodes s) /\ type vnode = Fragment /\
        children vnode = ChArray elems /\
        shapeFlag vnode = ARRAY_CHILDREN /\
        key vnode = VNull /\ patchFlag vnode = 0
    | ChildString text =>
        r = length (vnodes s) /\ type vnode = Text /\
        children vnode = ChPrimitive (PStr text) /\
        shapeFlag vnode = TEXT_CHILDREN /\
        key vnode = VNull /\ patchFlag vnode = 0
    | ChildNumber n =>
        r = length (vnodes s) /\ type vnode = Text /\
        children vnode = ChPrimitive (PStr (numberToString n)) /\
        shapeFlag vnode = TEXT_CHILDREN /\
        key vnode = VNull /\ patchFlag vnode = 0
    | ChildVNode r0 =>
        let v := deref s r0 in
        if bool_decide (el v = None) && negb (patchFlag v =? CACHED)
           || bool_decide (is_Some (memo v))
        then r = r0 /\ s' = s
        else r = length (vnodes s) /\
             vnode = cloneVNode E v None false false /\
             type vnode = type v /\ el vnode = el v /\ memo vnode = None
    end.
Proof.
  intros Hin.
  assert (Hnew : forall v, (vnodes s ++ [v]) !! length (vnodes s) = Some v).
  { intros v. rewrite lookup_app_r by lia. by rewrite Nat.sub_diag. }
  destruct child as [ | |b|elems|r0|text|n]; unfold normalizeVNode.
  - rewrite createVNode_Comment. simpl.
    split; [apply (allocated_alloc _ s)|]. eexists. split; [apply Hnew|done].
  - rewrite createVNode_Comment. simpl.
    split; [apply (allocated_alloc _ s)|]. eexists. split; [apply Hnew|done].
  - rewrite createVNode_Comment. simpl.
    split; [apply (allocated_alloc _ s)|]. eexists. split; [apply Hnew|done].
  - rewrite createVNode_Fragment. simpl.
    split; [apply (allocated_alloc _ s)|]. eexists. split; [apply Hnew|done].
  - destruct (Hin r0 eq_refl) as [v Hv]. unfold cloneIfMounted.
    rewrite (deref_lookup s r0 v Hv).
    destruct (_ || _).
    + split; [apply allocated_refl|]. by exists v.
    + simpl. split; [apply (allocated_alloc _ s)|].
      eexists. split; [apply Hnew|].
      repeat split; destruct v as [t p k r sc ssi ch c su ssc ssf di tr e an ta
        ts tan stc sf pf dp dc ac cx ce0 me]; by destruct tr.
  - rewrite createVNode_Text. simpl.
    split; [apply (allocated_alloc _ s)|]. eexists. split; [apply Hnew|done].
  - rewrite createVNode_Text. simpl.
    split; [apply (allocated_alloc _ s)|]. eexists. split; [apply Hnew|done].
Qed.

End Clone.


(** X6 at work: a vnode that is mounted on the element [7]. *)
Lemma normalizeVNode_makes_a_vnode_witness :
  let v := set_el (Some 7%nat)
             (baseVNode (plainEnv false) (TString "li") None ChNull 0 None 1) in
  let s := (alloc v initial).2 in
  is_Some (vnodes s !! O) /\
  (let '(r, s') :=
     normalizeVNode (F := sharedFlags) (plainEnv false) (ChildVNode O) s in
   r = 1%nat /\ el (deref s' r) = Some 7%nat /\ vnodes s' !! O = Some v).
Proof.
  intros v s. split; [by exists v|].
  pose proof (normalizeVNode_makes_a_vnode (F := sharedFlags) (plainEnv false)
                (ChildVNode O) s) as H.
  destruct (normalizeVNode (plainEnv false) (ChildVNode O) s) as [r s'] eqn:Hn.
  vm_compute in Hn. injection Hn as <- <-.
  destruct H as (_ & vnode & Hl & Hr & _).
  { intros r0 Hr0. injection Hr0 as <-. by exists v. }
  by repeat split.
Defined.

End CloneTheory.

(** ** Blocks and their dynamic children *)

Module BlockTheory.

Import VNodeModel VNodeTheory.

(** The arguments of a call of [createElementVNode]. *)
Record ElementArgs : Type := {
  a_type : VNodeTypes;
  a_props : option Data;
  a_children : Children VNode;
  a_patchFlag : Z;
  a_dynamicProps : option (list string);
  a_shapeFlag : option Z
}.

Definition elementCall (a : ElementArgs) : Call :=
  CreateElementVNode (a_type a) (a_props a) (a_children a) (a_patchFlag a)
    (a_dynamicProps a) (a_shapeFlag a).

Section Blocks.

Context `{F : SharedFlags} (E : Env).

(** The vnode that the call makes needs patching: it has a positive patch
    flag or is a component, and its patch flag is not [NEED_HYDRATION]. *)
Definition isDynamic (a : ElementArgs) : bool :=
  ((0 <? a_patchFlag a)
   || hasFlag (shapeFlagOr (a_type a) (a_shapeFlag a)) COMPONENT)
  && negb (a_patchFlag a =? NEED_HYDRATION).

(** The references of the dynamic vnodes among those that a sequence of
    calls makes, the first of which gets the reference [n]. *)
Fixpoint dynamicRefs (n : nat) (calls : list ElementArgs) : list nat :=
  match calls with
  | [] => []
  | a :: calls' =>
      (if isDynamic a then [n] else []) ++ dynamicRefs (S n) calls'
  end.

(** A block with more items. *)
Definition extended (rs : list nat) (blk : Block) : Block :=
  {| items := items blk ++ rs; hasOnce := hasOnce blk |}.

Lemma extended_nil blk : extended [] blk = blk.
Proof. destruct blk. unfold extended. simpl. by rewrite app_nil_r. Qed.

Lemma extended_pushed r rs blk :
  extended rs (pushed r blk) = extended (r :: rs) blk.
Proof. unfold extended, pushed. simpl. by rewrite <- app_assoc. Qed.

(** One call of [createElementVNode] in an open block. *)
Lemma step_element (a : ElementArgs) (s : State) (b : nat) :
  currentBlock s = Some b ->
  0 < isBlockTreeEnabled s ->
  let s' := step E (elementCall a) s in
  scopes s' = scopes s /\
  length (vnodes s') = S (length (vnodes s)) /\
  blocks s'
  = if isDynamic a then alter (pushed (length (vnodes s))) b (blocks s)
    else blocks s.
Proof.
  intros Hcb Hen. simpl. unfold createElementVNode, createBaseVNode.
  destruct (createBaseVNode__spec E (createTextVNode0 E)
              (createTextVNode0_allocated E) (a_type a) (a_props a)
              (a_children a) (a_patchFlag a) (a_dynamicProps a) (a_shapeFlag a)
              false false s)
    as (s1 & v & _ & Heq & _ & _ & Hpf).
  destruct (Hpf eq_refl) as [Hpf' ->]. rewrite Heq. simpl.
  assert (Ht : trackedIn s false (shapeFlagOr (a_type a) (a_shapeFlag a)) v
               = if isDynamic a then Some b else None).
  { unfold trackedIn, isDynamic. rewrite Hcb, Hpf'.
    by replace (0 <? isBlockTreeEnabled s) with true by lia. }
  rewrite Ht. destruct (isDynamic a); simpl; rewrite length_app; simpl;
    repeat split; lia.
Qed.

(** A sequence of such calls: the block gets the references of the
    dynamic vnodes, in the order of the calls. *)
Lemma run_elements (calls : list ElementArgs) : forall (s : State) (b : nat),
  currentBlock s = Some b ->
  0 < isBlockTreeEnabled s ->
  let s' := run E (map elementCall calls) s in
  scopes s' = scopes s /\
  length (vnodes s') = (length (vnodes s) + length calls)%nat /\
  blocks s'
  = alter (extended (dynamicRefs (length (vnodes s)) calls)) b (blocks s).
Proof.
  induction calls as [|a calls IH]; intros s b Hcb Hen.
  - simpl. repeat split; [lia|].
    symmetry. apply list_alter_id, extended_nil.
  - cbn [map run].
    destruct (step_element a s b Hcb Hen) as (Hs & Hl & Hb).
    cbv zeta in Hs, Hl, Hb.
    set (s1 := step E (elementCall a) s) in *.
    unfold scopes in Hs. injection Hs as Hst Hc He.
    destruct (IH s1 b) as (Hs' & Hl' & Hb').
    { by rewrite Hc. } { by rewrite He. }
    cbv zeta in Hs', Hl', Hb'. cbv zeta. rewrite Hl', Hb', Hl, Hb, Hs'.
    unfold scopes. rewrite Hst, Hc, He.
    repeat split; [simpl; lia|].
    cbn [dynamicRefs]. destruct (isDynamic a); simpl.
    + rewrite list_alter_alter_eq. apply list_alter_ext; [|done].
      intros blk _. simpl. apply extended_pushed.
    + done.
Qed.

(** A block node is not tracked by its own creation. *)
Lemma trackedIn_block s shapeFlag v : trackedIn s true shapeFlag v = None.
Proof.
  unfold trackedIn. destruct (currentBlock s); [|done].
  simpl. by rewrite andb_false_r.
Qed.

(** [setupBlock] in full. *)
Lemma setupBlock_spec r s :
  let dc :=
    if 0 <? isBlockTreeEnabled s
    then Some (match currentBlock s with
               | Some b => BlockArray b
               | None => EMPTY_ARR
               end)
    else None in
  (setupBlock r s).1 = r /\
  vnodes (setupBlock r s).2 = alter (set_dynamicChildren dc) r (vnodes s) /\
  scopes (setupBlock r s).2
  = (removelast (blockStack s), top (removelast (blockStack s)),
     isBlockTreeEnabled s) /\
  blocks (setupBlock r s).2
  = match top (removelast (blockStack s)) with
    | Some p =>
        if 0 <? isBlockTreeEnabled s then alter (pushed r) p (blocks s)
        else blocks s
    | None => blocks s
    end.
Proof.
  unfold setupBlock, scopes. simpl.
  destruct (top (removelast (blockStack s))) eqn:Ht;
    [destruct (0 <? isBlockTreeEnabled s)|]; simpl; by rewrite ?Ht.
Qed.

(** [createBaseVNode] called for a block node by [createElementBlock]. *)
Lemma createBaseVNode_block (a : ElementArgs) (s : State) :
  exists vnode,
    createBaseVNode E (a_type a) (a_props a) (a_children a) (a_patchFlag a)
      (a_dynamicProps a) (a_shapeFlag a) true false s
    = alloc vnode s.
Proof.
  destruct (createBaseVNode__spec E (createTextVNode0 E)
              (createTextVNode0_allocated E) (a_type a) (a_props a)
              (a_children a) (a_patchFlag a) (a_dynamicProps a) (a_shapeFlag a)
              true false s)
    as (s1 & v & _ & Heq & _ & _ & Hpf).
  destruct (Hpf eq_refl) as [_ ->]. exists v.
  unfold createBaseVNode. rewrite Heq. by rewrite trackedIn_block.
Qed.

(** *** The blocks of the stack are blocks of the store *)

Definition stackBounded (s : State) : Prop :=
  Forall (fun ob => match ob with
                    | Some b => (b < length (blocks s))%nat
                    | None => True
                    end) (blockStack s).

Lemma length_blocks_createBaseVNode type props children patchFlag dynamicProps
    shapeFlag isBlockNode needFull s :
  length (blocks (createBaseVNode E type props children patchFlag dynamicProps
                    shapeFlag isBlockNode needFull s).2)
  = length (blocks s).
Proof.
  destruct (createBaseVNode_tracks E type props children patchFlag
              dynamicProps shapeFlag isBlockNode needFull s)
    as (v & _ & _ & _ & -> & _).
  destruct (trackedIn _ _ _ _); [apply length_alter|done].
Qed.

Lemma length_blocks_createVNode type props children patchFlag dynamicProps
    isBlockNode s :
  length (blocks (createVNode E type props children patchFlag dynamicProps
                    isBlockNode s).2)
  = length (blocks s).
Proof.
  destruct (isVNode s (coerced type)) as [v|] eqn:Hv.
  - destruct (coerced type) as [| | | | | | | | | |old|] eqn:Hc;
      try discriminate.
    destruct (createVNode_vnode E type props children patchFlag dynamicProps
                isBlockNode s old v Hc Hv) as (c & _ & _ & _ & _ & ->).
    repeat case_match; by rewrite ?length_alter.
  - rewrite createVNode_not_vnode by done.
    apply length_blocks_createBaseVNode.
Qed.

Lemma length_blocks_setupBlock r s :
  length (blocks (setupBlock r s).2) = length (blocks s).
Proof.
  destruct (setupBlock_spec r s) as (_ & _ & _ & ->).
  repeat case_match; by rewrite ?length_alter.
Qed.

Lemma Forall_removelast {A} (P : A -> Prop) (l : list A) :
  Forall P l -> Forall P (removelast l).
Proof.
  destruct l as [|x l _] using rev_ind; [done|].
  rewrite removelast_last. by intros [? _]%Forall_app.
Qed.

Lemma stackBounded_weaken (st : list (option nat)) (n m : nat) :
  (n <= m)%nat ->
  Forall (fun ob => match ob with Some b => (b < n)%nat | None => True end) st ->
  Forall (fun ob => match ob with Some b => (b < m)%nat | None => True end) st.
Proof.
  intros Hle H. eapply Forall_impl; [exact H|]. intros [b|]; [lia|done].
Qed.

(** Every call keeps the blocks of the stack within the store. *)
Lemma stackBounded_step c s : stackBounded s -> stackBounded (step E c s).
Proof.
  unfold stackBounded. intros Hb.
  destruct c as [d| |v|t p ch pf dp sf|t p ch pf dp|t p ch pf dp sf|t p ch pf dp
                 |text flag|content n|text asBlock]; unfold step.
  - destruct d; simpl.
    + apply Forall_app. split; [done|]. by apply Forall_singleton.
    + rewrite length_app. simpl. apply Forall_app. split.
      * eapply stackBounded_weaken; [|exact Hb]. lia.
      * apply Forall_singleton. lia.
  - simpl. by apply Forall_removelast.
  - unfold setBlockTracking. repeat case_match; simpl;
      by rewrite ?length_alter.
  - unfold createElementVNode.
    pose proof (scopes_createBaseVNode E t p ch pf dp sf false false s) as Hs.
    pose proof (length_blocks_createBaseVNode t p ch pf dp sf false false s)
      as Hl.
    unfold scopes in Hs. injection Hs as -> _ _. by rewrite Hl.
  - pose proof (scopes_createVNode E t p ch pf dp false s) as Hs.
    pose proof (length_blocks_createVNode t p ch pf dp false s) as Hl.
    unfold scopes in Hs. injection Hs as -> _ _. by rewrite Hl.
  - unfold createElementBlock.
    pose proof (scopes_createBaseVNode E t p ch pf dp sf true false s) as Hs.
    pose proof (length_blocks_createBaseVNode t p ch pf dp sf true false s)
      as Hl.
    destruct (createBaseVNode _ _ _ _ _ _ _ _ _ _) as [r s1].
    simpl in Hs, Hl. unfold scopes in Hs. injection Hs as Hst _ _.
    destruct (setupBlock_spec r s1) as (_ & _ & Hs' & _).
    apply scopes_eq in Hs' as (-> & _ & _).
    rewrite length_blocks_setupBlock, Hl, Hst. by apply Forall_removelast.
  - unfold createBlock.
    pose proof (scopes_createVNode E t p ch pf dp true s) as Hs.
    pose proof (length_blocks_createVNode t p ch pf dp true s) as Hl.
    destruct (createVNode _ _ _ _ _ _ _ _) as [r s1].
    simpl in Hs, Hl. unfold scopes in Hs. injection Hs as Hst _ _.
    destruct (setupBlock_spec r s1) as (_ & _ & Hs' & _).
    apply scopes_eq in Hs' as (-> & _ & _).
    rewrite length_blocks_setupBlock, Hl, Hst. by apply Forall_removelast.
  - unfold createTextVNode.
    pose proof (scopes_createVNode E Text None (ChPrimitive (PStr text)) flag
                  None false s) as Hs.
    pose proof (length_blocks_createVNode Text None (ChPrimitive (PStr text))
                  flag None false s) as Hl.
    unfold scopes in Hs. injection Hs as -> _ _. by rewrite Hl.
  - unfold createStaticVNode.
    pose proof (scopes_createVNode E Static None (ChPrimitive (PStr content))
                  0 None false s) as Hs.
    pose proof (length_blocks_createVNode Static None
                  (ChPrimitive (PStr content)) 0 None false s) as Hl.
    destruct (createVNode _ _ _ _ _ _ _ _) as [r s1].
    simpl in *. unfold scopes in Hs. injection Hs as -> _ _. by rewrite Hl.
  - unfold createCommentVNode. destruct asBlock.
    + unfold createBlock.
      pose proof (scopes_createVNode E Comment None (ChPrimitive (PStr text))
                    0 None true (openBlock false s)) as Hs.
      pose proof (length_blocks_createVNode Comment None
                    (ChPrimitive (PStr text)) 0 None true (openBlock false s))
        as Hl.
      destruct (createVNode _ _ _ _ _ _ _ _) as [r s1].
      simpl in Hs, Hl. unfold scopes in Hs. injection Hs as Hst _ _.
      destruct (setupBlock_spec r s1) as (_ & _ & Hs' & _).
      apply scopes_eq in Hs' as (-> & _ & _).
      rewrite length_blocks_setupBlock, Hl, Hst, removelast_last, length_app.
      eapply stackBounded_weaken; [|exact Hb]. lia.
    + pose proof (scopes_createVNode E Comment None (ChPrimitive (PStr text))
                    0 None false s) as Hs.
      pose proof (length_blocks_createVNode Comment None
                    (ChPrimitive (PStr text)) 0 None false s) as Hl.
      unfold scopes in Hs. injection Hs as -> _ _. by rewrite Hl.
Qed.

(** In every state that the calls reach from the initial one, the current
    block is a block of the store. *)
Lemma currentBlock_bounded calls p :
  currentBlock (run E calls initial) = Some p ->
  (p < length (blocks (run E calls initial)))%nat.
Proof.
  assert (Hrun : forall calls s, stackBounded s -> stackBounded (run E calls s)).
  { clear. induction calls as [|c calls IH]; intros s Hs; simpl; [done|].
    by apply IH, stackBounded_step. }
  pose proof (Hrun calls initial (Forall_nil_2 _)) as Hb.
  pose proof (currentIsTop_run E calls initial (currentIsTop_initial)) as Ht.
  unfold currentIsTop, top in Ht. rewrite Ht. clear Ht.
  unfold stackBounded in Hb.
  destruct (blockStack (run E calls initial)) as [|x st _] using rev_ind;
    [done|].
  rewrite last_snoc. apply Forall_app in Hb as [_ Hx].
  rewrite Forall_singleton in Hx. destruct x; [|done]. by intros [= <-].
Qed.

(** X7.  The dynamic children of a block are the vnodes that need
    patching, in the order of their creation.  When tracking is on and
    the calls [openBlock()], [createElementVNode] any number of times and
    [createElementBlock] are made in this order, the block vnode is the
    vnode made last, its [dynamicChildren] is the array that [openBlock]
    made, and the array holds exactly the vnodes made in between that
    have a positive patch flag or are components, and whose patch flag is
    not [NEED_HYDRATION], in the order of the calls.  The block stack is
    as it was before, and the enclosing block, if there is one, has got
    the block vnode and nothing else. *)
Theorem block_collects_dynamic_children (calls : list ElementArgs)
    (root : ElementArgs) (s : State) :
  0 < isBlockTreeEnabled s ->
  currentIsTop s ->
  (forall p, currentBlock s = Some p -> (p < length (blocks s))%nat) ->
  let b := length (blocks s) in
  let n := length (vnodes s) in
  let '(r, s') :=
    createElementBlock E (a_type root) (a_props root) (a_children root)
      (a_patchFlag root) (a_dynamicProps root) (a_shapeFlag root)
      (run E (OpenBlock false :: map elementCall calls) s) in
  r = (n + length calls)%nat /\
  dynamicChildren (deref s' r) = Some (BlockArray b) /\
  blocks s' !! b = Some {| items := dynamicRefs n calls; hasOnce := false |} /\
  scopes s' = scopes s /\
  (forall p blk, currentBlock s = Some p -> blocks s !! p = Some blk ->
                 blocks s' !! p = Some (pushed r blk)).
Proof.
  intros Hen Htop Hbound b n. cbn [run step].
  set (s1 := openBlock false s).
  destruct (run_elements calls s1 b eq_refl Hen) as (Hs2 & Hl2 & Hb2).
  cbv zeta in Hs2, Hl2, Hb2.
  set (s2 := run E (map elementCall calls) s1) in *.
  unfold scopes in Hs2. injection Hs2 as Hst2 Hc2 He2.
  change (blockStack s1) with (blockStack s ++ [Some b]) in Hst2.
  change (currentBlock s1) with (Some b) in Hc2.
  change (isBlockTreeEnabled s1) with (isBlockTreeEnabled s) in He2.
  change (vnodes s1) with (vnodes s) in Hl2, Hb2.
  change (blocks s1) with (blocks s ++ [newBlock]) in Hb2.
  unfold createElementBlock.
  destruct (createBaseVNode_block root s2) as (v & ->).
  change (alloc v s2) with (length (vnodes s2), (alloc v s2).2).
  cbv beta iota.
  set (s3 := (alloc v s2).2).
  destruct (setupBlock_spec (length (vnodes s2)) s3) as (Hr & Hv & Hs & Hb).
  cbv zeta in Hv.
  change (isBlockTreeEnabled s3) with (isBlockTreeEnabled s2) in Hv, Hs, Hb.
  change (currentBlock s3) with (currentBlock s2) in Hv.
  change (blockStack s3) with (blockStack s2) in Hs, Hb.
  change (blocks s3) with (blocks s2) in Hb.
  change (vnodes s3) with (vnodes s2 ++ [v]) in Hv.
  rewrite Hst2, removelast_last in Hs, Hb. rewrite He2 in Hv, Hs, Hb.
  rewrite Hc2 in Hv. replace (0 <? isBlockTreeEnabled s) with true in * by lia.
  rewrite <- Htop in Hs, Hb.
  destruct (setupBlock (length (vnodes s2)) s3) as [r s'].
  simpl in Hr. subst r. simpl in Hv, Hs, Hb.
  assert (Hlb : (blocks s ++ [newBlock]) !! b = Some newBlock).
  { unfold b. rewrite lookup_app_r by lia. by rewrite Nat.sub_diag. }
  split; [exact Hl2|]. split.
  { unfold deref. rewrite Hv, list_lookup_alter_eq.
    rewrite lookup_app_r by lia. rewrite Nat.sub_diag. simpl.
    by autorewrite with vnode. }
  split.
  { rewrite Hb. destruct (currentBlock s) as [p|] eqn:Hp.
    - rewrite list_lookup_alter_ne by (specialize (Hbound p eq_refl); lia).
      by rewrite Hb2, list_lookup_alter_eq, Hlb.
    - by rewrite Hb2, list_lookup_alter_eq, Hlb. }
  split; [exact Hs|].
  intros p blk Hp Hblk. rewrite Hb, Hp.
  rewrite list_lookup_alter_eq, Hb2.
  rewrite list_lookup_alter_ne by (specialize (Hbound p Hp); lia).
  rewrite lookup_app_l by (by apply Hbound). by rewrite Hblk.
Qed.

(** The vnode that [createVNode(Comment, null, text)] makes. *)
Definition commentVNode (text : string) : VNode :=
  storeChildren (baseVNode E Comment None (ChPrimitive (PStr text)) 0 None 0)
    (ChPrimitive (PStr text)) TEXT_CHILDREN.

Lemma createVNode_Comment_block text s :
  createVNode E Comment None (ChPrimitive (PStr text)) 0 None true s
  = alloc (commentVNode text) s.
Proof.
  rewrite createVNode_not_vnode by done.
  change (coerced Comment) with Comment. simpl classNormalized.
  rewrite unproxied_symbol, encodeShapeFlag_Comment by done.
  unfold createBaseVNode, createBaseVNode_. simpl.
  rewrite hasFlag_0, andb_false_r. simpl.
  fold (commentVNode text). by rewrite trackedIn_block.
Qed.

(** X8.  A comment made as a block ([createCommentVNode(text, true)], the
    [v-else] branch of a [v-if]) is an empty block of its own: the call
    leaves the block stack as it was, the comment's [dynamicChildren] is a
    new array without elements when tracking is on and [null] when it is
    off, and when tracking is on the enclosing block, if there is one,
    gets the comment, although its patch flag is 0. *)
Theorem comment_block_is_tracked (text : string) (s : State) :
  currentIsTop s ->
  (forall p, currentBlock s = Some p -> (p < length (blocks s))%nat) ->
  let '(r, s') := createCommentVNode E text true s in
  scopes s' = scopes s /\
  (exists vnode,
     vnodes s' !! r = Some vnode /\ type vnode = Comment /\
     patchFlag vnode = 0 /\
     children vnode = ChPrimitive (PStr text) /\
     dynamicChildren vnode
     = if 0 <? isBlockTreeEnabled s
       then Some (BlockArray (length (blocks s))) else None) /\
  blocks s' !! length (blocks s) = Some newBlock /\
  (forall p blk, currentBlock s = Some p -> blocks s !! p = Some blk ->
     blocks s' !! p
     = Some (if 0 <? isBlockTreeEnabled s then pushed r blk else blk)).
Proof.
  intros Htop Hbound. unfold createCommentVNode, createBlock.
  set (s1 := openBlock false s).
  rewrite createVNode_Comment_block.
  change (alloc (commentVNode text) s1)
    with (length (vnodes s), (alloc (commentVNode text) s1).2).
  cbv beta iota.
  set (s2 := (alloc (commentVNode text) s1).2).
  destruct (setupBlock_spec (length (vnodes s)) s2) as (Hr & Hv & Hs & Hb).
  cbv zeta in Hv.
  change (isBlockTreeEnabled s2) with (isBlockTreeEnabled s) in Hv, Hs, Hb.
  change (currentBlock s2) with (Some (length (blocks s))) in Hv.
  change (blockStack s2)
    with (blockStack s ++ [Some (length (blocks s))]) in Hs, Hb.
  change (blocks s2) with (blocks s ++ [newBlock]) in Hb.
  change (vnodes s2) with (vnodes s ++ [commentVNode text]) in Hv.
  rewrite removelast_last in Hs, Hb. rewrite <- Htop in Hs, Hb.
  destruct (setupBlock (length (vnodes s)) s2) as [r s'].
  simpl in Hr. subst r. simpl in Hv, Hs, Hb.
  assert (Hlb : (blocks s ++ [newBlock]) !! length (blocks s) = Some newBlock).
  { rewrite lookup_app_r by lia. by rewrite Nat.sub_diag. }
  split; [exact Hs|]. split.
  { eexists. split.
    - rewrite Hv, list_lookup_alter_eq.
      rewrite lookup_app_r by lia. rewrite Nat.sub_diag. reflexivity.
    - autorewrite with vnode. by destruct (0 <? isBlockTreeEnabled s). }
  split.
  { rewrite Hb. destruct (currentBlock s) as [p|] eqn:Hp; [|done].
    destruct (0 <? isBlockTreeEnabled s); [|done].
    by rewrite list_lookup_alter_ne by (specialize (Hbound p eq_refl); lia). }
  intros p blk Hp Hblk. rewrite Hb, Hp.
  assert (Hl : (blocks s ++ [newBlock]) !! p = Some blk).
  { rewrite lookup_app_l by (by apply Hbound). done. }
  destruct (0 <? isBlockTreeEnabled s); [|done].
  by rewrite list_lookup_alter_eq, Hl.
Qed.

End Blocks.

(** X7 at work: a block with a dynamic [span] and a static [p]. *)
Lemma block_collects_dynamic_children_witness :
  let calls :=
    [{| a_type := TString "span"; a_props := None;
        a_children := ChPrimitive (PStr "a"); a_patchFlag := 1;
        a_dynamicProps := None; a_shapeFlag := None |};
     {| a_type := TString "p"; a_props := None;
        a_children := ChPrimitive (PStr "b"); a_patchFlag := 0;
        a_dynamicProps := None; a_shapeFlag := None |}] in
  let root :=
    {| a_type := TString "div"; a_props := None; a_children := ChNull;
       a_patchFlag := 0; a_dynamicProps := None; a_shapeFlag := None |} in
  0 < isBlockTreeEnabled initial /\
  currentIsTop initial /\
  (forall p, currentBlock initial = Some p ->
             (p < length (blocks initial))%nat) /\
  (let '(r, s') :=
     createElementBlock (F := sharedFlags) (plainEnv false) (a_type root)
       (a_props root) (a_children root) (a_patchFlag root)
       (a_dynamicProps root) (a_shapeFlag root)
       (run (F := sharedFlags) (plainEnv false)
          (OpenBlock false :: map elementCall calls) initial) in
   r = 2%nat /\
   dynamicChildren (deref s' r) = Some (BlockArray O) /\
   blocks s' !! O = Some {| items := [O]; hasOnce := false |}).
Proof.
  intros calls root.
  assert (H1 : 0 < isBlockTreeEnabled initial) by reflexivity.
  assert (H2 : currentIsTop initial) by reflexivity.
  assert (H3 : forall p, currentBlock initial = Some p ->
                         (p < length (blocks initial))%nat) by discriminate.
  split; [exact H1|]. split; [exact H2|]. split; [exact H3|].
  pose proof (block_collects_dynamic_children (F := sharedFlags)
                (plainEnv false) calls root initial H1 H2 H3) as H.
  cbv zeta in H.
  destruct (createElementBlock _ _ _ _ _ _ _ _) as [r s'].
  destruct H as (Hr & Hd & Hb & _). by repeat split.
Defined.

(** X8 at work: a comment block in an open block. *)
Lemma comment_block_is_tracked_witness :
  let s := openBlock false initial in
  currentIsTop s /\
  (forall p, currentBlock s = Some p -> (p < length (blocks s))%nat) /\
  (let '(r, s') :=
     createCommentVNode (F := sharedFlags) (plainEnv false) "v-if" true s in
   blocks s' !! 1%nat = Some newBlock /\
   blocks s' !! O = Some {| items := [r]; hasOnce := false |}).
Proof.
  intros s.
  assert (H1 : currentIsTop s) by reflexivity.
  assert (H2 : forall p, currentBlock s = Some p ->
                         (p < length (blocks s))%nat).
  { intros p Hp. injection Hp as <-. simpl. lia. }
  split; [exact H1|]. split; [exact H2|].
  pose proof (comment_block_is_tracked (F := sharedFlags) (plainEnv false)
                "v-if" s H1 H2) as H.
  destruct (createCommentVNode _ _ _ _) as [r s'].
  destruct H as (_ & _ & Hb & Hp). split; [exact Hb|].
  exact (Hp O newBlock eq_refl eq_refl).
Defined.

End BlockTheory.

(** ** Keys that [patchProp] sets as attributes *)

Module AttributeTheory.

Import PatchProp.

(** The keys that [shouldSetAsProp] turns down on an element that is not
    in the SVG namespace, besides [spellcheck], [draggable], [translate]
    and [form]: a key that is not in the element, [list] on an [INPUT],
    [type] on a [TEXTAREA], [width] and [height] on the embedded tags, and
    a native [on*] key with a string for value. *)
Definition attributeOnly (el : Element) (key : string) (value : Value) : bool :=
  negb (has el key)
  || strIs key "list" && strIs (tagName el) "INPUT"
  || strIs key "type" && strIs (tagName el) "TEXTAREA"
  || (strIs key "width" || strIs key "height")
     && (strIs (tagName el) "IMG" || strIs (tagName el) "VIDEO"
         || strIs (tagName el) "CANVAS" || strIs (tagName el) "SOURCE")
  || isNativeOn key && isString value.

Section Attributes.

Context `{H : SharedHelpers}.

(** X9.  On an element that is neither in the SVG namespace nor a Vue
    custom element, a key without the [.] prefix that is not [class],
    [style] or a listener is never written as a DOM property when it is
    not in the element, or is [list] on an [INPUT], [type] on a
    [TEXTAREA], [width] or [height] on an [IMG], [VIDEO], [CANVAS] or
    [SOURCE], or a native [on*] key with a string value: [patchProp] sets
    the attribute, after storing [true-value] and [false-value] on the
    element, and does nothing else. *)
Theorem patchProp_sets_attribute (el : Element) (key : string)
    (prevValue nextValue : Value) (namespace : option ElementNamespace)
    (parentComponent : option Handle) :
  key <> "class"%string -> key <> "style"%string -> isOn key = false ->
  firstChar key <> Some "."%char -> firstChar key <> Some "^"%char ->
  namespace <> Some svg -> _isVueCE el = false ->
  attributeOnly el key nextValue = true ->
  shouldSetAsProp el key nextValue false = false /\
  patchProp el key prevValue nextValue namespace parentComponent
  = (if strIs key "true-value" then [set_trueValue el nextValue]
     else if strIs key "false-value" then [set_falseValue el nextValue]
     else [])
    ++ [patchAttr el key nextValue false parentComponent None].
Proof.
  intros Hc Hs Ho Hdot Hcaret Hns Hce Hattr.
  assert (Hshould : shouldSetAsProp el key nextValue false = false).
  { unfold shouldSetAsProp. unfold attributeOnly in Hattr.
    destruct (_ || strIs key "translate"); [done|].
    destruct (strIs key "form"); [done|].
    destruct (strIs key "list" && _) eqn:H1; [done|].
    destruct (strIs key "type" && _) eqn:H2; [done|].
    destruct ((strIs key "width" || _) && _) eqn:H3; [done|].
    destruct (isNativeOn key && _) eqn:H4; [done|].
    rewrite !orb_false_r in Hattr. by apply negb_true_iff. }
  split; [exact Hshould|].
  unfold patchProp, strIs.
  rewrite (bool_decide_eq_false_2 (key = "class"%string)) by done.
  rewrite (bool_decide_eq_false_2 (key = "style"%string)) by done.
  rewrite Ho, (bool_decide_eq_false_2 (namespace = Some svg)) by done.
  assert (Hp : match firstChar key with
               | Some "."%char => (true, slice1 key)
               | Some "^"%char => (false, slice1 key)
               | _ => (shouldSetAsProp el key nextValue false, key)
               end = (false, key)).
  { rewrite Hshould. destruct (firstChar key) as [c|]; [|done].
    destruct (decide (c = "."%char)) as [->|Hn1]; [done|].
    destruct (decide (c = "^"%char)) as [->|Hn2]; [done|].
    destruct c as [[] [] [] [] [] [] [] []]; try done. }
  rewrite Hp, Hce. reflexivity.
Qed.

End Attributes.

(** X9 at work: the [list] of an [input]. *)
Lemma patchProp_sets_attribute_witness :
  let el := {| tagName := "INPUT"; _isVueCE := false; has := fun _ => true |} in
  isOn (SharedHelpers := sharedHelpers) "list" = false /\
  attributeOnly el "list" (VStr "colors") = true /\
  patchProp (H := sharedHelpers) el "list" VUndefined (VStr "colors") None None
  = [patchAttr el "list" (VStr "colors") false None None].
Proof.
  intros el. split; [reflexivity|]. split; [reflexivity|].
  refine (proj2 (patchProp_sets_attribute (H := sharedHelpers) el "list"
                   VUndefined (VStr "colors") None None _ _ _ _ _ _ _ _));
    done.
Defined.

End AttributeTheory.

(** ** The host operations together *)

Module HostTheory.

Import NodeOps NodeOpsTheory.

Lemma after_middle n a l1 l2 :
  n ∉ l1 -> after n (l1 ++ n :: a :: l2) = Some a.
Proof.
  induction l1 as [|m l1 IH]; intros Hnot; simpl.
  - by rewrite bool_decide_eq_true_2.
  - apply not_elem_of_cons in Hnot as [Hne Hnot].
    rewrite bool_decide_eq_false_2 by congruence. by apply IH.
Qed.

Lemma after_last n l : n ∉ l -> after n (l ++ [n]) = None.
Proof.
  induction l as [|m l IH]; intros Hnot; simpl.
  - by rewrite bool_decide_eq_true_2.
  - apply not_elem_of_cons in Hnot as [Hne Hnot].
    rewrite bool_decide_eq_false_2 by congruence. by apply IH.
Qed.

Lemma without_not_in n l : n ∉ l -> without n l = l.
Proof.
  intros Hnot. unfold without. induction l as [|m l IH]; [done|].
  apply not_elem_of_cons in Hnot as [Hne Hnot].
  rewrite filter_cons_True by congruence. by rewrite IH.
Qed.

Lemma without_without n l : without n (without n l) = without n l.
Proof. apply without_not_in, self_not_in_without. Qed.

Lemma without_snoc n l : without n (l ++ [n]) = without n l.
Proof.
  rewrite without_app. unfold without at 2.
  rewrite filter_cons_False by (intros ?; congruence).
  by rewrite filter_nil, app_nil_r.
Qed.

Section Together.

Variable d : DOM.

(** The children of the parent after the insertion at the end. *)
Lemma insert_at_end child parent :
  isInclusiveAncestor d child parent = false ->
  exists d',
    insert d child parent None = Normal d' /\
    parentNode d' child = Some parent /\
    childNodes d' parent
    = (if bool_decide (parentNode d child = Some parent)
       then without child (childNodes d parent)
       else childNodes d parent) ++ [child].
Proof.
  intros Hanc. pose proof (not_ancestor_ne _ _ _ Hanc) as Hcp.
  unfold insert, insertBefore. rewrite Hanc.
  eexists. split; [reflexivity|]. split.
  - unfold parentNode. by rewrite record_insert.
  - unfold childNodes at 1. rewrite record_insert_ne by done.
    rewrite record_insert. simpl. by rewrite childNodes_detach.
Qed.

(** The children of the parent after the insertion before an anchor. *)
Lemma insert_before_anchor child parent anchor l1 l2 :
  isInclusiveAncestor d child parent = false ->
  parentNode d anchor = Some parent ->
  child <> anchor ->
  childNodes d parent = l1 ++ anchor :: l2 ->
  anchor ∉ l1 ->
  exists d',
    insert d child parent (Some anchor) = Normal d' /\
    parentNode d' child = Some parent /\
    childNodes d' parent
    = if bool_decide (parentNode d child = Some parent)
      then without child l1 ++ child :: anchor :: without child l2
      else l1 ++ child :: anchor :: l2.
Proof.
  intros Hanc Hpa Hne Hch Hnot.
  pose proof (not_ancestor_ne _ _ _ Hanc) as Hcp.
  unfold insert, insertBefore. rewrite Hanc.
  rewrite bool_decide_eq_true_2 by done.
  rewrite bool_decide_eq_false_2 by congruence.
  eexists. split; [reflexivity|]. split.
  - unfold parentNode. by rewrite record_insert.
  - unfold childNodes at 1. rewrite record_insert_ne by done.
    rewrite record_insert. simpl.
    rewrite childNodes_detach, Hch.
    destruct (bool_decide (parentNode d child = Some parent)).
    + rewrite without_app, without_cons_ne by congruence.
      apply putBefore_anchor. by apply not_in_without.
    + by apply putBefore_anchor.
Qed.

(** X10.  What the renderer reads back after an insertion that the DOM
    accepts.  After [insert(child, parent, anchor)] with an anchor that is
    among the children of the parent and is not the child itself,
    [parentNode(child)] is the parent and [nextSibling(child)] is the
    anchor; after [insert(child, parent)] without anchor,
    [nextSibling(child)] is [null].  The child is neither the parent nor
    an ancestor of it; the children of the parent are taken to hold the
    child only if the parent is its parent, and the anchor once ([l1] is
    what comes before it). *)
Theorem insert_then_read_back (child parent : Node) :
  isInclusiveAncestor d child parent = false ->
  (child ∈ childNodes d parent -> parentNode d child = Some parent) ->
  (forall anchor l1 l2,
     parentNode d anchor = Some parent ->
     child <> anchor ->
     childNodes d parent = l1 ++ anchor :: l2 ->
     anchor ∉ l1 ->
     exists d',
       insert d child parent (Some anchor) = Normal d' /\
       parentNode d' child = Some parent /\
       nextSibling d' child = Some anchor) /\
  (exists d',
     insert d child parent None = Normal d' /\
     parentNode d' child = Some parent /\
     nextSibling d' child = None).
Proof.
  intros Hanc Hcons. split.
  - intros anchor l1 l2 Hpa Hne Hch Hnot.
    destruct (insert_before_anchor child parent anchor l1 l2 Hanc Hpa Hne Hch
                Hnot) as (d' & Hi & Hp & Hc).
    exists d'. split; [done|]. split; [done|].
    unfold nextSibling. rewrite Hp, Hc.
    destruct (bool_decide (parentNode d child = Some parent)) eqn:Hb.
    + apply after_middle, self_not_in_without.
    + apply after_middle. intros Hin.
      apply bool_decide_eq_false in Hb. apply Hb, Hcons.
      rewrite Hch. apply elem_of_app. by left.
  - destruct (insert_at_end child parent Hanc) as (d' & Hi & Hp & Hc).
    exists d'. split; [done|]. split; [done|].
    unfold nextSibling. rewrite Hp, Hc.
    destruct (bool_decide (parentNode d child = Some parent)) eqn:Hb.
    + apply after_last, self_not_in_without.
    + apply after_last. intros Hin.
      apply bool_decide_eq_false in Hb. by apply Hb, Hcons.
Qed.

(** X11.  [remove] undoes [insert], and removing twice is removing once.
    After [insert(child, parent)] and [remove(child)] the child has no
    parent and the children of the parent are those it had before,
    without the child; [remove] on a node that was just removed changes
    nothing. *)
Theorem remove_undoes_insert (child parent : Node) :
  isInclusiveAncestor d child parent = false ->
  (exists d' d'',
     insert d child parent None = Normal d' /\
     remove d' child = Normal d'' /\
     parentNode d'' child = None /\
     childNodes d'' parent = without child (childNodes d parent) /\
     (child ∉ childNodes d parent ->
      childNodes d'' parent = childNodes d parent)) /\
  (exists d1, remove d child = Normal d1 /\ remove d1 child = Normal d1).
Proof.
  intros Hanc. split.
  - destruct (insert_at_end child parent Hanc) as (d' & Hi & Hp & Hc).
    exists d', (detach d' child). split; [done|].
    assert (Hch : childNodes (detach d' child) parent
                  = without child (childNodes d parent)).
    { rewrite childNodes_detach, bool_decide_eq_true_2 by done.
      rewrite Hc, without_snoc.
      destruct (bool_decide _); [apply without_without|done]. }
    split; [|split; [apply parentNode_detach|split; [done|]]].
    + unfold remove, removeChild. rewrite Hp.
      by rewrite bool_decide_eq_true_2.
    + intros Hnot. by rewrite Hch, without_not_in.
  - exists (detach d child). split.
    + unfold remove, removeChild.
      destruct (parentNode d child) as [p|] eqn:Hp.
      * by rewrite bool_decide_eq_true_2.
      * unfold detach. by rewrite Hp.
    + unfold remove. by rewrite parentNode_detach.
Qed.

End Together.

(** X10 at work: the item 4 put at the end of the list. *)
Lemma insert_then_read_back_witness :
  isInclusiveAncestor exampleDOM 4%positive 1%positive = false /\
  (4%positive ∈ childNodes exampleDOM 1%positive ->
   parentNode exampleDOM 4%positive = Some 1%positive) /\
  exists d',
    insert exampleDOM 4%positive 1%positive None = Normal d' /\
    parentNode d' 4%positive = Some 1%positive /\
    nextSibling d' 4%positive = None.
Proof.
  assert (H : 4%positive ∈ childNodes exampleDOM 1%positive ->
              parentNode exampleDOM 4%positive = Some 1%positive).
  { intros Hin. exfalso. revert Hin. change (childNodes exampleDOM 1%positive)
      with [2%positive; 3%positive].
    rewrite !elem_of_cons, elem_of_nil. intros [?|[?|[]]]; discriminate. }
  split; [reflexivity|]. split; [exact H|].
  exact (proj2 (insert_then_read_back exampleDOM 4%positive 1%positive
                  eq_refl H)).
Defined.

(** X11 at work: the item 4 put at the end of the list and removed. *)
Lemma remove_undoes_insert_witness :
  isInclusiveAncestor exampleDOM 4%positive 1%positive = false /\
  exists d' d'',
    insert exampleDOM 4%positive 1%positive None = Normal d' /\
    remove d' 4%positive = Normal d'' /\
    parentNode d'' 4%positive = None /\
    childNodes d'' 1%positive
    = without 4%positive (childNodes exampleDOM 1%positive).
Proof.
  split; [reflexivity|].
  destruct (proj1 (remove_undoes_insert exampleDOM 4%positive 1%positive
                     eq_refl)) as (d' & d'' & H1 & H2 & H3 & H4 & _).
  by exists d', d''.
Defined.

End HostTheory.

(** ** Plugins, mixins and the registries of an app *)

Module AppApiTheory.

Import AppApi.

(** Induction on the code that calls the methods, on the calls and on the
    plugins at once. *)
Section Induction.

Variables (PC : ApiCall -> Prop) (PP : Plugin -> Prop) (PS : Script -> Prop).

Definition forInstall (install : option (list Value -> Script)) : Prop :=
  match install with
  | Some f => forall options, PS (f options)
  | None => True
  end.

Hypothesis HUse : forall p options, PP p -> PC (Use p options).
Hypothesis HMixin : forall m, PC (Mixin m).
Hypothesis HComponent : forall name c, PC (Component name c).
Hypothesis HDirective : forall name d, PC (Directive name d).
Hypothesis HObject : forall id install,
  forInstall install -> PP (PluginObject id install).
Hypothesis HFunction : forall id install body,
  forInstall install -> (forall options, PS (body options)) ->
  PP (PluginFunction id install body).
Hypothesis HOther : PP PluginOther.
Hypothesis HDone : PS Done.
Hypothesis HCall : forall c next,
  PC c -> (forall r, PS (next r)) -> PS (Call c next).

Fixpoint call_induction (c : ApiCall) : PC c :=
  match c with
  | Use p options => HUse p options (plugin_induction p)
  | Mixin m => HMixin m
  | Component name c => HComponent name c
  | Directive name d => HDirective name d
  end
with plugin_induction (p : Plugin) : PP p :=
  match p with
  | PluginObject id install =>
      HObject id install
        (match install as i return forInstall i with
         | Some f => fun options => script_induction (f options)
         | None => I
         end)
  | PluginFunction id install body =>
      HFunction id install body
        (match install as i return forInstall i with
         | Some f => fun options => script_induction (f options)
         | None => I
         end)
        (fun options => script_induction (body options))
  | PluginOther => HOther
  end
with script_induction (s : Script) : PS s :=
  match s with
  | Done => HDone
  | Call c next =>
      HCall c next (call_induction c) (fun r => script_induction (next r))
  end.

End Induction.

(** The calls of the [install] function or of the body of the plugin
    [id]. *)
Definition isInstallOf (id : Handle) (e : Effect) : bool :=
  match e with
  | installCalled i _ | pluginCalled i _ => bool_decide (i = id)
  | warn _ => false
  end.

Definition installs (id : Handle) (trace : list Effect) : nat :=
  length (filter (fun e => isInstallOf id e = true) trace).

Lemma installs_app id t1 t2 :
  installs id (t1 ++ t2) = (installs id t1 + installs id t2)%nat.
Proof. unfold installs. by rewrite filter_app, length_app. Qed.

Lemma installs_warnings id (l : list string) : installs id (warn <$> l) = O.
Proof. induction l as [|m l IH]; [done|]. exact IH. Qed.

Section Plugins.

Variable S : Setting.

(** What a run of calls does to the set of installed plugins, and how
    often it installs a plugin. *)
Definition once (st st' : AppState) (trace : list Effect) : Prop :=
  installedPlugins st ⊆ installedPlugins st' /\
  forall id,
    (installs id trace <= 1)%nat /\
    (id ∈ installedPlugins st -> installs id trace = O) /\
    ((0 < installs id trace)%nat -> id ∈ installedPlugins st').

Lemma once_same st st' trace :
  installedPlugins st' = installedPlugins st ->
  (forall id, installs id trace = O) -> once st st' trace.
Proof.
  intros Hs H. split; [by rewrite Hs|]. intros id. rewrite H.
  repeat split; lia.
Qed.

Lemma once_silent st trace :
  (forall id, installs id trace = O) -> once st st trace.
Proof. by apply once_same. Qed.

Lemma once_then st st1 st2 t1 t2 :
  once st st1 t1 -> once st1 st2 t2 -> once st st2 (t1 ++ t2).
Proof.
  intros [Hs1 H1] [Hs2 H2]. split; [by etransitivity|].
  intros id. rewrite installs_app.
  destruct (H1 id) as (Ha & Hb & Hc). destruct (H2 id) as (Hd & He & Hf).
  repeat split.
  - destruct (decide (0 < installs id t1)%nat) as [Hpos|Hzero]; [|lia].
    rewrite (He (Hc Hpos)). lia.
  - intros Hin. rewrite (Hb Hin), (He (Hs1 _ Hin)). lia.
  - intros Hpos. destruct (decide (0 < installs id t1)%nat) as [Hp|Hz].
    + apply Hs2. by apply Hc.
    + apply Hf. lia.
Qed.

Lemma once_install id st st' trace (e : Effect) :
  id ∉ installedPlugins st ->
  isInstallOf id e = true ->
  (forall id', id' <> id -> isInstallOf id' e = false) ->
  once (installed id st) st' trace ->
  once st st' (e :: trace).
Proof.
  intros Hnot He Hother [Hs H]. split.
  { intros x Hx. apply Hs. simpl. apply elem_of_union. by right. }
  intros id'. destruct (H id') as (Ha & Hb & Hc).
  unfold installs in *. destruct (decide (id' = id)) as [->|Hne].
  - rewrite filter_cons_True by done. simpl.
    assert (Hz : length (filter (fun e0 => isInstallOf id e0 = true) trace) = O).
    { apply Hb. simpl. apply elem_of_union. left. by apply elem_of_singleton. }
    rewrite Hz. repeat split; [lia|done|].
    intros _. apply Hs. simpl. apply elem_of_union. left.
    by apply elem_of_singleton.
  - rewrite filter_cons_False by (rewrite Hother by done; done).
    repeat split; [done| |done].
    intros Hin. apply Hb. simpl. apply elem_of_union. by right.
Qed.

Lemma once_mixin m st : once st (mixin S m st).1.2 (mixin S m st).2.
Proof.
  unfold mixin. repeat case_match; simpl; by apply once_same.
Qed.

Lemma installs_validated id (dev : bool) (l : list string) :
  installs id (if dev then warn <$> l else []) = O.
Proof. destruct dev; [apply installs_warnings|done]. Qed.

Lemma once_component name c st :
  once st (component S name c st).1.2 (component S name c st).2.
Proof.
  unfold component. destruct (negb (truthy c)); simpl.
  - apply once_same; [done|]. intros id. apply installs_validated.
  - apply once_same; [done|]. intros id.
    rewrite installs_app, installs_validated. by destruct (_ && _).
Qed.

Lemma once_directive name c st :
  once st (directive S name c st).1.2 (directive S name c st).2.
Proof.
  unfold directive. destruct (negb (truthy c)); simpl.
  - apply once_same; [done|]. intros id. apply installs_validated.
  - apply once_same; [done|]. intros id.
    rewrite installs_app, installs_validated. by destruct (_ && _).
Qed.

Lemma once_warning st (l : list Effect) :
  (l = [] \/ exists m, l = [warn m]) -> once st st l.
Proof.
  intros [->|[m ->]]; apply once_silent; by intros id.
Qed.

Lemma notAPlugin_warning : notAPlugin S = [] \/ exists m, notAPlugin S = [warn m].
Proof. unfold notAPlugin. destruct (__DEV__ S); eauto. Qed.

Lemma alreadyApplied_warning :
  alreadyApplied S = [] \/ exists m, alreadyApplied S = [warn m].
Proof. unfold alreadyApplied. destruct (__DEV__ S); eauto. Qed.

(** X12.  A plugin is installed at most once in an app.  Whatever code
    calls the methods of the app, and however the plugins call [use] on
    one another or on themselves from their [install] functions, the
    [install] function (or the body) of a plugin is called at most once,
    never when the plugin was installed before, and a plugin whose
    function was called is in [installedPlugins] afterwards; no plugin
    ever leaves the set. *)
Theorem plugin_is_installed_once (s : Script) (st : AppState) (id : Handle) :
  let '(st', trace) := run S s st in
  (installs id trace <= 1)%nat /\
  (id ∈ installedPlugins st -> installs id trace = O) /\
  ((0 < installs id trace)%nat -> id ∈ installedPlugins st') /\
  installedPlugins st ⊆ installedPlugins st'.
Proof.
  assert (Hrun : forall (s : Script) st, once st (run S s st).1 (run S s st).2).
  { clear s st id. intros s. revert s.
    apply (script_induction
             (fun c => forall st, once st (call S c st).1.2 (call S c st).2)
             (fun p => forall options st,
                         once st (use S p options st).1.2 (use S p options st).2)
             (fun s => forall st, once st (run S s st).1 (run S s st).2)).
    - intros p options IH st. apply IH.
    - intros m st. apply once_mixin.
    - intros name c st. apply once_component.
    - intros name d st. apply once_directive.
    - intros id install IH options st. simpl.
      destruct (bool_decide (id ∈ installedPlugins st)) eqn:Hin.
      { apply once_warning, alreadyApplied_warning. }
      apply bool_decide_eq_false in Hin.
      destruct install as [f|]; [|apply once_warning, notAPlugin_warning].
      specialize (IH options (installed id st)).
      destruct (run S (f options) (installed id st)) as [st' effects].
      simpl in *. apply (once_install id); try done.
      + simpl. by rewrite bool_decide_eq_true_2.
      + intros id' Hne. simpl. by rewrite bool_decide_eq_false_2.
    - intros id install body IH IHb options st. simpl.
      destruct (bool_decide (id ∈ installedPlugins st)) eqn:Hin.
      { apply once_warning, alreadyApplied_warning. }
      apply bool_decide_eq_false in Hin.
      destruct install as [f|].
      + specialize (IH options (installed id st)).
        destruct (run S (f options) (installed id st)) as [st' effects].
        simpl in *. apply (once_install id); try done.
        * simpl. by rewrite bool_decide_eq_true_2.
        * intros id' Hne. simpl. by rewrite bool_decide_eq_false_2.
      + specialize (IHb options (installed id st)).
        destruct (run S (body options) (installed id st)) as [st' effects].
        simpl in *. apply (once_install id); try done.
        * simpl. by rewrite bool_decide_eq_true_2.
        * intros id' Hne. simpl. by rewrite bool_decide_eq_false_2.
    - intros options st. apply once_warning, notAPlugin_warning.
    - intros st. simpl. by apply once_silent.
    - intros c next IHc IHn st. simpl.
      specialize (IHc st). destruct (call S c st) as [[r st1] e1].
      specialize (IHn r st1). destruct (run S (next r) st1) as [st2 e2].
      simpl in *. by eapply once_then.
  }
  destruct (Hrun s st) as [Hs H].
  destruct (run S s st) as [st' trace]. simpl in *.
  destruct (H id) as (Ha & Hb & Hc). done.
Qed.

(** *** Mixins *)

(** What a run of calls does to the global mixins: they stay without
    duplicates, and those that are there stay, in their order. *)
Definition grown (st st' : AppState) : Prop :=
  (NoDup (mixins st) -> NoDup (mixins st')) /\
  exists more, mixins st' = mixins st ++ more.

Lemma grown_same st st' : mixins st' = mixins st -> grown st st'.
Proof. intros H. split; [by rewrite H|]. exists []. by rewrite app_nil_r. Qed.

Lemma grown_then st st1 st2 : grown st st1 -> grown st1 st2 -> grown st st2.
Proof.
  intros [H1 [m1 E1]] [H2 [m2 E2]]. split; [auto|].
  exists (m1 ++ m2). by rewrite E2, E1, app_assoc.
Qed.

Lemma grown_mixin m st : grown st (mixin S m st).1.2.
Proof.
  unfold mixin. destruct (__FEATURE_OPTIONS_API__ S); [|by apply grown_same].
  unfold includes. destruct (decide (m ∈ mixins st)) as [Hin|Hnot].
  - rewrite bool_decide_eq_true_2 by done. by apply grown_same.
  - rewrite bool_decide_eq_false_2 by done. simpl. split; [|by exists [m]].
    intros Hnd. apply NoDup_app. split; [done|]. split.
    + intros x Hx ->%list_elem_of_singleton. done.
    + apply NoDup_singleton.
Qed.

(** X13.  The global mixins of an app have no duplicates.  Whatever code
    calls the methods of the app, plugins included, a list of mixins
    without duplicates stays without duplicates, and the mixins that are
    there stay where they are: new ones come after them.  The list of a
    new app is empty, so no mixin is ever in it twice. *)
Theorem mixins_are_applied_once (s : Script) (st : AppState) :
  NoDup (mixins st) ->
  NoDup (mixins (run S s st).1) /\
  (exists more, mixins (run S s st).1 = mixins st ++ more) /\
  NoDup (mixins (run S s created).1).
Proof.
  assert (Hrun : forall (s : Script) st, grown st (run S s st).1).
  { clear s st. intros s. revert s.
    apply (script_induction
             (fun c => forall st, grown st (call S c st).1.2)
             (fun p => forall options st, grown st (use S p options st).1.2)
             (fun s => forall st, grown st (run S s st).1)).
    - intros p options IH st. apply IH.
    - intros m st. apply grown_mixin.
    - intros name c st. unfold call, component.
      destruct (negb (truthy c)); by apply grown_same.
    - intros name d st. unfold call, directive.
      destruct (negb (truthy d)); by apply grown_same.
    - intros id install IH options st. simpl.
      destruct (bool_decide (id ∈ installedPlugins st)); [by apply grown_same|].
      destruct install as [f|]; [|by apply grown_same].
      specialize (IH options (installed id st)).
      destruct (run S (f options) (installed id st)) as [st' effects].
      exact IH.
    - intros id install body IH IHb options st. simpl.
      destruct (bool_decide (id ∈ installedPlugins st)); [by apply grown_same|].
      destruct install as [f|].
      + specialize (IH options (installed id st)).
        destruct (run S (f options) (installed id st)) as [st' effects].
        exact IH.
      + specialize (IHb options (installed id st)).
        destruct (run S (body options) (installed id st)) as [st' effects].
        exact IHb.
    - intros options st. by apply grown_same.
    - intros st. by apply grown_same.
    - intros c next IHc IHn st. simpl.
      specialize (IHc st). destruct (call S c st) as [[r st1] e1].
      specialize (IHn r st1). destruct (run S (next r) st1) as [st2 e2].
      simpl in *. by eapply grown_then.
  }
  intros Hnd. destruct (Hrun s st) as [H1 H2].
  split; [by apply H1|]. split; [done|].
  apply (Hrun s created). apply NoDup_nil_2.
Qed.

(** *** The registries *)

(** X14.  A component that is registered is found under its name.
    After [component(name, c)] with a truthy [c], [component(name)]
    returns [c], and so does [component(name, x)] for every falsy [x]
    ([null], 0, the empty string), which registers nothing; the lookup
    changes nothing; every other name is registered to what it was, the
    directives are as they were.  The same holds with [directive] for
    [component] and the other way round.  The name is not [__proto__]. *)
Theorem registered_is_found (name : string) (c x : Value) (st : AppState) :
  name <> "__proto__"%string ->
  truthy c = true -> truthy x = false ->
  (let '(r, st1, _) := component S name c st in
   r = RApp /\
   (component S name x st1).1 = (RValue c, st1) /\
   (forall other, other <> name ->
      registered S (components st1) other
      = registered S (components st) other) /\
   directives st1 = directives st /\ mixins st1 = mixins st) /\
  (let '(r, st1, _) := directive S name c st in
   r = RApp /\
   (directive S name x st1).1 = (RValue c, st1) /\
   (forall other, other <> name ->
      registered S (directives st1) other
      = registered S (directives st) other) /\
   components st1 = components st /\ mixins st1 = mixins st).
Proof.
  intros _ Hc Hx.
  assert (Hset : forall own,
            registered S (setProp own name c) name = c /\
            forall other, other <> name ->
              registered S (setProp own name c) other
              = registered S own other).
  { intros own. unfold registered. split.
    - rewrite MergePropsTheory.hasProp_setProp,
        MergePropsTheory.getProp_setProp.
      by rewrite !bool_decide_eq_true_2.
    - intros other Hne.
      rewrite MergePropsTheory.hasProp_setProp,
        MergePropsTheory.getProp_setProp.
      by rewrite !bool_decide_eq_false_2. }
  split.
  - unfold component. rewrite Hc, Hx. simpl.
    destruct (Hset (components st)) as [H1 H2]. by rewrite H1.
  - unfold directive. rewrite Hc, Hx. simpl.
    destruct (Hset (directives st)) as [H1 H2]. by rewrite H1.
Qed.

End Plugins.

(** A production build with the options API. *)
Definition production : Setting :=
  {| __DEV__ := false;
     __FEATURE_OPTIONS_API__ := true;
     Object_prototype := fun _ => VUndefined;
     validateComponentName := fun _ => [];
     validateDirectiveName := fun _ => [];
     mixinName := fun _ => None |}.

(** A plugin that installs itself again and applies a mixin. *)
Definition selfish : Plugin :=
  PluginObject 1%nat
    (Some (fun options =>
             Call (Use (PluginObject 1%nat None) options)
               (fun _ => Call (Mixin (VObj 7%nat)) (fun _ => Done)))).

(** The plugin is installed once although [use] is called on it three
    times, and its mixin is applied once. *)
Example selfish_twice :
  run production
    (Call (Use selfish []) (fun _ => Call (Use selfish []) (fun _ => Done)))
    created
  = ({| mixins := [VObj 7%nat]; components := []; directives := [];
        installedPlugins := {[ 1%nat ]} ∪ ∅ |},
     [installCalled 1%nat []]).
Proof. reflexivity. Qed.

(** X13 at work: the same mixin applied twice. *)
Lemma mixins_are_applied_once_witness :
  NoDup (mixins created) /\
  NoDup (mixins (run production
                   (Call (Mixin (VObj 7%nat))
                      (fun _ => Call (Mixin (VObj 7%nat)) (fun _ => Done)))
                   created).1).
Proof.
  assert (H : NoDup (mixins created)) by apply NoDup_nil_2.
  split; [exact H|].
  exact (proj1 (mixins_are_applied_once production _ created H)).
Defined.

(** X14 at work: a component registered and looked up. *)
Lemma registered_is_found_witness :
  truthy (VObj 3%nat) = true /\ truthy VNull = false /\
  (let '(r, st1, _) := component production "my-button" (VObj 3%nat) created in
   (component production "my-button" VNull st1).1 = (RValue (VObj 3%nat), st1)).
Proof.
  split; [reflexivity|]. split; [reflexivity|].
  pose proof (proj1 (registered_is_found production "my-button" (VObj 3%nat) VNull
                       created ltac:(discriminate) eq_refl eq_refl)) as H.
  exact (proj1 (proj2 H)).
Defined.

End AppApiTheory.

(** ** One container, two apps *)

Module ContainerTheory.

Import VNodeModel App AppTheory.

Section Containers.

Context `{F : SharedFlags} (E : Env) (R : Renderer).

(** The warning of [mount] about a container that holds an app. *)
Definition alreadyMounted : Effect :=
  warn "There is already an app instance mounted on the host container.".

(** What the first [mount] does besides changing the app and the host. *)
Lemma mount_effects app rootContainer isHydrate namespace h :
  isMounted app = false ->
  (mount E R app rootContainer isHydrate namespace h).2
  = (if __DEV__ (build E)
        && bool_decide (is_Some (__vue_app__ h !! rootContainer))
     then [alreadyMounted] else [])
    ++ [renderEffect E R app rootContainer isHydrate namespace h]
    ++ (if __DEV__ (build E) || __FEATURE_PROD_DEVTOOLS__ (build E)
        then [devtoolsInitApp] else []).
Proof.
  intros Hm. unfold mount, renderEffect, rootVNode. rewrite Hm. simpl.
  destruct (match _ceVNode app with
            | Some r => (r, store h)
            | None => _
            end) as [vnode st].
  simpl. by destruct (hydrate R) as [hy|]; [destruct isHydrate|].
Qed.

(** The first [mount] warns exactly in a development build, when the
    container holds an app. *)
Lemma mount_warns app rootContainer isHydrate namespace h :
  isMounted app = false ->
  alreadyMounted ∈ (mount E R app rootContainer isHydrate namespace h).2
  <-> __DEV__ (build E) = true /\ is_Some (__vue_app__ h !! rootContainer).
Proof.
  intros Hm. rewrite mount_effects by done.
  assert (Hr : alreadyMounted
               <> renderEffect E R app rootContainer isHydrate namespace h).
  { unfold renderEffect.
    by destruct (hydrate R) as [hy|]; [destruct isHydrate|]. }
  rewrite !elem_of_app, list_elem_of_singleton.
  split.
  - intros [Hw|[Hx|Hd]]; [|done|].
    + destruct (__DEV__ (build E)); [|by apply elem_of_nil in Hw].
      split; [done|]. simpl in Hw.
      destruct (decide (is_Some (__vue_app__ h !! rootContainer))); [done|].
      rewrite bool_decide_eq_false_2 in Hw by done.
      by apply elem_of_nil in Hw.
    + destruct (_ || _); [|by apply elem_of_nil in Hd].
      apply list_elem_of_singleton in Hd. discriminate.
  - intros [-> Hs]. left. simpl. rewrite bool_decide_eq_true_2 by done.
    by apply list_elem_of_singleton.
Qed.

(** X15.  [unmount] releases the container, as the warning of [mount]
    says.  When the renderer leaves the [__vue_app__] mark of the
    containers alone: after the first [mount] of an app the container
    holds the app, so that in a development build the first [mount] of
    another app into it warns that an app is mounted there already; after
    [unmount] of the first app the container holds no app, and [mount] of
    the other app does not warn. *)
Theorem unmount_releases_the_container (app1 app2 : App) (c : Container)
    (isHydrate1 isHydrate2 : bool) (namespace1 namespace2 : NamespaceArg)
    (h : Host) :
  isMounted app1 = false -> isMounted app2 = false ->
  (forall v c' ns h0, __vue_app__ (render R v c' ns h0) = __vue_app__ h0) ->
  (forall hy v c' h0,
     hydrate R = Some hy -> __vue_app__ (hy v c' h0) = __vue_app__ h0) ->
  let '(_, app1', h1, _) := mount E R app1 c isHydrate1 namespace1 h in
  let '(_, h2, _) := unmount E R app1' h1 in
  __vue_app__ h1 !! c = Some (_uid app1) /\
  (alreadyMounted ∈ (mount E R app2 c isHydrate2 namespace2 h1).2
   <-> __DEV__ (build E) = true) /\
  __vue_app__ h2 !! c = None /\
  alreadyMounted ∉ (mount E R app2 c isHydrate2 namespace2 h2).2.
Proof.
  intros Hm1 Hm2 Hrender Hhydrate.
  destruct (mount_unmounted E R app1 c isHydrate1 namespace1 h Hm1)
    as (app1' & warned & devtools & -> & Hmounted & Hcont & _).
  set (h1 := {| store := _; __vue_app__ := _ |}).
  assert (H1 : __vue_app__ h1 !! c = Some (_uid app1)).
  { unfold h1. simpl. by rewrite lookup_insert_eq. }
  unfold unmount. rewrite Hmounted, Hcont.
  set (h2 := {| store := _; __vue_app__ := delete c _ |}).
  assert (H2 : __vue_app__ h2 !! c = None).
  { unfold h2. simpl. by rewrite lookup_delete_eq. }
  split; [exact H1|]. split; [|split; [exact H2|]].
  - rewrite mount_warns by done. rewrite H1. split; [by intros [? _]|].
    intros Hdev. split; [done|]. by eexists.
  - rewrite mount_warns by done. rewrite H2. intros [_ [x Hx]]. discriminate.
Qed.

End Containers.

(** X15 at work. *)
Lemma unmount_releases_the_container_witness :
  let app1 := exampleApp in
  let app2 := createApp 2%nat 8%nat (TObject 9%nat None) None in
  isMounted app1 = false /\ isMounted app2 = false /\
  (let '(_, app1', h1, _) :=
     mount (F := sharedFlags) (plainEnv true) exampleRenderer app1 5%nat false
       NsUndefined exampleHost in
   let '(_, h2, _) :=
     unmount (plainEnv true) exampleRenderer app1' h1 in
   __vue_app__ h1 !! 5%nat = Some (_uid app1) /\
   __vue_app__ h2 !! 5%nat = None).
Proof.
  intros app1 app2. split; [reflexivity|]. split; [reflexivity|].
  pose proof (unmount_releases_the_container (F := sharedFlags) (plainEnv true)
                exampleRenderer app1 app2 5%nat false false NsUndefined
                NsUndefined exampleHost eq_refl eq_refl) as H.
  destruct (mount (plainEnv true) exampleRenderer app1 5%nat false NsUndefined
              exampleHost) as [[[r app1'] h1] e1].
  destruct (unmount (plainEnv true) exampleRenderer app1' h1) as [[a h2] e2].
  destruct H as (H1 & _ & H2 & _).
  { intros v c' ns h0. by destruct v. }
  { intros hy v c' h0 Hhy. discriminate. }
  done.
Defined.

End ContainerTheory.

(** ** Mounting through runtime-dom *)

Module RuntimeDomTheory.

Import VNodeModel App AppTheory ContainerTheory RuntimeDom.

(** The calls of the renderer among the effects, and the writes to the
    page. *)
Definition isCoreRender (e : DomEffect) : bool :=
  match e with core e' => isRender e' | _ => false end.

Definition isWrite (e : DomEffect) : bool :=
  match e with
  | set_template _ _ | set_textContent _ _ | removeAttribute _ _
  | setAttribute _ _ _ => true
  | _ => false
  end.

Definition renders (effects : list DomEffect) : list DomEffect :=
  filter (fun e => isCoreRender e = true) effects.

Definition writes (effects : list DomEffect) : list DomEffect :=
  filter (fun e => isWrite e = true) effects.

Lemma renders_app l1 l2 : renders (l1 ++ l2) = renders l1 ++ renders l2.
Proof. apply filter_app. Qed.

Lemma writes_app l1 l2 : writes (l1 ++ l2) = writes l1 ++ writes l2.
Proof. apply filter_app. Qed.

Lemma writes_core (l : list Effect) : writes (core <$> l) = [].
Proof. induction l as [|e l IH]; [done|]. exact IH. Qed.

Section DomMount.

Context `{F : SharedFlags} (E : Env) (R : Renderer) (D : Document).

(** The namespace of a container. *)
Definition namespaceOfContainer (c : Container)
  : option PatchProp.ElementNamespace :=
  match kind D c with
  | SVGElement => Some PatchProp.svg
  | MathMLElement =>
      if MathMLElement_defined D then Some PatchProp.mathml else None
  | _ => None
  end.

Lemma namespaceOf_resolveRootNamespace c :
  namespaceOf (resolveRootNamespace D c) = namespaceOfContainer c.
Proof.
  unfold resolveRootNamespace, namespaceOfContainer.
  destruct (kind D c); try done. by destruct (MathMLElement_defined D).
Qed.

Lemma normalizeContainer_quiet arg :
  renders (normalizeContainer E D arg).2 = [] /\
  writes (normalizeContainer E D arg).2 = [].
Proof.
  destruct arg as [sel|c]; simpl; by destruct (_ && _).
Qed.

(** The calls of the renderer in the first [mount] of runtime-core. *)
Lemma renders_mount app c isHydrate ns h :
  isMounted app = false ->
  renders (core <$> (App.mount E R app c isHydrate ns h).2)
  = [core (renderEffect E R app c isHydrate ns h)].
Proof.
  intros Hm. rewrite (mount_effects E R) by done.
  rewrite !fmap_app, !renders_app.
  assert (H1 : renders (core <$> (if __DEV__ (build E)
                 && bool_decide (is_Some (__vue_app__ h !! c))
                 then [alreadyMounted] else [])) = []).
  { by destruct (_ && _). }
  assert (H2 : renders (core <$> (if __DEV__ (build E)
                 || __FEATURE_PROD_DEVTOOLS__ (build E)
                 then [devtoolsInitApp] else [])) = []).
  { by destruct (_ || _). }
  rewrite H1, H2, app_nil_r. simpl. unfold renderEffect.
  by destruct (hydrate R) as [hy|]; [destruct isHydrate|].
Qed.

(** X16.  [createApp] renders and [createSSRApp] hydrates, into the
    namespace of the container.  The first [mount] of an app made by
    [createApp], with a component that is an object or a function, calls
    the renderer once: it renders the root vnode into the container that
    the argument names, with the namespace [svg] when the container is an
    [SVGElement], [mathml] when it is a [MathMLElement], and none
    otherwise; it never hydrates, whatever the renderer can do.  The
    [mount] of an app made by [createSSRApp] hydrates the root vnode
    instead, when the renderer can hydrate, and writes nothing to the
    page.  With a selector that matches no element both return
    [undefined], call no renderer and change nothing. *)
Theorem dom_mount_renders_or_hydrates (app : App) (arg : ContainerArg)
    (p : Page) :
  isMounted app = false ->
  VNodeModel.isFunction (_component app) || VNodeModel.isObject (_component app)
  = true ->
  (let '(proxy, app', p', effects) := mount E R D app arg p in
   match (normalizeContainer E D arg).1 with
   | Some c =>
       renders effects
       = [core (rendered (Some (rootVNode E app (host p)).1) (Some c)
                  (namespaceOfContainer c))] /\
       isMounted app' = true /\ _container app' = Some c
   | None =>
       proxy = VUndefined /\ app' = app /\ p' = p /\
       renders effects = [] /\ writes effects = []
   end) /\
  (forall hy, hydrate R = Some hy ->
   let '(proxy, app', p', effects) := mountSSR E R D app arg p in
   match (normalizeContainer E D arg).1 with
   | Some c =>
       renders effects
       = [core (hydrated (rootVNode E app (host p)).1 c)] /\
       writes effects = [] /\
       isMounted app' = true /\ _container app' = Some c
   | None =>
       proxy = VUndefined /\ app' = app /\ p' = p /\
       renders effects = [] /\ writes effects = []
   end).
Proof.
  intros Hm Hcomp.
  destruct (normalizeContainer_quiet arg) as [Hr Hw].
  split.
  - unfold mount.
    destruct (normalizeContainer E D arg) as [[c|] warned]; simpl in *; [|done].
    rewrite Hcomp. simpl.
    set (tpl := if _ && negb (truthy (component_template p (_component app)))
                then _ else _).
    assert (Ht : host tpl.1 = host p /\ renders tpl.2 = []).
    { unfold tpl. by destruct (_ && _). }
    destruct tpl as [p1 templated]. simpl in Ht. destruct Ht as [Hh Ht].
    rewrite Hh.
    pose proof (renders_mount app c false (resolveRootNamespace D c) (host p) Hm)
      as Hrm.
    destruct (mount_unmounted E R app c false (resolveRootNamespace D c)
                (host p) Hm)
      as (app' & w & dv & Heq & Hmounted & Hcont & _).
    destruct (App.mount E R app c false (resolveRootNamespace D c) (host p))
      as [[[proxy app''] h'] effects].
    injection Heq as _ <- _ _. simpl in Hrm.
    split; [|done].
    rewrite !renders_app, Hr, Ht, Hrm.
    assert (Hc : renders (if isElement (kind D c)
                          then [set_textContent c EmptyString] else []) = [])
      by (by destruct (isElement _)).
    assert (Ha : renders (if isElement (kind D c)
                          then [removeAttribute c "v-cloak";
                                setAttribute c "data-v-app" EmptyString]
                          else []) = [])
      by (by destruct (isElement _)).
    rewrite Hc, Ha. simpl. unfold renderEffect.
    rewrite namespaceOf_resolveRootNamespace.
    by destruct (hydrate R).
  - intros hy Hhy. unfold mountSSR.
    destruct (normalizeContainer E D arg) as [[c|] warned]; simpl in *; [|done].
    pose proof (renders_mount app c true (resolveRootNamespace D c) (host p) Hm)
      as Hrm.
    destruct (mount_unmounted E R app c true (resolveRootNamespace D c)
                (host p) Hm)
      as (app' & w & dv & Heq & Hmounted & Hcont & _).
    destruct (App.mount E R app c true (resolveRootNamespace D c) (host p))
      as [[[proxy app''] h'] effects].
    injection Heq as _ <- _ _. simpl in Hrm.
    rewrite renders_app, writes_app, Hr, Hw, Hrm, writes_core.
    unfold renderEffect. rewrite Hhy. done.
Qed.

(** What [mount] writes to the container. *)
Definition isContainerWrite (e : DomEffect) : bool :=
  match e with
  | set_textContent _ _ | removeAttribute _ _ | setAttribute _ _ _ => true
  | _ => false
  end.

Definition containerWrites (effects : list DomEffect) : list DomEffect :=
  filter (fun e => isContainerWrite e = true) effects.

Lemma containerWrites_app l1 l2 :
  containerWrites (l1 ++ l2) = containerWrites l1 ++ containerWrites l2.
Proof. apply filter_app. Qed.

Lemma containerWrites_core (l : list Effect) :
  containerWrites (core <$> l) = [].
Proof. induction l as [|e l IH]; [done|]. exact IH. Qed.

Lemma normalizeContainer_writes_nothing arg :
  containerWrites (normalizeContainer E D arg).2 = [].
Proof.
  destruct arg as [sel|c]; simpl; by destruct (_ && _).
Qed.

(** X17.  A second [mount] empties the container and mounts nothing.
    When the app is mounted, [mount] of an app made by [createApp], given
    an element, still sets the [textContent] of the element to the empty
    string, removes its [v-cloak] attribute and sets [data-v-app]; the
    [mount] of runtime-core that it calls in between calls no renderer,
    returns [undefined], and leaves the app and the vnodes as they were. *)
Theorem dom_mount_again_empties_the_container (app : App)
    (arg : ContainerArg) (c : Container) (p : Page) :
  isMounted app = true ->
  VNodeModel.isFunction (_component app) || VNodeModel.isObject (_component app)
  = true ->
  (normalizeContainer E D arg).1 = Some c ->
  isElement (kind D c) = true ->
  let '(proxy, app', p', effects) := mount E R D app arg p in
  proxy = VUndefined /\ app' = app /\ host p' = host p /\
  renders effects = [] /\
  containerWrites effects
  = [set_textContent c EmptyString; removeAttribute c "v-cloak";
     setAttribute c "data-v-app" EmptyString].
Proof.
  intros Hm Hcomp Hc Hel.
  destruct (normalizeContainer_quiet arg) as [Hr _].
  pose proof (normalizeContainer_writes_nothing arg) as Hw.
  unfold mount.
  destruct (normalizeContainer E D arg) as [c' warned]. simpl in *.
  subst c'. rewrite Hcomp, Hel. simpl.
  set (tpl := if _ && negb (truthy (component_template p (_component app)))
              then _ else _).
  assert (Ht : host tpl.1 = host p /\ renders tpl.2 = []
               /\ containerWrites tpl.2 = []).
  { unfold tpl. by destruct (_ && _). }
  destruct tpl as [p1 templated]. simpl in Ht.
  destruct Ht as (Hh & Ht & Htw).
  unfold App.mount. rewrite Hm. simpl.
  rewrite Hh. repeat split; try done.
  - rewrite !renders_app, Hr, Ht. by destruct (__DEV__ (build E)).
  - rewrite !containerWrites_app, Hw, Htw. by destruct (__DEV__ (build E)).
Qed.

End DomMount.

(** A renderer that can hydrate, a page whose element [#app] is the
    container 3, an [SVGElement], and the vnodes and components before
    any mount. *)
Definition hydratingRenderer : Renderer :=
  {| render := render exampleRenderer;
     hydrate := Some (fun _ _ h => h);
     getComponentPublicInstance :=
       getComponentPublicInstance exampleRenderer |}.

Definition exampleDocument : Document :=
  {| querySelector := fun selector =>
       if bool_decide (selector = "#app"%string) then Some 3%nat else None;
     kind := fun c =>
       if bool_decide (c = 3%nat) then SVGElement else HTMLElement;
     innerHTML := fun _ => "<circle/>"%string;
     MathMLElement_defined := true;
     ShadowRoot_defined := true;
     component_render := fun _ => VUndefined |}.

Definition examplePage : Page :=
  {| host := exampleHost; component_template := fun _ => VUndefined |}.

(** X16 at work: [createApp(...).mount('#app')] renders into the svg
    namespace, though the renderer can hydrate. *)
Lemma dom_mount_renders_or_hydrates_witness :
  isMounted exampleApp = false /\
  VNodeModel.isFunction (_component exampleApp)
  || VNodeModel.isObject (_component exampleApp) = true /\
  (let '(proxy, app', p', effects) :=
     mount (F := sharedFlags) (plainEnv true) hydratingRenderer
       exampleDocument exampleApp (Selector "#app") examplePage in
   renders effects
   = [core (rendered
              (Some (rootVNode (F := sharedFlags) (plainEnv true) exampleApp
                       exampleHost).1)
              (Some 3%nat) (Some PatchProp.svg))] /\
   isMounted app' = true /\ _container app' = Some 3%nat).
Proof.
  split; [reflexivity|]. split; [reflexivity|].
  exact (proj1 (dom_mount_renders_or_hydrates (F := sharedFlags)
                  (plainEnv true) hydratingRenderer exampleDocument
                  exampleApp (Selector "#app") examplePage
                  eq_refl eq_refl)).
Defined.

(** The app after its first mount into the container 3. *)
Definition mountedApp : App :=
  (App.mount (F := sharedFlags) (plainEnv true) exampleRenderer exampleApp
     3%nat false NsUndefined exampleHost).1.1.2.

(** X17 at work: a second [mount('#app')]. *)
Lemma dom_mount_again_empties_the_container_witness :
  isMounted mountedApp = true /\
  VNodeModel.isFunction (_component mountedApp)
  || VNodeModel.isObject (_component mountedApp) = true /\
  (normalizeContainer (plainEnv true) exampleDocument (Selector "#app")).1
  = Some 3%nat /\
  isElement (kind exampleDocument 3%nat) = true /\
  (let '(proxy, app', p', effects) :=
     mount (F := sharedFlags) (plainEnv true) exampleRenderer
       exampleDocument mountedApp (Selector "#app") examplePage in
   proxy = VUndefined /\ app' = mountedApp /\ host p' = host examplePage /\
   renders effects = [] /\
   containerWrites effects
   = [set_textContent 3%nat EmptyString; removeAttribute 3%nat "v-cloak";
      setAttribute 3%nat "data-v-app" EmptyString]).
Proof.
  split; [reflexivity|]. split; [reflexivity|].
  split; [reflexivity|]. split; [reflexivity|].
  exact (dom_mount_again_empties_the_container (F := sharedFlags)
           (plainEnv true) exampleRenderer exampleDocument mountedApp
           (Selector "#app") 3%nat examplePage
           eq_refl eq_refl eq_refl eq_refl).
Defined.

(** *** The renderer of the module *)

Lemma ensures_app calls1 calls2 m :
  ensures (calls1 ++ calls2) m
  = let '(rs1, m1) := ensures calls1 m in
    let '(rs2, m2) := ensures calls2 m1 in
    (rs1 ++ rs2, m2).
Proof.
  revert m. induction calls1 as [|c calls1 IH]; intros m; simpl.
  - by destruct (ensures calls2 m).
  - destruct (ensure c m) as [r m1]. rewrite IH.
    destruct (ensures calls1 m1) as [rs1 m2].
    by destruct (ensures calls2 m2).
Qed.

(** A renderer that is there is the one that [ensureRenderer] returns. *)
Lemma ensures_ensureRenderer n m r :
  renderer m = Some r ->
  ensures (replicate n EnsureRenderer) m = (replicate n (Some r), m).
Proof.
  intros Hr. induction n as [|n IH]; [done|].
  simpl. unfold ensureRenderer. rewrite Hr. by rewrite IH.
Qed.

(** Once hydration is enabled, every call returns the renderer that is
    there. *)
Lemma ensures_enabledHydration calls m r :
  enabledHydration m = true -> renderer m = Some r ->
  ensures calls m = (replicate (length calls) (Some r), m).
Proof.
  intros He Hr. induction calls as [|c calls IH]; [done|].
  assert (Hc : ensure c m = (Some r, m)).
  { destruct c; simpl.
    - unfold ensureRenderer. by rewrite Hr.
    - unfold ensureHydrationRenderer. rewrite He, Hr.
      destruct m; simpl in *. by subst. }
  simpl. by rewrite Hc, IH.
Qed.

(** The renderers that the module makes: the first is made by
    [createRenderer] in [ensureRenderer], or by [createHydrationRenderer]
    when [ensureHydrationRenderer] is called first. *)
Definition plainRenderer : RendererObject :=
  {| hydration := false; serial := O |}.

Definition hydrationRenderer (n : nat) : RendererObject :=
  {| hydration := true; serial := if n is O then O else 1%nat |}.

(** X18.  One renderer, until hydration replaces it.  From the loading of
    the module, every call of [ensureRenderer] before the first call of
    [ensureHydrationRenderer] returns the same renderer, made by
    [createRenderer] in the first of them.  The first call of
    [ensureHydrationRenderer] makes a hydration renderer, and that call
    and every later call of either function return it: a renderer is made
    at most twice, and after [createSSRApp] the apps of [createApp] use
    the hydration renderer too. *)
Theorem renderer_is_made_once_of_each_kind (n : nat) (later : list Ensure) :
  ensures (replicate n EnsureRenderer) loaded
  = (replicate n (Some plainRenderer),
     if n is O then loaded
     else {| renderer := Some plainRenderer; enabledHydration := false;
             made := 1 |}) /\
  ensures (replicate n EnsureRenderer ++ EnsureHydrationRenderer :: later)
    loaded
  = (replicate n (Some plainRenderer)
     ++ replicate (Datatypes.S (length later)) (Some (hydrationRenderer n)),
     {| renderer := Some (hydrationRenderer n); enabledHydration := true;
        made := if n is O then 1%nat else 2%nat |}).
Proof.
  assert (H1 : ensures (replicate n EnsureRenderer) loaded
               = (replicate n (Some plainRenderer),
                  if n is O then loaded
                  else {| renderer := Some plainRenderer;
                          enabledHydration := false; made := 1 |})).
  { destruct n as [|n]; [done|].
    change (replicate (Datatypes.S n) EnsureRenderer)
      with ([EnsureRenderer] ++ replicate n EnsureRenderer).
    rewrite ensures_app. cbn [ensures ensure]. unfold ensureRenderer at 1.
    cbn [renderer loaded].
    by rewrite (ensures_ensureRenderer n _ plainRenderer). }
  split; [exact H1|].
  rewrite ensures_app, H1.
  cbn [ensures ensure]. unfold ensureHydrationRenderer.
  destruct n as [|n]; cbn [enabledHydration loaded made].
  - by rewrite (ensures_enabledHydration later _ (hydrationRenderer O)).
  - by rewrite (ensures_enabledHydration later _
                  (hydrationRenderer (Datatypes.S n))).
Qed.

End RuntimeDomTheory.

(** ** The cleanup functions of an app *)

Module AppCleanupTheory.

Import VNodeModel App AppCleanup.

(** The values given to [onUnmount] in a sequence of calls, in order. *)
Definition given (cs : list Method) : list Handle :=
  omap (fun c => match c with CallOnUnmount f => Some f | _ => None end) cs.

(** The calls of the cleanup functions among the effects. *)
Definition isCleanup (e : Effect) : bool :=
  match e with cleanupCalled _ _ => true | _ => false end.

Section Cleanup.

Context `{F : SharedFlags} (E : Env) (R : Renderer).
Variable typeof : Handle -> string.

Lemma pluginCleanupFns_mount app rc hy ns h :
  pluginCleanupFns (mount E R app rc hy ns h).1.1.2 = pluginCleanupFns app.
Proof.
  unfold mount. destruct (isMounted app); [done|]. simpl.
  destruct (match _ceVNode app with
            | Some r => (r, store h)
            | None => _
            end) as [vnode st].
  by destruct (hydrate R) as [hyd|]; [destruct hy|].
Qed.

Lemma pluginCleanupFns_unmount app h :
  pluginCleanupFns (unmount E R app h).1.1 = pluginCleanupFns app.
Proof.
  unfold unmount. destruct (isMounted app); [|done].
  by destruct (_container app).
Qed.

Lemma pluginCleanupFns_method c app h :
  pluginCleanupFns (method E R typeof c app h).1.1
  = pluginCleanupFns app ++ given [c].
Proof.
  destruct c as [rc hy ns| |f]; simpl.
  - pose proof (pluginCleanupFns_mount app rc hy ns h) as H.
    destruct (mount E R app rc hy ns h) as [[[v app'] h'] e]. simpl in *.
    by rewrite app_nil_r.
  - by rewrite pluginCleanupFns_unmount, app_nil_r.
  - done.
Qed.

(** X19.  The cleanup functions of an app are kept, and [unmount] runs
    them all.  After any sequence of calls of [mount], [unmount] and
    [onUnmount], the app holds the values that it held before, followed by
    every value given to [onUnmount], in the order of the calls, functions
    or not; no [unmount] in between takes one away.  An [unmount] then
    hands exactly these to [callWithAsyncErrorHandling], with the instance
    of the app, before anything else, when the app is mounted, and calls
    none of them when it is not. *)
Theorem unmount_runs_every_cleanup (cs : list Method) (app : App) (h : Host) :
  let '(app1, h1, _) := methods E R typeof cs app h in
  pluginCleanupFns app1 = pluginCleanupFns app ++ given cs /\
  let '(_, _, effects) := unmount E R app1 h1 in
  if isMounted app1
  then filter (fun e => isCleanup e = true) effects
       = [cleanupCalled (pluginCleanupFns app ++ given cs)
            (_instance app1)] /\
       head effects
       = Some (cleanupCalled (pluginCleanupFns app ++ given cs)
                 (_instance app1))
  else filter (fun e => isCleanup e = true) effects = [].
Proof.
  assert (Hkept : forall cs app h,
            pluginCleanupFns (methods E R typeof cs app h).1.1
            = pluginCleanupFns app ++ given cs).
  { clear cs app h. induction cs as [|c cs IH]; intros app h.
    - simpl. by rewrite app_nil_r.
    - pose proof (pluginCleanupFns_method c app h) as Hc. simpl.
      destruct (method E R typeof c app h) as [[app1 h1] e1].
      specialize (IH app1 h1).
      destruct (methods E R typeof cs app1 h1) as [[app2 h2] e2].
      simpl in *. rewrite IH, Hc, <- app_assoc. f_equal.
      unfold given. by destruct c. }
  specialize (Hkept cs app h).
  destruct (methods E R typeof cs app h) as [[app1 h1] e]. simpl in Hkept.
  split; [exact Hkept|].
  unfold unmount. rewrite <- Hkept.
  destruct (isMounted app1).
  - destruct (_container app1);
      by destruct (__DEV__ (build E) || __FEATURE_PROD_DEVTOOLS__ (build E)).
  - by destruct (__DEV__ (build E)).
Qed.

End Cleanup.

End AppCleanupTheory.
